(** * Price comparison tool: a shallow embedding of [search for best deal.py]

    The development follows the script top-down: Python strings and
    floats first, then [WebScraper] (text cleaning, price extraction,
    relevance, the three storefront scrapers), then
    [PriceComparisonTool.search_products] and finally [DatabaseManager].
    The remaining helpers of [WebScraper] (normal forms, scores, search
    variations, availability, product identifiers), the [_shorten_url] of
    the module and the other methods of [PriceComparisonTool] come after
    the sample data.

    Conventions.
    - A Python [str] is a [string]; a character is its code point, so the
      model covers the code points below 256 (Latin-1).  The character
      classes below are the ones CPython assigns to that range.
    - A Python [float] is an IEEE binary64 number, a [spec_float] with
      precision 53 and maximal exponent 1024.
    - A call that may raise returns an [outcome]. *)

From Stdlib Require Import ZArith List String Ascii Bool Lia.
From Stdlib Require Import Permutation Sorted.
From Stdlib Require Import Floats.SpecFloat.
Import ListNotations.

Local Open Scope string_scope.
Local Open Scope Z_scope.

(** ** Exceptions *)

Inductive exn : Type :=
| ValueError
| AttributeError
| TypeError
| ZeroDivisionError.

Inductive outcome (A : Type) : Type :=
| Returns (a : A)
| Raises (e : exn).

Arguments Returns {A} a.
Arguments Raises {A} e.

(** ** Python strings over Latin-1 *)

Module PyStr.

Definition code (c : ascii) : N := N_of_ascii c.

Definition between (lo hi : N) (c : ascii) : bool :=
  (lo <=? code c)%N && (code c <=? hi)%N.

Definition code_is (n : N) (c : ascii) : bool := (code c =? n)%N.

(** [\d] of the [re] module: the decimal digits (category Nd). *)
Definition re_digit (c : ascii) : bool := between 48 57 c.

(** [str.isspace]: TAB..CR, FS..US, space, NEL and NBSP. *)
Definition isspace (c : ascii) : bool :=
  between 9 13 c || between 28 32 c || code_is 133 c || code_is 160 c.

(** [str.isalnum]: letters and numeric characters. *)
Definition isalnum (c : ascii) : bool :=
  between 48 57 c || between 65 90 c || between 97 122 c
  || code_is 170 c || code_is 178 c || code_is 179 c
  || code_is 181 c || code_is 185 c || code_is 186 c
  || between 188 190 c
  || between 192 214 c || between 216 246 c || between 248 255 c.

(** [str.lower] on one character.  Below 256 the lowercase of a character
    is one character of the same range, which is what makes [lower] a map
    over the characters.  Beyond that range it need not be: U+0130 becomes
    two characters, the second of which is not alphanumeric.  A statement
    that needs the lowercase of a kept character to be kept says so in a
    hypothesis. *)
Definition lower_char (c : ascii) : ascii :=
  if between 65 90 c || between 192 214 c || between 216 222 c
  then ascii_of_N (code c + 32)
  else c.

Fixpoint map (f : ascii -> ascii) (s : string) : string :=
  match s with
  | EmptyString => EmptyString
  | String c s' => String (f c) (map f s')
  end.

Fixpoint filter (p : ascii -> bool) (s : string) : string :=
  match s with
  | EmptyString => EmptyString
  | String c s' => if p c then String c (filter p s') else filter p s'
  end.

(** [all(p(c) for c in s)] *)
Fixpoint all (p : ascii -> bool) (s : string) : bool :=
  match s with
  | EmptyString => true
  | String c s' => p c && all p s'
  end.

(** [c in s] for a one-character [c]. *)
Fixpoint mem (c : ascii) (s : string) : bool :=
  match s with
  | EmptyString => false
  | String c' s' => Ascii.eqb c c' || mem c s'
  end.

Definition lower (s : string) : string := map lower_char s.

(** [s.replace(c, '')] and [s.replace(c, d)] for one-character [c], [d]. *)
Definition remove (c : ascii) (s : string) : string :=
  filter (fun x => negb (Ascii.eqb x c)) s.

Definition replace (c d : ascii) (s : string) : string :=
  map (fun x => if Ascii.eqb x c then d else x) s.

(** [sub in s]. *)
Fixpoint contains (sub s : string) : bool :=
  String.prefix sub s
  || match s with
     | EmptyString => false
     | String _ s' => contains sub s'
     end.

(** [s.split()]: the maximal runs of non-whitespace characters.
    [word] is the run being read, in reverse. *)
Fixpoint split_aux (word : list ascii) (s : string) : list string :=
  let flush := match word with
               | [] => []
               | _ => [string_of_list_ascii (List.rev word)]
               end in
  match s with
  | EmptyString => flush
  | String c s' =>
      if isspace c then flush ++ split_aux [] s'
      else split_aux (c :: word) s'
  end.

Definition split (s : string) : list string := split_aux [] s.

(** [sep.join(words)]. *)
Fixpoint join (sep : string) (words : list string) : string :=
  match words with
  | [] => EmptyString
  | [w] => w
  | w :: ws => w ++ sep ++ join sep ws
  end.

(** [s.strip()]. *)
Fixpoint lstrip (s : string) : string :=
  match s with
  | EmptyString => EmptyString
  | String c s' => if isspace c then lstrip s' else s
  end.

Definition rev (s : string) : string :=
  string_of_list_ascii (List.rev (list_ascii_of_string s)).

Definition strip (s : string) : string := rev (lstrip (rev (lstrip s))).

(** [s.startswith(p)] and [s[:n]]. *)
Definition startswith (p s : string) : bool := String.prefix p s.

Definition take (n : nat) (s : string) : string := String.substring 0 n s.

(** A test that holds of the 256 characters holds of every [ascii]. *)
Definition both (q : bool -> bool) : bool := q true && q false.

Definition every_ascii (p : ascii -> bool) : bool :=
  both (fun b0 => both (fun b1 => both (fun b2 => both (fun b3 =>
  both (fun b4 => both (fun b5 => both (fun b6 => both (fun b7 =>
    p (Ascii b0 b1 b2 b3 b4 b5 b6 b7))))))))).

End PyStr.

(** ** Python floats *)

Module PyFloat.

Definition float : Type := spec_float.

Definition prec : Z := 53.
Definition emax : Z := 1024.
Definition emin : Z := 3 - emax - prec.

(** Numerator and denominator of [(m / n) * 2^(-e)]. *)
Definition scaled (m n e : Z) : Z * Z :=
  if e <? 0 then (m * 2 ^ (- e), n) else (m, n * 2 ^ e).

(** [floor (log2 (m / n))] for positive [m] and [n]. *)
Definition ilog2_ratio (m n : Z) : Z :=
  let d := Z.log2 m - Z.log2 n in
  let '(a, b) := scaled m n d in
  if b <=? a then d else d - 1.

(** Round to nearest, ties to even, of the quotient [q] with remainder
    [r] of a division by [b]. *)
Definition nearest_even (q r b : Z) : Z :=
  if 2 * r <? b then q
  else if b <? 2 * r then q + 1
  else if Z.even q then q else q + 1.

(** The binary64 number nearest to [m / n], for [0 <= m] and [0 < n]:
    what [float("...")] does with a decimal literal and what [/] does
    with two integers. *)
Definition round_div (m n : Z) : float :=
  if m <=? 0 then S754_zero false
  else
    let e := Z.max (ilog2_ratio m n - (prec - 1)) emin in
    let '(a, b) := scaled m n e in
    let q := nearest_even (a / b) (a mod b) b in
    let '(q, e) := if q =? 2 ^ prec then (2 ^ (prec - 1), e + 1) else (q, e) in
    if q =? 0 then S754_zero false
    else if emax <? e + prec then S754_infinity false
    else S754_finite false (Z.to_pos q) e.

(** [float(n)] for an integer [0 <= n]. *)
Definition of_int (n : Z) : float := round_div n 1.

(** [a / b] on two non-negative integers. *)
Definition truediv (a b : nat) : outcome float :=
  match b with
  | O => Raises ZeroDivisionError
  | S _ => Returns (round_div (Z.of_nat a) (Z.of_nat b))
  end.

(** Comparisons; each is false when an operand is NaN. *)
Definition lt (x y : float) : bool := SFltb x y.
Definition le (x y : float) : bool := SFleb x y.
Definition ge (x y : float) : bool := SFleb y x.
Definition eq (x y : float) : bool := SFeqb x y.

(** Truth value of a float: [bool(x)] is [x != 0.0]. *)
Definition truthy (x : float) : bool :=
  match x with
  | S754_zero _ => false
  | _ => true
  end.

Definition is_nan (x : float) : bool :=
  match x with
  | S754_nan => true
  | _ => false
  end.

Definition digit_value (c : ascii) : Z := Z.of_N (PyStr.code c) - 48.

Fixpoint digits_value (acc : Z) (s : string) : Z :=
  match s with
  | EmptyString => acc
  | String c s' => digits_value (10 * acc + digit_value c) s'
  end.

(** Splits at the first ['.']: the text before it and, when there is
    one, the text after it. *)
Fixpoint cut_at_point (s : string) : string * option string :=
  match s with
  | EmptyString => (EmptyString, None)
  | String c s' =>
      if Ascii.eqb c "."
      then (EmptyString, Some s')
      else let '(i, f) := cut_at_point s' in (String c i, f)
  end.

(** [float(s)] on the strings that reach it in this program: those
    made of decimal digits and ['.'] (see [float_argument_alphabet]).
    Such a string is a float literal when it has the shape
    [digits], [digits.], [.digits] or [digits.digits]; anything else
    is a [ValueError].  No sign, exponent, blank or underscore can
    occur in that alphabet. *)
Definition of_str (s : string) : outcome float :=
  let '(i, f) := cut_at_point s in
  let f := match f with Some f => f | None => EmptyString end in
  if PyStr.all PyStr.re_digit i && PyStr.all PyStr.re_digit f
     && (0 <? String.length (i ++ f))%nat
  then Returns (round_div (digits_value 0 (i ++ f))
                          (10 ^ Z.of_nat (String.length f)))
  else Raises ValueError.

(** A float other than NaN is placed by a triple compared
    lexicographically: sign class, exponent, mantissa. *)
Definition cmp_key (x : float) : option (Z * Z * Z) :=
  match x with
  | S754_nan => None
  | S754_zero _ => Some (0, 0, 0)
  | S754_infinity s => Some (if s then -2 else 2, 0, 0)
  | S754_finite s m e =>
      Some (if s then (-1, - e, - Zpos m) else (1, e, Zpos m))
  end.

Definition lex (a b : Z * Z * Z) : comparison :=
  let '(a1, a2, a3) := a in
  let '(b1, b2, b3) := b in
  match a1 ?= b1 with
  | Eq => match a2 ?= b2 with
          | Eq => a3 ?= b3
          | c => c
          end
  | c => c
  end.

(** The sign bit, as [math.copysign(1, x) < 0] reads it. *)
Definition sign_bit (x : float) : bool :=
  match x with
  | S754_zero s | S754_infinity s | S754_finite s _ _ => s
  | S754_nan => false
  end.

Definition zero : float := S754_zero false.

(** The floats that [round_div] can produce: not negative, not a negative
    zero, not NaN. *)
Definition unsigned (x : float) : Prop :=
  sign_bit x = false /\ is_nan x = false.

(** [x] is finite, positive and within half a unit in the last place of
    [num / den]. *)
Definition nearest_to (x : float) (num den : Z) : bool :=
  match x with
  | S754_finite false m e =>
      if e <? 0
      then 2 * Z.abs (den * Zpos m - num * 2 ^ (- e)) <=? den
      else 2 * Z.abs (den * (Zpos m * 2 ^ e) - num) <=? den * 2 ^ e
  | _ => false
  end.

End PyFloat.

Import PyFloat.

(** ** The scraped data *)

(** [Product]: the dataclass of the script.  [price] is declared a
    float, but the script tests it against [None] wherever it reads it;
    [timestamp] is a clock reading. *)
Record Product : Type := {
  name : string;
  price : option float;
  website : string;
  url : string;
  timestamp : Z
}.

(** One result item of a search page, as the selectors of a scraper see
    it: the text of the element chosen for the name, the text of the
    element chosen for the price, the [href] of the product link, each
    absent when no element matches, and the reading of [datetime.now()]
    when the item is turned into a product. *)
Record Item : Type := {
  name_elem : option string;
  price_elem : option string;
  link : option string;
  seen_at : Z
}.

(** What [get_soup] returns: the items of the page, or [None]. *)
Definition Page : Type := option (list Item).

(** ** [WebScraper] *)

Module WebScraper.

(** [_clean_text_for_comparison]: [kept] is the test of its
    comprehension. *)
Definition kept (c : ascii) : bool :=
  PyStr.isalnum c || PyStr.isspace c || Ascii.eqb c "-".

Definition _clean_text_for_comparison (text : string) : string :=
  let cleaned := PyStr.filter kept text in
  PyStr.join " " (PyStr.split (PyStr.lower cleaned)).

(** [re.findall(r'([a-z0-9]+-?[a-z0-9]+)', s)].  The pattern is a run of
    [[a-z0-9]], an optional hyphen, and a second run.  Greedy matching
    with backtracking makes a match, from the start of a run, either
    [run-run] with both runs maximal, or one maximal run of at least
    two characters; a single character not followed by [-run] matches
    nothing.  The scanner below reads the text once; its state is the
    part of a match read so far. *)
Definition model_char (c : ascii) : bool :=
  PyStr.between 97 122 c || PyStr.between 48 57 c.

Inductive scan : Type :=
| Idle
| First (r1 : string)
| Hyphen (r1 : string)
| Second (r1 r2 : string).

Definition snoc (s : string) (c : ascii) : string := s ++ String c "".

Definition emit_first (r1 : string) : list string :=
  if (2 <=? String.length r1)%nat then [r1] else [].

Fixpoint findall_model_from (st : scan) (s : string) : list string :=
  match s with
  | EmptyString =>
      match st with
      | Idle => []
      | First r1 | Hyphen r1 => emit_first r1
      | Second r1 r2 => [r1 ++ "-" ++ r2]
      end
  | String c s' =>
      if model_char c then
        match st with
        | Idle => findall_model_from (First (String c "")) s'
        | First r1 => findall_model_from (First (snoc r1 c)) s'
        | Hyphen r1 => findall_model_from (Second r1 (String c "")) s'
        | Second r1 r2 => findall_model_from (Second r1 (snoc r2 c)) s'
        end
      else
        match st with
        | Idle => findall_model_from Idle s'
        | First r1 =>
            if Ascii.eqb c "-" then findall_model_from (Hyphen r1) s'
            else emit_first r1 ++ findall_model_from Idle s'
        | Hyphen r1 => emit_first r1 ++ findall_model_from Idle s'
        | Second r1 r2 => (r1 ++ "-" ++ r2) :: findall_model_from Idle s'
        end
  end.

Definition findall_model (s : string) : list string :=
  findall_model_from Idle s.

(** [bool(set(l1) & set(l2))] *)
Definition share_element (l1 l2 : list string) : bool :=
  existsb (fun x => existsb (String.eqb x) l2) l1.

(** [_exact_text_match] *)
Definition _exact_text_match (text1 text2 : string) : bool :=
  let t1 := _clean_text_for_comparison text1 in
  let t2 := _clean_text_for_comparison text2 in
  if String.eqb t1 t2 then true
  else if String.eqb (PyStr.remove " " t1) (PyStr.remove " " t2) then true
  else share_element (findall_model t1) (findall_model t2).

(** [_extract_price], the second definition of the class, which is the
    one in force.  [re.sub(r'[^\d.,]', '', price_text)] keeps the
    digits, ['.'] and [',']. *)
Definition price_char (c : ascii) : bool :=
  PyStr.re_digit c || Ascii.eqb c "." || Ascii.eqb c ",".

Definition price_chars (price_text : string) : string :=
  PyStr.filter price_char price_text.

Definition number_format (price_text : string) : string :=
  if PyStr.mem "," price_text && PyStr.mem "." price_text
  then PyStr.remove "," price_text
  else if PyStr.mem "," price_text
  then PyStr.replace "," "." price_text
  else price_text.

Definition _extract_price (price_text : string) : outcome (option float) :=
  match PyFloat.of_str (number_format (price_chars price_text)) with
  | Returns x => Returns (Some x)
  | Raises ValueError | Raises AttributeError => Returns None
  | Raises e => Raises e
  end.

(** [_check_relevance] *)
Definition critical_terms (search_terms : list string) : list string :=
  if PyStr.contains "lenovo legion"
       (PyStr.lower (PyStr.join " " search_terms))
  then ["lenovo"; "legion"; "laptop"]
  else [].

(** [not critical_terms or all(term in product_name for ...)], on the
    lowercased name. *)
Definition critical_gate (product_name : string) (search_terms : list string)
  : bool :=
  forallb (fun term => PyStr.contains term (PyStr.lower product_name))
          (critical_terms search_terms).

Definition matches (product_name : string) (search_terms : list string)
  : nat :=
  List.length
    (List.filter
       (fun term => PyStr.contains (PyStr.lower term) product_name)
       search_terms).

Definition is_empty {A : Type} (l : list A) : bool :=
  match l with
  | [] => true
  | _ => false
  end.

Definition _check_relevance (product_name : string)
           (search_terms : list string) : outcome bool :=
  if String.eqb product_name "" || is_empty search_terms
  then Returns false
  else
    let product_name := PyStr.lower product_name in
    let critical := critical_terms search_terms in
    if negb (is_empty critical)
       && negb (forallb (fun term => PyStr.contains term product_name)
                        critical)
    then Returns false
    else
      match PyFloat.truediv (matches product_name search_terms)
                            (List.length search_terms) with
      | Returns ratio =>
          (* the literal 0.4 is the float nearest to 4/10 *)
          Returns (PyFloat.ge ratio (round_div 4 10))
      | Raises e => Raises e
      end.

(** The body of the [for item in items[:30]] loop shared by the three
    scrapers, up to the way the link is completed: [None] stands for
    [continue], also when the body raises, since every exception is
    caught and the item dropped. *)
Definition scrape_item (site : string) (complete : string -> string)
           (item : Item) : option Product :=
  match name_elem item, price_elem item, link item with
  | Some name_text, Some price_text, Some href =>
      match _extract_price price_text with
      | Returns (Some p) =>
          if PyFloat.truthy p
          then Some {| name := PyStr.strip name_text;
                       price := Some p;
                       website := site;
                       url := complete href;
                       timestamp := seen_at item |}
          else None
      | Returns None => None
      | Raises _ => None
      end
  | _, _, _ => None
  end.

Fixpoint keep_some {A : Type} (l : list (option A)) : list A :=
  match l with
  | [] => []
  | Some a :: l' => a :: keep_some l'
  | None :: l' => keep_some l'
  end.

Definition scrape (site : string) (complete : string -> string)
           (page : Page) : list Product :=
  match page with
  | None => []
  | Some items => keep_some (List.map (scrape_item site complete)
                                      (firstn 30 items))
  end.

Definition absolute (prefix href : string) : string :=
  if PyStr.startswith "http" href then href else prefix ++ href.

Definition scrape_amazon (page : Page) : list Product :=
  scrape "Amazon Egypt" (absolute "https://www.amazon.eg") page.

Definition scrape_noon (page : Page) : list Product :=
  scrape "Noon Egypt" (fun href => "https://www.noon.com" ++ href) page.

Definition scrape_carrefour (page : Page) : list Product :=
  scrape "Carrefour Egypt" (absolute "https://www.carrefouregypt.com") page.

End WebScraper.

Import WebScraper.

(** ** [PriceComparisonTool.search_products] *)

Module PriceComparisonTool.

(** [a < b] on two sort keys: a [None] key cannot be compared. *)
Definition key_lt (a b : option float) : outcome bool :=
  match a, b with
  | Some x, Some y => Returns (PyFloat.lt x y)
  | _, _ => Raises TypeError
  end.

Definition price_lt (a b : Product) : bool :=
  match key_lt (price a) (price b) with
  | Returns r => r
  | Raises _ => false
  end.

Fixpoint insert (x : Product) (l : list Product) : list Product :=
  match l with
  | [] => [x]
  | y :: l' => if price_lt y x then y :: insert x l' else x :: y :: l'
  end.

Fixpoint stable_sort (l : list Product) : list Product :=
  match l with
  | [] => []
  | x :: l' => insert x (stable_sort l')
  end.

Definition has_price (p : Product) : bool :=
  match price p with
  | Some _ => true
  | None => false
  end.

(** [sorted(products, key=lambda x: x.price)].  The sort of Python is
    stable and compares keys with [<]; every element of a list of two
    or more takes part in a comparison, so a [None] key there raises
    [TypeError].  On keys that are floats other than NaN the stable
    arrangement is unique, and it is the one insertion from the right
    builds. *)
Definition sorted_by_price (l : list Product) : outcome (list Product) :=
  match l with
  | [] | [_] => Returns l
  | _ => if forallb has_price l then Returns (stable_sort l)
         else Raises TypeError
  end.

(** [search_products], given the page each storefront answers with.
    The scrapers are called in the order Amazon, Noon, Carrefour. *)
Definition all_products (amazon noon carrefour : Page) : list Product :=
  (scrape_amazon amazon ++ scrape_noon noon
     ++ scrape_carrefour carrefour)%list.

Definition search_products (amazon noon carrefour : Page)
  : outcome (list Product) :=
  sorted_by_price (all_products amazon noon carrefour).

(** An offer with a price above zero. *)
Definition positive_price (p : Product) : Prop :=
  exists x, price p = Some x /\ PyFloat.lt zero x = true.

(** No element is priced below an earlier one. *)
Definition ascending (l : list Product) : Prop :=
  StronglySorted (fun a b => price_lt b a = false) l.

End PriceComparisonTool.

Import PriceComparisonTool.

(** ** [DatabaseManager] *)

Module DatabaseManager.

(** A row of the table [products].  The integer primary key is
    assigned by SQLite and read by no query of the script, so it is
    left out; the rows are kept in the order of insertion. *)
Record Row : Type := {
  row_name : string;
  row_price : float;
  row_website : string;
  row_url : string;
  row_timestamp : Z
}.

Definition Table : Type := list Row.

(** [setup_database] on a fresh file and [clear_database]. *)
Definition setup_database : Table := [].

Definition clear_database (t : Table) : Table := [].

(** [UNIQUE(name, website)]: two rows conflict when they agree on
    both columns. *)
Definition conflicts (row r : Row) : bool :=
  String.eqb (row_name r) (row_name row)
  && String.eqb (row_website r) (row_website row).

(** [INSERT OR REPLACE INTO products (...) VALUES (...)]: the row in
    conflict, if any, is deleted and the new row inserted. *)
Definition insert_or_replace (t : Table) (row : Row) : Table :=
  (List.filter (fun r => negb (conflicts row r)) t ++ [row])%list.

Definition row_of (product : Product) (p : float) : Row :=
  {| row_name := name product;
     row_price := p;
     row_website := website product;
     row_url := url product;
     row_timestamp := timestamp product |}.

(** [save_product] *)
Definition save_product (t : Table) (product : Product) : Table :=
  match price product with
  | None => t
  | Some p =>
      if String.eqb (name product) "" then t
      else insert_or_replace t (row_of product p)
  end.

(** The least element of a list of prices. *)
Fixpoint least (l : list float) : option float :=
  match l with
  | [] => None
  | x :: l' =>
      match least l' with
      | None => Some x
      | Some y => Some (if PyFloat.lt y x then y else x)
      end
  end.

Definition rows_named (n : string) (t : Table) : list Row :=
  List.filter (fun r => String.eqb (row_name r) n) t.

(** [SELECT price FROM products WHERE name = ? ORDER BY price ASC
    LIMIT 1] followed by [fetchone()]. *)
Definition select_best_price (t : Table) (n : string) : option float :=
  least (List.map row_price (rows_named n t)).

(** [not result or product.price < result[0]] *)
Definition is_better (t : Table) (n : string) (p : float) : bool :=
  match select_best_price t n with
  | None => true
  | Some best => PyFloat.lt p best
  end.

(** [save_best_deal] *)
Definition save_best_deal (t : Table) (product : Product) : Table :=
  match price product with
  | None => t
  | Some p =>
      if String.eqb (name product) "" then t
      else if is_better t (name product) p
           then insert_or_replace t (row_of product p)
           else t
  end.

(** Whether [save_best_deal] reaches its [INSERT OR REPLACE]. *)
Definition writes (t : Table) (product : Product) : bool :=
  match price product with
  | None => false
  | Some p =>
      negb (String.eqb (name product) "")
      && is_better t (name product) p
  end.

(** The columns of the uniqueness constraint. *)
Definition key (r : Row) : string * string := (row_name r, row_website r).

(** No NaN is stored or offered: none is produced by [_extract_price],
    and SQLite would store one as NULL. *)
Definition valid_table (t : Table) : Prop :=
  Forall (fun r => is_nan (row_price r) = false) t.

Definition valid_product (product : Product) : Prop :=
  match price product with
  | Some p => is_nan p = false
  | None => True
  end.

(** A sequence of saves, from the oldest to the newest. *)
Inductive save : Type :=
| SaveProduct (product : Product)
| SaveBestDeal (product : Product).

Definition apply (t : Table) (s : save) : Table :=
  match s with
  | SaveProduct product => save_product t product
  | SaveBestDeal product => save_best_deal t product
  end.

Definition run (t : Table) (saves : list save) : Table :=
  fold_left apply saves t.

Definition saved (s : save) : Product :=
  match s with
  | SaveProduct product | SaveBestDeal product => product
  end.

(** A row priced above zero. *)
Definition positive_row (r : Row) : Prop :=
  PyFloat.lt zero (row_price r) = true.

End DatabaseManager.

Import DatabaseManager.

(** [PriceComparisonTool.save_results]: [save_product] on each product
    in turn. *)
Definition save_results (t : Table) (products : list Product) : Table :=
  fold_left save_product products t.

(** ** The specification's reading of the code

    The definitions of this section follow the words of the
    specification; they are compared below with the code above. *)

Module Stated.

(** Textual equivalence of two names: equal once cleaned, or equal
    once cleaned and stripped of their spaces.  These are the first
    two tests of [_exact_text_match]. *)
Definition without_spaces (s : string) : string := PyStr.remove " " s.

Definition textually_equivalent (a b : string) : bool :=
  let t1 := _clean_text_for_comparison a in
  let t2 := _clean_text_for_comparison b in
  String.eqb t1 t2 || String.eqb (without_spaces t1) (without_spaces t2).

(** Characters other than whitespace; the characters a cleaned name is
    made of; a maximal run of visible characters. *)
Definition visible (c : ascii) : bool := negb (PyStr.isspace c).

Definition name_char (c : ascii) : bool :=
  PyStr.isalnum c || Ascii.eqb c "-".

Definition clean_char (c : ascii) : bool :=
  (name_char c || Ascii.eqb c " ") && Ascii.eqb (PyStr.lower_char c) c.

Definition word (w : string) : Prop :=
  w <> "" /\ PyStr.all visible w = true.

(** The characters that reach [float]. *)
Definition float_char (c : ascii) : bool :=
  PyStr.re_digit c || Ascii.eqb c ".".

(** No two entries of a ranked list come from the same source under
    equivalent names. *)
Definition deduplicated (ranked : list Product) : Prop :=
  forall i j p q,
    i <> j ->
    nth_error ranked i = Some p ->
    nth_error ranked j = Some q ->
    website p = website q ->
    textually_equivalent (name p) (name q) = false.

(** The price of an offer is the float [v]. *)
Definition priced (v : float) (p : Product) : bool :=
  match price p with
  | Some x => PyFloat.eq x v
  | None => false
  end.

(** Offers of equal price come in the order of their source names. *)
Definition ties_by_source_name (ranked : list Product) : Prop :=
  forall i j p q v,
    (i < j)%nat ->
    nth_error ranked i = Some p ->
    nth_error ranked j = Some q ->
    priced v p = true ->
    priced v q = true ->
    String.leb (website p) (website q) = true.

(** [best] is the minimum of [prices]: one of them, with none of them
    below it; there is none exactly when [prices] is empty. *)
Definition minimum_of (prices : list float) (best : option float) : Prop :=
  match best with
  | Some b => In b prices /\ Forall (fun y => PyFloat.lt y b = false) prices
  | None => prices = []
  end.

(** The prices saved under the name [n], oldest first. *)
Fixpoint prices_saved (n : string) (saves : list save) : list float :=
  match saves with
  | [] => []
  | s :: saves' =>
      match price (saved s) with
      | Some p =>
          if String.eqb (name (saved s)) n
          then p :: prices_saved n saves'
          else prices_saved n saves'
      | None => prices_saved n saves'
      end
  end.

(** After the saves, the store holds at most one record for [n], and
    its price is the least price saved for [n]. *)
Definition one_record_of_least_price (saves : list save) (n : string)
  : Prop :=
  match rows_named n (run setup_database saves) with
  | [] => True
  | [r] => least (prices_saved n saves) = Some (row_price r)
  | _ => False
  end.

(** [recordIfBetter]: when no record exists for the name, or the
    stored price is strictly greater, the record of the name becomes
    the new one; otherwise the store is unchanged. *)
Definition record_if_better (t : Table) (product : Product) (p : float)
  : Prop :=
  if is_better t (name product) p
  then rows_named (name product) (save_best_deal t product)
       = [row_of product p]
  else save_best_deal t product = t.

End Stated.

Import Stated.

(** ** Sample data *)

Module Sample.

Definition item (n p href : string) (at_ : Z) : Item :=
  {| name_elem := Some n; price_elem := Some p; link := Some href;
     seen_at := at_ |}.

Definition offer (n : string) (p : Z) (site : string) (at_ : Z)
  : Product :=
  {| name := n; price := Some (of_int p); website := site;
     url := "https://example.com/" ++ n; timestamp := at_ |}.

(** Two listings of one product on one Amazon page. *)
Definition twin_page : Page :=
  Some [item "X 8GB" "1,200.00 EGP" "/dp/B000000001" 1;
        item "X  8gb!" "999.00" "/dp/B000000002" 2].

(** One listing at the same price on Noon and on Carrefour. *)
Definition noon_page : Page :=
  Some [item "X 8GB" "999.00" "/egypt-en/x" 1].

Definition carrefour_page : Page :=
  Some [item "X 8GB" "999.00" "/p/x" 2].

(** The four prices of the ledger example, recorded for one name on one
    website. *)
Definition four_prices : list Product :=
  [offer "X" 500 "Amazon Egypt" 1; offer "X" 700 "Amazon Egypt" 2;
   offer "X" 300 "Amazon Egypt" 3; offer "X" 400 "Amazon Egypt" 4].

(** [save_best_deal] over a list of products: whether each call wrote,
    and the final table. *)
Fixpoint record_all (t : Table) (products : list Product)
  : list bool * Table :=
  match products with
  | [] => ([], t)
  | product :: rest =>
      let '(flags, t') := record_all (save_best_deal t product) rest in
      (writes t product :: flags, t')
  end.

Definition two_sites : list save :=
  [SaveBestDeal (offer "X" 500 "Amazon Egypt" 1);
   SaveBestDeal (offer "X" 300 "Noon Egypt" 2)].

Definition price_raised : list save :=
  [SaveProduct (offer "X" 300 "Amazon Egypt" 1);
   SaveProduct (offer "X" 500 "Amazon Egypt" 2)].

End Sample.

Import Sample.

(** ** More of Python's strings and regular expressions *)

Module Text.

(** [str.isdigit]: the decimal digits and the superscript digits. *)
Definition isdigit (c : ascii) : bool :=
  PyStr.between 48 57 c || PyStr.code_is 178 c || PyStr.code_is 179 c
  || PyStr.code_is 185 c.

(** [\w] of the [re] module: the alphanumeric characters and [_]. *)
Definition re_word (c : ascii) : bool := PyStr.isalnum c || Ascii.eqb c "_".

(** [s[n:]] for [0 <= n]. *)
Fixpoint drop (n : nat) (s : string) : string :=
  match n, s with
  | O, _ => s
  | S n', String _ s' => drop n' s'
  | S _, EmptyString => EmptyString
  end.

(** [s[:n]] for any integer [n]: a negative [n] counts from the end. *)
Definition slice_to (n : Z) (s : string) : string :=
  if n <? 0
  then PyStr.take (Z.to_nat (Z.of_nat (String.length s) + n)) s
  else PyStr.take (Z.to_nat n) s.

(** The index of the first [c] in [s], and [s.find(c, start)] for
    [0 <= start]: [None] stands for -1. *)
Fixpoint index_of (c : ascii) (s : string) : option nat :=
  match s with
  | EmptyString => None
  | String x s' =>
      if Ascii.eqb x c then Some O else option_map S (index_of c s')
  end.

Definition find_from (c : ascii) (start : nat) (s : string) : option nat :=
  option_map (Nat.add start) (index_of c (drop start s)).

(** [s.count(c)] *)
Fixpoint count (c : ascii) (s : string) : nat :=
  match s with
  | EmptyString => O
  | String x s' => (if Ascii.eqb x c then 1 else 0) + count c s'
  end.

(** The patterns of the script that are only searched for are sequences
    of one character class each, taken once, one or more times, or zero
    or more times. *)
Inductive atom : Type :=
| One (p : ascii -> bool)
| Plus (p : ascii -> bool)
| Star (p : ascii -> bool).

Definition lit (c : ascii) : atom := One (Ascii.eqb c).

(** Whether some prefix of [s] matches the sequence [r]. *)
Fixpoint match_here (r : list atom) (s : string) {struct r} : bool :=
  match r with
  | [] => true
  | One p :: r' =>
      match s with
      | String x s' => p x && match_here r' s'
      | EmptyString => false
      end
  | Plus p :: r' =>
      (fix many (s : string) : bool :=
         match s with
         | String x s' => p x && (match_here r' s' || many s')
         | EmptyString => false
         end) s
  | Star p :: r' =>
      (fix many (s : string) : bool :=
         match_here r' s
         || match s with
            | String x s' => p x && many s'
            | EmptyString => false
            end) s
  end.

(** [bool(re.search(r, s))] *)
Fixpoint search (r : list atom) (s : string) : bool :=
  match_here r s
  || match s with
     | String _ s' => search r s'
     | EmptyString => false
     end.

End Text.

(** ** [WebScraper]: the helpers of the matching *)

Module Matching.

(** [_normalize_text] *)
Definition _normalize_text (text : string) : string :=
  PyStr.join " " (PyStr.split (PyStr.lower text)).

(** [_simplified_text]: [re.sub(r'[^\w\s-]', ' ', text.lower())] turns
    every other character into a space. *)
Definition simple_char (c : ascii) : bool :=
  Text.re_word c || PyStr.isspace c || Ascii.eqb c "-".

Definition _simplified_text (text : string) : string :=
  let cleaned :=
    PyStr.map (fun c => if simple_char c then c else " "%char)
              (PyStr.lower text) in
  PyStr.join " " (PyStr.split cleaned).

(** [_extract_specs]: the six patterns, in the order of the list. *)
Definition patterns : list (list Text.atom) :=
  [ [Text.Plus PyStr.re_digit; Text.lit "g"; Text.lit "b"];
    [Text.Plus PyStr.re_digit; Text.lit "t"; Text.lit "b"];
    [Text.lit "r"; Text.lit "t"; Text.lit "x"; Text.Star PyStr.isspace;
     Text.Plus PyStr.re_digit];
    [Text.lit "i"; Text.One PyStr.re_digit; Text.lit "-";
     Text.Plus PyStr.re_digit];
    [Text.Plus PyStr.re_digit; Text.lit "t"; Text.lit "h"];
    [Text.lit "d"; Text.lit "d"; Text.lit "r"; Text.One PyStr.re_digit] ].

(** A word is appended once for every pattern found in it. *)
Definition specs_of_word (word : string) : list string :=
  List.flat_map
    (fun pattern => if Text.search pattern word then [word] else [])
    patterns.

Definition _extract_specs (text : string) : list string :=
  List.flat_map specs_of_word (PyStr.split (PyStr.lower text)).

(** [spec in product_specs] *)
Definition member (x : string) (l : list string) : bool :=
  existsb (String.eqb x) l.

(** [sum(1 for spec in query_specs if spec in product_specs)] *)
Definition spec_matches (query_specs product_specs : list string) : nat :=
  List.length (List.filter (fun spec => member spec product_specs)
                           query_specs).

(** [_exact_match_score] *)
Definition _exact_match_score (product_name search_query : string)
  : outcome float :=
  if String.eqb product_name "" || String.eqb search_query ""
  then Returns zero
  else
    let product := _normalize_text product_name in
    let query := _normalize_text search_query in
    let query_specs := _extract_specs query in
    let product_specs := _extract_specs product in
    let total_specs :=
      if is_empty query_specs then 1%nat else List.length query_specs in
    PyFloat.truediv (spec_matches query_specs product_specs) total_specs.

(** [list(set(l))].  The order in which a set is listed is not fixed by
    the language; a set of at most one element has one listing, and that
    is the only case the script can reach (see
    [prepare_search_query_fails]). *)
Fixpoint distinct (l : list string) : list string :=
  match l with
  | [] => []
  | x :: l' => if existsb (String.eqb x) l' then distinct l'
               else x :: distinct l'
  end.

(** [_prepare_search_query].  The class never sets [common_brands], so
    the test [word in self.common_brands] raises [AttributeError] on the
    first word of the query; without a word the generator is empty and
    [next] returns its default. *)
Definition _prepare_search_query (query : string) : outcome (list string) :=
  let query := PyStr.lower (PyStr.strip query) in
  let model_numbers := findall_model query in
  match PyStr.split query with
  | _ :: _ => Raises AttributeError
  | [] =>
      let brand := "" in
      let first :=
        if negb (String.eqb brand "") && negb (is_empty model_numbers)
        then match model_numbers with
             | m :: _ => [brand ++ " " ++ m]
             | [] => []
             end
        else [] in
      let words := firstn 3 (PyStr.split query) in
      let last :=
        match model_numbers with
        | m :: _ => [m]
        | [] => []
        end in
      Returns (distinct (first ++ [PyStr.join " " words] ++ [query]
                         ++ last)%list)
  end.

(** What [_check_availability] reads in the markup of an item: the text
    of [#availability span] when there is one, and whether an element of
    class [out-of-stock], of class [-mas], is present. *)
Record Stock : Type := {
  availability : option string;
  out_of_stock : bool;
  mas : bool
}.

(** [_check_availability] *)
Definition _check_availability (item_soup : Stock) (site : string) : bool :=
  if String.eqb site "Amazon Egypt" then
    match availability item_soup with
    | Some stock_text =>
        let text := PyStr.lower stock_text in
        PyStr.contains "in stock" text || PyStr.contains "available" text
    | None => true
    end
  else if String.eqb site "Noon Egypt" then negb (out_of_stock item_soup)
  else if String.eqb site "Jumia Egypt" then negb (mas item_soup)
  else true.

(** [_extract_amazon_product_id]: [re.search(lit + '([A-Z0-9]{10})', url)]
    finds the leftmost place where [lit] is followed by ten characters of
    [[A-Z0-9]] and returns the ten. *)
Definition id_char (c : ascii) : bool :=
  PyStr.between 65 90 c || PyStr.between 48 57 c.

Definition id_here (literal url : string) : option string :=
  if String.prefix literal url
  then
    let id := PyStr.take 10 (Text.drop (String.length literal) url) in
    if (String.length id =? 10)%nat && PyStr.all id_char id
    then Some id
    else None
  else None.

Fixpoint search_id (literal url : string) : option string :=
  match id_here literal url with
  | Some id => Some id
  | None =>
      match url with
      | String _ url' => search_id literal url'
      | EmptyString => None
      end
  end.

Definition _extract_amazon_product_id (url : string) : option string :=
  match search_id "/dp/" url with
  | Some id => Some id
  | None => search_id "product/" url
  end.

End Matching.

Import Matching.

(** ** The functions of the module *)

Module Script.

(** [_shorten_url], the function of the module. *)
Definition _shorten_url (url : string) : string :=
  if (String.length url <=? 60)%nat then url
  else
    match Text.find_from "/" 8 url with
    | None => PyStr.take 57 url ++ "..."
    | Some domain_end => PyStr.take domain_end url ++ "/..."
    end.

End Script.

(** ** [PriceComparisonTool]: the other methods *)

Module Tool.

(** [_shorten_url], the method; [max_length] is 60 by default. *)
Definition _shorten_url (url : string) (max_length : Z) : string :=
  if Z.of_nat (String.length url) <=? max_length then url
  else
    match Text.find_from "/" 8 url with
    | None => Text.slice_to max_length url ++ "..."
    | Some domain_end =>
        let domain := PyStr.take domain_end url in
        let path := Text.drop domain_end url in
        let path :=
          if (30 <? String.length path)%nat
          then PyStr.take 27 path ++ "..."
          else path in
        domain ++ path
    end.

(** [_extract_user_price].  A superscript digit passes [isdigit] and is
    then refused by [float], as [of_str] refuses it. *)
Definition user_price_char (c : ascii) : bool :=
  Text.isdigit c || Ascii.eqb c "." || Ascii.eqb c ",".

Definition _extract_user_price (price_input : string)
  : outcome (option float) :=
  if String.eqb price_input "" then Returns None
  else
    let cleaned := PyStr.filter user_price_char price_input in
    let cleaned := PyStr.remove "," cleaned in
    match PyFloat.of_str cleaned with
    | Returns x => Returns (Some x)
    | Raises ValueError => Returns None
    | Raises e => Raises e
    end.

(** [open_product_links]: the addresses handed to [webbrowser.open], in
    order.  An address that cannot be opened is logged and the loop goes
    on. *)
Definition open_product_links (products : list Product) (best_only : bool)
  : outcome (list string) :=
  match products with
  | [] => Returns []
  | _ =>
      match sorted_by_price products with
      | Returns sorted_products =>
          Returns (List.map url (if best_only
                                 then firstn 5 sorted_products
                                 else sorted_products))
      | Raises e => Raises e
      end
  end.

End Tool.

(** * Properties *)

(** ** The order of floats *)

Lemma SFcompare_key (x y : float) :
  SFcompare x y =
  match cmp_key x, cmp_key y with
  | Some a, Some b => Some (lex a b)
  | _, _ => None
  end.
Proof.
  destruct x as [s| s | |s m e], y as [s'|s'| |s' m' e']; simpl;
    try reflexivity;
    try (destruct s; reflexivity);
    try (destruct s'; reflexivity);
    try (destruct s, s'; reflexivity).
  destruct s, s'; simpl; try reflexivity.
  rewrite Z.compare_opp, (Z.compare_antisym e e').
  destruct (e ?= e'); reflexivity.
Qed.

Lemma cmp_key_nan (x : float) : cmp_key x = None <-> is_nan x = true.
Proof.
  destruct x as [s|s| |s m e]; simpl; try (destruct s); split; congruence.
Qed.

Ltac by_keys :=
  unfold lt, le, ge, eq, SFltb, SFleb, SFeqb;
  rewrite ?SFcompare_key;
  repeat match goal with
  | H : is_nan ?x = false |- _ =>
      let K := fresh "K" in
      destruct (cmp_key x) as [[[? ?] ?]|] eqn:K;
      [ clear H | apply cmp_key_nan in K; congruence ]
  end;
  repeat match goal with
  | |- context [cmp_key ?x] => destruct (cmp_key x) as [[[? ?] ?]|]
  | H : context [cmp_key ?x] |- _ => destruct (cmp_key x) as [[[? ?] ?]|]
  end;
  unfold lex in *;
  repeat match goal with
  | |- context [?a ?= ?b] => destruct (Z.compare_spec a b)
  | H : context [?a ?= ?b] |- _ => destruct (Z.compare_spec a b)
  end;
  try reflexivity; try discriminate; try lia.

Lemma lt_irrefl (x : float) : lt x x = false.
Proof. by_keys. Qed.

Lemma lt_asym (x y : float) : lt x y = true -> lt y x = false.
Proof. intros H. revert H. by_keys. Qed.

Lemma lt_trans (x y z : float) :
  lt x y = true -> lt y z = true -> lt x z = true.
Proof. intros H1 H2. revert H1 H2. by_keys. Qed.

Lemma lt_eq_distinct (y x v : float) :
  lt y x = true -> eq x v = true -> eq y v = false.
Proof. intros H1 H2. revert H1 H2. by_keys. Qed.

Lemma not_lt_trans (z y x : float) :
  is_nan y = false ->
  lt y x = false -> lt z y = false -> lt z x = false.
Proof. intros N H1 H2. revert H1 H2. by_keys. Qed.

Lemma lt_not_lt_trans (x b y : float) :
  is_nan y = false ->
  lt x b = true -> lt y b = false -> lt x y = true.
Proof. intros N H1 H2. revert H1 H2. by_keys. Qed.

Lemma lt_not_nan (x y : float) :
  lt x y = true -> is_nan x = false /\ is_nan y = false.
Proof.
  unfold lt, SFltb. destruct x, y; simpl; try discriminate; auto.
Qed.

(** ** The accuracy of [round_div] *)

Lemma nearest_even_cases (q r b : Z) :
  (nearest_even q r b = q /\ (2 * r < b \/ (2 * r = b /\ Z.even q = true)))
  \/ (nearest_even q r b = q + 1 /\ (b < 2 * r \/ (2 * r = b /\ Z.even q = false))).
Proof.
  unfold nearest_even.
  destruct (Z.ltb_spec (2 * r) b); [left; split; [reflexivity | lia] |].
  destruct (Z.ltb_spec b (2 * r)); [right; split; [reflexivity | lia] |].
  destruct (Z.even q) eqn:E; [left | right]; (split; [reflexivity | right; split; [lia | reflexivity]]).
Qed.

Lemma nearest_even_error (q r b : Z) :
  0 <= r < b ->
  2 * Z.abs (b * nearest_even q r b - (b * q + r)) <= b.
Proof.
  intros Hr.
  destruct (nearest_even_cases q r b) as [[-> H] | [-> H]]; lia.
Qed.

(** [round_div] is within half a unit in the last place of the exact
    quotient. *)
Lemma round_div_nearest (m n : Z) :
  0 < m -> 0 < n ->
  match round_div m n with
  | S754_finite _ _ _ as x => nearest_to x m n = true
  | _ => True
  end.
Proof.
  intros Hm Hn. unfold round_div.
  destruct (Z.leb_spec m 0) as [? | _]; [lia |].
  remember (Z.max (ilog2_ratio m n - (prec - 1)) emin) as e eqn:Ee.
  clear Ee.
  assert (Hab : exists a b, scaled m n e = (a, b) /\ 0 <= a /\ 0 < b
            /\ (e < 0 -> a = m * 2 ^ (- e) /\ b = n)
            /\ (0 <= e -> a = m /\ b = n * 2 ^ e)).
  { unfold scaled. destruct (Z.ltb_spec e 0) as [L | L].
    - exists (m * 2 ^ (- e)), n.
      assert (0 < 2 ^ (- e)) by (apply Z.pow_pos_nonneg; lia).
      split; [reflexivity |]. split; [nia |]. split; [lia |].
      split; [auto | lia].
    - exists m, (n * 2 ^ e).
      assert (0 < 2 ^ e) by (apply Z.pow_pos_nonneg; lia).
      split; [reflexivity |]. split; [lia |]. split; [nia |].
      split; [lia | auto]. }
  destruct Hab as (a & b & -> & Ha & Hb & Hneg & Hpos).
  pose proof (Z.div_mod a b ltac:(lia)) as Hdm.
  pose proof (Z.mod_pos_bound a b Hb) as Hr.
  pose proof (Z.div_pos a b Ha Hb) as Hq0.
  pose proof (nearest_even_error (a / b) (a mod b) b Hr) as He.
  rewrite <- Hdm in He.
  assert (Hq : 0 <= nearest_even (a / b) (a mod b) b)
    by (destruct (nearest_even_cases (a / b) (a mod b) b) as [[-> _] | [-> _]];
        lia).
  remember (nearest_even (a / b) (a mod b) b) as q eqn:Eq. clear Eq Hdm Hr.
  unfold prec, emax. change (2 ^ 53) with 9007199254740992.
  change (2 ^ (53 - 1)) with 4503599627370496.
  destruct (Z.eqb_spec q 9007199254740992) as [-> | _].
  - cbn [Z.eqb]. destruct (1024 <? e + 1 + 53); [exact I |].
    unfold nearest_to. cbn [Z.to_pos].
    destruct (Z.ltb_spec (e + 1) 0) as [L | L]; apply Z.leb_le.
    + destruct (Hneg ltac:(lia)) as [-> ->].
      replace (- e) with (Z.succ (- (e + 1))) in He by lia.
      rewrite Z.pow_succ_r in He by lia. lia.
    + destruct (Z.eq_dec e (-1)) as [-> | N].
      * destruct (Hneg ltac:(lia)) as [-> ->].
        change (2 ^ (- -1)) with 2 in He. change (2 ^ (-1 + 1)) with 1. lia.
      * destruct (Hpos ltac:(lia)) as [-> ->].
        replace (e + 1) with (Z.succ e) by lia.
        rewrite Z.pow_succ_r by lia.
        assert (0 < 2 ^ e) by (apply Z.pow_pos_nonneg; lia).
        remember (2 ^ e) as P. nia.
  - destruct (Z.eqb_spec q 0) as [_ | Nz]; [exact I |].
    destruct (1024 <? e + 53); [exact I |].
    unfold nearest_to.
    rewrite Z2Pos.id by lia.
    destruct (Z.ltb_spec e 0) as [L | L]; apply Z.leb_le.
    + destruct (Hneg L) as [-> ->]. exact He.
    + destruct (Hpos L) as [-> ->].
      replace (n * (q * 2 ^ e)) with (n * 2 ^ e * q) by ring. exact He.
Qed.

Lemma scaled_spec (m n e : Z) :
  0 < m -> 0 < n ->
  exists a b,
    scaled m n e = (a, b) /\ 0 < a /\ 0 < b
    /\ a * (n * 2 ^ Z.max 0 e) = b * (m * 2 ^ Z.max 0 (- e)).
Proof.
  intros Hm Hn. unfold scaled.
  destruct (Z.ltb_spec e 0) as [L | L].
  - exists (m * 2 ^ (- e)), n.
    assert (0 < 2 ^ (- e)) by (apply Z.pow_pos_nonneg; lia).
    rewrite (Z.max_l 0 e), (Z.max_r 0 (- e)) by lia.
    change (2 ^ 0) with 1.
    split; [reflexivity |]. split; [nia |]. split; [lia | ring].
  - exists m, (n * 2 ^ e).
    assert (0 < 2 ^ e) by (apply Z.pow_pos_nonneg; lia).
    rewrite (Z.max_r 0 e), (Z.max_l 0 (- e)) by lia.
    change (2 ^ 0) with 1.
    split; [reflexivity |]. split; [lia |]. split; [nia | ring].
Qed.

(** [ilog2_ratio m n] is the integer [l] with [2^l <= m / n < 2^(l+1)]. *)
Lemma ilog2_ratio_spec (m n : Z) :
  0 < m -> 0 < n ->
  let l := ilog2_ratio m n in
  n * 2 ^ Z.max 0 l <= m * 2 ^ Z.max 0 (- l)
  /\ m * 2 ^ Z.max 0 (- l) < 2 * (n * 2 ^ Z.max 0 l).
Proof.
  intros Hm Hn.
  pose proof (Z.log2_spec m Hm) as [Hm1 Hm2].
  pose proof (Z.log2_spec n Hn) as [Hn1 Hn2].
  pose proof (Z.log2_nonneg m) as Hlm.
  pose proof (Z.log2_nonneg n) as Hln.
  unfold ilog2_ratio, scaled.
  remember (Z.log2 m) as lm eqn:Elm. remember (Z.log2 n) as ln eqn:Eln.
  clear Elm Eln.
  rewrite Z.pow_succ_r in Hm2, Hn2 by lia.
  destruct (Z.ltb_spec (lm - ln) 0) as [Hd | Hd].
  - assert (Hsplit : 2 ^ ln = 2 ^ lm * 2 ^ (ln - lm))
      by (rewrite <- Z.pow_add_r by lia; f_equal; lia).
    assert (HQ : 0 < 2 ^ (ln - lm)) by (apply Z.pow_pos_nonneg; lia).
    rewrite Hsplit in Hn1, Hn2. clear Hsplit.
    assert (Hlo : 2 ^ lm * 2 ^ (ln - lm) <= m * 2 ^ (ln - lm))
      by (apply Z.mul_le_mono_nonneg_r; lia).
    assert (Hhi : m * 2 ^ (ln - lm) < 2 * 2 ^ lm * 2 ^ (ln - lm))
      by (apply Z.mul_lt_mono_pos_r; lia).
    replace (- (lm - ln)) with (ln - lm) by lia.
    destruct (Z.leb_spec n (m * 2 ^ (ln - lm))) as [Ht | Ht]; cbv zeta.
    + rewrite (Z.max_l 0 (lm - ln)), (Z.max_r 0 (- (lm - ln))) by lia.
      replace (- (lm - ln)) with (ln - lm) by lia.
      change (2 ^ 0) with 1. lia.
    + rewrite (Z.max_l 0 (lm - ln - 1)), (Z.max_r 0 (- (lm - ln - 1))) by lia.
      replace (- (lm - ln - 1)) with (Z.succ (ln - lm)) by lia.
      rewrite Z.pow_succ_r by lia. change (2 ^ 0) with 1. lia.
  - assert (Hsplit : 2 ^ lm = 2 ^ ln * 2 ^ (lm - ln))
      by (rewrite <- Z.pow_add_r by lia; f_equal; lia).
    assert (HQ : 0 < 2 ^ (lm - ln)) by (apply Z.pow_pos_nonneg; lia).
    rewrite Hsplit in Hm1, Hm2. clear Hsplit.
    assert (Hlo : 2 ^ ln * 2 ^ (lm - ln) <= n * 2 ^ (lm - ln))
      by (apply Z.mul_le_mono_nonneg_r; lia).
    assert (Hhi : n * 2 ^ (lm - ln) < 2 * 2 ^ ln * 2 ^ (lm - ln))
      by (apply Z.mul_lt_mono_pos_r; lia).
    destruct (Z.leb_spec (n * 2 ^ (lm - ln)) m) as [Ht | Ht]; cbv zeta.
    + rewrite (Z.max_r 0 (lm - ln)), (Z.max_l 0 (- (lm - ln))) by lia.
      change (2 ^ 0) with 1. lia.
    + destruct (Z.eq_dec lm ln) as [-> | N].
      * replace (ln - ln) with 0 in * by lia.
        change (Z.max 0 (0 - 1)) with 0. change (Z.max 0 (- (0 - 1))) with 1.
        change (2 ^ 0) with 1 in *. change (2 ^ 1) with 2. lia.
      * rewrite (Z.max_r 0 (lm - ln - 1)), (Z.max_l 0 (- (lm - ln - 1))) by lia.
        remember (lm - ln - 1) as k eqn:Ek.
        assert (E : lm - ln = Z.succ k) by lia.
        assert (Hk : 0 <= k) by lia. clear Ek N.
        rewrite E in *. clear E.
        assert (0 < 2 ^ k) by (apply Z.pow_pos_nonneg; lia).
        rewrite Z.pow_succ_r in * by lia.
        change (2 ^ 0) with 1.
        assert (n * 2 ^ k < 2 * 2 ^ ln * 2 ^ k)
          by (apply Z.mul_lt_mono_pos_r; lia).
        lia.
Qed.

Lemma pow2_pos (k : Z) : 0 < 2 ^ Z.max 0 k.
Proof. apply Z.pow_pos_nonneg; lia. Qed.

(** The quotient scaled for rounding has at most 53 bits, and exactly 53
    when the exponent is not the least one. *)
Lemma scaled_quotient_bounds (m n e : Z) :
  0 < m -> 0 < n ->
  ilog2_ratio m n - 52 <= e ->
  m * 2 ^ Z.max 0 (- e) < 2 ^ 53 * (n * 2 ^ Z.max 0 e)
  /\ (e = ilog2_ratio m n - 52 ->
      2 ^ 52 * (n * 2 ^ Z.max 0 e) <= m * 2 ^ Z.max 0 (- e)).
Proof.
  intros Hm Hn He.
  destruct (ilog2_ratio_spec m n Hm Hn) as [Hlo Hhi].
  remember (ilog2_ratio m n) as l eqn:El. clear El.
  set (j := e - (l - 52)).
  assert (Hj : 0 <= j) by (unfold j; lia).
  assert (E : 2 ^ Z.max 0 (- e) * 2 ^ Z.max 0 l * 2 ^ j
              = 2 ^ 52 * 2 ^ Z.max 0 (- l) * 2 ^ Z.max 0 e).
  { rewrite <- !Z.pow_add_r by lia. f_equal. unfold j. lia. }
  pose proof (pow2_pos e) as HU. pose proof (pow2_pos (- e)) as HV.
  pose proof (pow2_pos l) as HX. pose proof (pow2_pos (- l)) as HY.
  assert (HJ : 1 <= 2 ^ j)
    by (change 1 with (2 ^ 0); apply Z.pow_le_mono_r; lia).
  change (2 ^ 52) with 4503599627370496 in *.
  change (2 ^ 53) with 9007199254740992 in *.
  remember (2 ^ Z.max 0 e) as U. remember (2 ^ Z.max 0 (- e)) as V.
  remember (2 ^ Z.max 0 l) as X. remember (2 ^ Z.max 0 (- l)) as Y.
  remember (2 ^ j) as J.
  split.
  - apply (Z.mul_lt_mono_pos_r X); [exact HX |].
    assert (m * V * X <= m * V * X * J) by nia.
    assert (m * V * X * J = 4503599627370496 * (m * Y) * U)
      by (replace (m * V * X * J) with (m * (V * X * J)) by ring;
          rewrite E; ring).
    assert (4503599627370496 * (m * Y) * U
            < 4503599627370496 * (2 * (n * X)) * U) by nia.
    nia.
  - intros ->. unfold j in *. replace (l - 52 - (l - 52)) with 0 in * by lia.
    change (2 ^ 0) with 1 in HeqJ. subst J.
    apply (Z.mul_le_mono_pos_r _ _ X); [exact HX |].
    assert (m * V * X = 4503599627370496 * (m * Y) * U)
      by (replace (m * V * X) with (m * (V * X * 1)) by ring;
          rewrite E; ring).
    assert (4503599627370496 * (n * X) * U
            <= 4503599627370496 * (m * Y) * U) by nia.
    nia.
Qed.

(** [round_div] returns a canonical binary64 number: 53 significant bits,
    or fewer at the least exponent, and an exponent in range. *)
Lemma round_div_canonical (m n : Z) :
  0 < m -> 0 < n ->
  match round_div m n with
  | S754_finite s q e =>
      s = false /\ emin <= e /\ e + prec <= emax
      /\ (2 ^ (prec - 1) <= Zpos q < 2 ^ prec
          \/ (e = emin /\ Zpos q < 2 ^ (prec - 1)))
  | S754_zero s | S754_infinity s => s = false
  | S754_nan => False
  end.
Proof.
  intros Hm Hn. unfold round_div.
  destruct (Z.leb_spec m 0) as [? | _]; [lia |].
  remember (Z.max (ilog2_ratio m n - (prec - 1)) emin) as e eqn:Ee.
  assert (He : ilog2_ratio m n - 52 <= e) by (subst e; unfold prec; lia).
  assert (Hmin : emin <= e) by (subst e; lia).
  assert (Hcase : e = ilog2_ratio m n - 52 \/ e = emin)
    by (subst e; unfold prec; lia).
  clear Ee.
  destruct (scaled_quotient_bounds m n e Hm Hn He) as [Hhi Hlo].
  destruct (scaled_spec m n e Hm Hn) as (a & b & -> & Ha & Hb & Hab).
  pose proof (pow2_pos e) as HU.
  assert (HnU : 0 < n * 2 ^ Z.max 0 e) by nia.
  change (2 ^ 52) with 4503599627370496 in *.
  change (2 ^ 53) with 9007199254740992 in *.
  remember (n * 2 ^ Z.max 0 e) as nU. remember (m * 2 ^ Z.max 0 (- e)) as mV.
  assert (Hq1 : a / b < 9007199254740992).
  { apply Z.div_lt_upper_bound; [exact Hb |].
    apply (Z.mul_lt_mono_pos_r nU); [exact HnU |]. nia. }
  assert (Hq2 : e = ilog2_ratio m n - 52 -> 4503599627370496 <= a / b).
  { intros E. apply Z.div_le_lower_bound; [exact Hb |].
    apply (Z.mul_le_mono_pos_r _ _ nU); [exact HnU |].
    specialize (Hlo E). nia. }
  pose proof (Z.div_pos a b ltac:(lia) Hb) as Hq0.
  assert (Hq : nearest_even (a / b) (a mod b) b = a / b
               \/ nearest_even (a / b) (a mod b) b = a / b + 1)
    by (destruct (nearest_even_cases (a / b) (a mod b) b)
          as [[-> _] | [-> _]]; auto).
  remember (nearest_even (a / b) (a mod b) b) as q eqn:Eq.
  remember (a / b) as q0 eqn:Eq0. clear Eq Eq0 Hab Hhi Hlo.
  unfold prec, emax in *.
  change (2 ^ 53) with 9007199254740992.
  change (2 ^ (53 - 1)) with 4503599627370496.
  destruct (Z.eqb_spec q 9007199254740992) as [-> | Nq].
  - cbn [Z.eqb]. destruct (Z.ltb_spec 1024 (e + 1 + 53)); [reflexivity |].
    cbn [Z.to_pos]. split; [reflexivity |]. split; [lia |].
    split; [lia | left; lia].
  - destruct (Z.eqb_spec q 0) as [_ | Nz]; [reflexivity |].
    destruct (Z.ltb_spec 1024 (e + 53)); [reflexivity |].
    rewrite Z2Pos.id by lia.
    split; [reflexivity |]. split; [lia |]. split; [lia |].
    destruct Hcase as [E | E]; [left; specialize (Hq2 E); lia |].
    destruct (Z.le_gt_cases 4503599627370496 q); [left | right]; lia.
Qed.

(** ** Rounded quotients against the threshold 0.4 *)

Lemma ilog2_ratio_below_one (m n : Z) :
  0 < m <= n ->
  ilog2_ratio m n <= 0
  /\ n <= m * 2 ^ (- ilog2_ratio m n)
  /\ m * 2 ^ (- ilog2_ratio m n) < 2 * n.
Proof.
  intros [Hm Hmn].
  destruct (ilog2_ratio_spec m n Hm ltac:(lia)) as [Hlo Hhi].
  remember (ilog2_ratio m n) as l eqn:El. clear El.
  assert (Hl : l <= 0).
  { destruct (Z.le_gt_cases l 0) as [| Hpos]; [assumption | exfalso].
    rewrite (Z.max_r 0 l), (Z.max_l 0 (- l)) in Hlo by lia.
    change (2 ^ 0) with 1 in Hlo.
    assert (2 ^ 1 <= 2 ^ l) by (apply Z.pow_le_mono_r; lia).
    change (2 ^ 1) with 2 in *. nia. }
  rewrite (Z.max_l 0 l), (Z.max_r 0 (- l)) in Hlo, Hhi by lia.
  change (2 ^ 0) with 1 in *. lia.
Qed.

Lemma round_div_4_10 : round_div 4 10 = S754_finite false 7205759403792794 (-54).
Proof. vm_compute. reflexivity. Qed.

Lemma ge_finite (q e : Z) (M : positive) (E : Z) :
  0 < q ->
  ge (S754_finite false (Z.to_pos q) e) (S754_finite false M E) = true
  <-> E < e \/ (E = e /\ Zpos M <= q).
Proof.
  intros Hq. unfold ge, SFleb, SFcompare.
  change (Pos.compare_cont Eq M (Z.to_pos q)) with (Pos.compare M (Z.to_pos q)).
  rewrite <- (Z2Pos.id q Hq) at 2.
  destruct (Z.compare_spec E e) as [He | He | He].
  - destruct (Pos.compare_spec M (Z.to_pos q)) as [Hc | Hc | Hc];
      split; intros H; try discriminate; try reflexivity; try lia.
  - split; [left; assumption | reflexivity].
  - split; [discriminate | lia].
Qed.

Lemma ratio_ge_threshold (m n : Z) :
  0 <= m <= n -> 0 < n < 2 ^ 55 ->
  ge (round_div m n) (round_div 4 10) = true <-> 2 * n <= 5 * m.
Proof.
  intros [Hm Hmn] [Hn Hb].
  rewrite round_div_4_10. unfold round_div.
  destruct (Z.leb_spec m 0) as [Hz | Hpos].
  { split; [discriminate | lia]. }
  destruct (ilog2_ratio_below_one m n (conj Hpos Hmn)) as (HL & HA & HB).
  remember (ilog2_ratio m n) as L eqn:EL. clear EL.
  assert (HLlow : -56 < L).
  { destruct (Z.lt_ge_cases (-56) L) as [|Hc]; [assumption|exfalso].
    assert (2 ^ 56 <= 2 ^ (- L)) by (apply Z.pow_le_mono_r; lia).
    assert (1 * 2 ^ (- L) <= m * 2 ^ (- L))
      by (apply Z.mul_le_mono_nonneg_r; lia).
    change (2 ^ 55) with 36028797018963968 in Hb.
    change (2 ^ 56) with 72057594037927936 in *.
    lia. }
  unfold emin, emax, prec.
  rewrite Z.max_l by lia.
  unfold scaled.
  destruct (Z.ltb_spec (L - (53 - 1)) 0) as [_ | ?]; [| lia].
  replace (- (L - (53 - 1))) with (52 - L) by lia.
  assert (Hs : 2 ^ (52 - L) = 2 ^ 52 * 2 ^ (- L))
    by (rewrite <- Z.pow_add_r by lia; f_equal; lia).
  remember (m * 2 ^ (52 - L)) as a eqn:Ea.
  change (2 ^ 52) with 4503599627370496 in *.
  change (2 ^ 53) with 9007199254740992 in *.
  assert (Ha1 : 4503599627370496 * n <= a) by (rewrite Ea, Hs; lia).
  assert (Ha2 : a < 9007199254740992 * n) by (rewrite Ea, Hs; lia).
  pose proof (Z.div_mod a n ltac:(lia)) as Hdm.
  pose proof (Z.mod_pos_bound a n Hn) as Hr.
  remember (a / n) as q0 eqn:Eq0. remember (a mod n) as r eqn:Er.
  clear Eq0 Er.
  assert (Hq1 : 4503599627370496 <= q0) by nia.
  assert (Hq2 : q0 < 9007199254740992) by nia.
  change (2 ^ (53 - 1)) with 4503599627370496.
  remember (2 ^ (- L)) as X eqn:EX.
  assert (HX : (-1 <= L /\ X <= 2) \/ (L = -2 /\ X = 4) \/ (L <= -3 /\ 8 <= X)).
  { destruct (Z.le_gt_cases (-1) L) as [H1 | H1]; [left; split; [lia|] |].
    - subst X. change 2 with (2 ^ 1) at 2. apply Z.pow_le_mono_r; lia.
    - destruct (Z.eq_dec L (-2)) as [H2 | H2]; [right; left; subst; split; reflexivity |].
      right; right. split; [lia|]. subst X. change 8 with (2 ^ 3).
      apply Z.pow_le_mono_r; lia. }
  assert (HX0 : 0 < X) by (subst X; apply Z.pow_pos_nonneg; lia).
  clear EX. subst a.
  rewrite Hs in *. clear Hs.
  remember (m * X) as mX eqn:EmX.
  assert (Hdm' : 4503599627370496 * mX = n * q0 + r) by (subst mX; lia).
  clear Hdm Ha1 Ha2.
  remember (n * q0) as nq eqn:Enq.
  destruct (nearest_even_cases q0 r n) as [[-> Hc] | [-> Hc]].
  - destruct (Z.eqb_spec q0 9007199254740992) as [? | _]; [lia|].
    destruct (Z.eqb_spec q0 0) as [? | _]; [lia|].
    destruct (Z.ltb_spec 1024 (L - (53 - 1) + 53)) as [? | _]; [lia|].
    rewrite ge_finite by lia.
    destruct HX as [[H1 H2] | [[H1 H2] | [H1 H2]]].
    + split; [intros _ | intros _; left; lia]. nia.
    + subst L X. split.
      * intros [? | [_ Hge]]; [lia|]. nia.
      * intros Hle. right. split; [reflexivity|].
        destruct (Z.le_gt_cases 7205759403792794 q0); [assumption | exfalso].
        destruct (Z.eq_dec q0 7205759403792793) as [-> | ?]; [| nia].
        destruct Hc as [Hc | [_ Hc]]; [nia | discriminate Hc].
    + split; [intros [? | [? _]]; [lia | lia] | intros ?; exfalso; nia].
  - destruct (Z.eqb_spec (q0 + 1) 9007199254740992) as [Hmax | Hmax].
    + simpl Z.eqb. cbv iota.
      destruct (Z.ltb_spec 1024 (L - (53 - 1) + 1 + 53)) as [? | _]; [lia|].
      change 4503599627370496 with (Z.pos 4503599627370496) at 1.
      rewrite (ge_finite (Z.pos 4503599627370496)) by lia.
      destruct HX as [[H1 H2] | [[H1 H2] | [H1 H2]]].
      * split; [intros _ | intros _; left; lia]. nia.
      * subst L X. split; [intros _ | intros _; left; lia]. nia.
      * split; [intros [? | [? ?]]; [lia | lia] | intros ?; exfalso; nia].
    + destruct (Z.eqb_spec (q0 + 1) 0) as [? | _]; [lia|].
      destruct (Z.ltb_spec 1024 (L - (53 - 1) + 53)) as [? | _]; [lia|].
      rewrite ge_finite by lia.
      destruct HX as [[H1 H2] | [[H1 H2] | [H1 H2]]].
      * split; [intros _ | intros _; left; lia]. nia.
      * subst L X. change (2 ^ 55) with 36028797018963968 in Hb. split.
        -- intros [? | [_ Hge]]; [lia|].
           destruct (Z.eq_dec q0 7205759403792793) as [-> | ?]; [| nia].
           nia.
        -- intros Hle. right. split; [reflexivity|].
           destruct (Z.le_gt_cases 7205759403792794 (q0 + 1)); [assumption | exfalso].
           nia.
      * split; [intros [? | [? _]]; [lia | lia] | intros ?; exfalso; nia].
Qed.

(** ** Strings *)

Lemma str_filter_app (p : ascii -> bool) (s1 s2 : string) :
  PyStr.filter p (s1 ++ s2) = PyStr.filter p s1 ++ PyStr.filter p s2.
Proof.
  induction s1 as [| c s1 IH]; simpl; [reflexivity |].
  destruct (p c); simpl; rewrite IH; reflexivity.
Qed.

Lemma str_filter_filter (p q : ascii -> bool) (s : string) :
  PyStr.filter p (PyStr.filter q s) = PyStr.filter (fun c => q c && p c) s.
Proof.
  induction s as [| c s IH]; simpl; [reflexivity |].
  destruct (q c); simpl; [destruct (p c) |]; rewrite IH; reflexivity.
Qed.

Lemma str_filter_ext (p q : ascii -> bool) (s : string) :
  (forall c, p c = q c) -> PyStr.filter p s = PyStr.filter q s.
Proof.
  intros E. induction s as [| c s IH]; simpl; [reflexivity |].
  rewrite E, IH. reflexivity.
Qed.

Lemma str_filter_map (p : ascii -> bool) (f : ascii -> ascii) (s : string) :
  PyStr.filter p (PyStr.map f s)
  = PyStr.map f (PyStr.filter (fun c => p (f c)) s).
Proof.
  induction s as [| c s IH]; simpl; [reflexivity |].
  destruct (p (f c)); simpl; rewrite IH; reflexivity.
Qed.

Lemma str_filter_all (p : ascii -> bool) (s : string) :
  PyStr.all p s = true -> PyStr.filter p s = s.
Proof.
  induction s as [| c s IH]; simpl; [reflexivity |].
  intros H. apply andb_prop in H as [-> H]. rewrite IH by assumption.
  reflexivity.
Qed.

Lemma str_all_app (p : ascii -> bool) (s1 s2 : string) :
  PyStr.all p (s1 ++ s2) = PyStr.all p s1 && PyStr.all p s2.
Proof.
  induction s1 as [| c s1 IH]; simpl; [reflexivity |].
  rewrite IH. apply andb_assoc.
Qed.

Lemma str_all_filter (p q : ascii -> bool) (s : string) :
  (forall c, q c = true -> p c = true) ->
  PyStr.all p (PyStr.filter q s) = true.
Proof.
  intros W. induction s as [| c s IH]; simpl; [reflexivity |].
  destruct (q c) eqn:E; simpl; [rewrite (W c E) |]; exact IH.
Qed.

Lemma str_all_map (p : ascii -> bool) (f : ascii -> ascii) (s : string) :
  PyStr.all p (PyStr.map f s) = PyStr.all (fun c => p (f c)) s.
Proof.
  induction s as [| c s IH]; simpl; [reflexivity |].
  rewrite IH. reflexivity.
Qed.

Lemma str_all_weaken (p q : ascii -> bool) (s : string) :
  (forall c, p c = true -> q c = true) ->
  PyStr.all p s = true -> PyStr.all q s = true.
Proof.
  intros W. induction s as [| c s IH]; simpl; [reflexivity |].
  intros H. apply andb_prop in H as [H1 H2].
  rewrite (W c H1), (IH H2). reflexivity.
Qed.

Lemma str_all_without (x : ascii) (p q : ascii -> bool) (s : string) :
  (forall c, p c = true -> c <> x -> q c = true) ->
  PyStr.all p s = true -> PyStr.mem x s = false -> PyStr.all q s = true.
Proof.
  intros W. induction s as [| c s IH]; simpl; [reflexivity |].
  intros H M. apply andb_prop in H as [H1 H2].
  apply orb_false_elim in M as [M1 M2].
  apply Ascii.eqb_neq in M1.
  rewrite (W c H1), (IH H2 M2); [reflexivity | congruence].
Qed.

Lemma str_mem_filter (c : ascii) (p : ascii -> bool) (s : string) :
  PyStr.mem c (PyStr.filter p s) = PyStr.mem c s && p c.
Proof.
  induction s as [| c' s IH]; simpl; [reflexivity |].
  destruct (p c') eqn:E; simpl; rewrite IH;
    destruct (Ascii.eqb_spec c c') as [-> | N]; simpl;
    rewrite ?E, ?andb_false_r; reflexivity.
Qed.

Lemma str_mem_replace (x d : ascii) (s : string) :
  x <> d -> PyStr.mem x (PyStr.replace x d s) = false.
Proof.
  intros N. unfold PyStr.replace.
  induction s as [| c' s IH]; simpl; [reflexivity |].
  rewrite IH, orb_false_r.
  destruct (Ascii.eqb_spec c' x) as [-> | N'];
    apply Ascii.eqb_neq; congruence.
Qed.

(** ** Floats read from text *)

Lemma round_div_unsigned (m n : Z) : unsigned (round_div m n).
Proof.
  unfold round_div, unsigned.
  destruct (m <=? 0); [split; reflexivity |].
  destruct (scaled m n _) as [a b].
  destruct (_ =? 2 ^ prec);
    destruct (_ =? 0); try (split; reflexivity);
    destruct (emax <? _); split; reflexivity.
Qed.

Lemma of_str_outcome (s : string) :
  (exists x, of_str s = Returns x /\ unsigned x)
  \/ of_str s = Raises ValueError.
Proof.
  unfold of_str. destruct (cut_at_point s) as [i f].
  destruct (_ && _); [left | right; reflexivity].
  eexists. split; [reflexivity | apply round_div_unsigned].
Qed.

Lemma unsigned_not_negative (x : float) :
  unsigned x -> lt x zero = false.
Proof.
  intros [S N]. destruct x as [s | s | | s m e]; simpl in *; subst;
    try reflexivity; discriminate.
Qed.

Lemma unsigned_truthy_positive (x : float) :
  unsigned x -> truthy x = true -> lt zero x = true.
Proof.
  intros [S N]. destruct x as [s | s | | s m e]; simpl in *; subst;
    try reflexivity; discriminate.
Qed.

Lemma cut_at_point_spec (s : string) :
  s = fst (cut_at_point s)
      ++ match snd (cut_at_point s) with
         | Some f => String "." f
         | None => ""
         end.
Proof.
  induction s as [| c s IH]; simpl; [reflexivity |].
  destruct (Ascii.eqb_spec c ".") as [-> | N]; simpl; [reflexivity |].
  destruct (cut_at_point s) as [i f]. simpl in *. rewrite <- IH. reflexivity.
Qed.

Lemma of_str_needs_digit (s : string) (x : float) :
  of_str s = Returns x -> PyStr.filter PyStr.re_digit s <> "".
Proof.
  unfold of_str. pose proof (cut_at_point_spec s) as E.
  destruct (cut_at_point s) as [i fo]. simpl in E.
  destruct (_ && _) eqn:C; [| discriminate].
  apply andb_prop in C as [C L]. apply andb_prop in C as [Di Df].
  intros _. apply Nat.ltb_lt in L.
  rewrite E, str_filter_app, (str_filter_all _ _ Di).
  destruct i as [| c i]; [| simpl; discriminate].
  destruct fo as [f |]; simpl in *; [| lia].
  rewrite (str_filter_all _ _ Df). destruct f; simpl in *; [lia | discriminate].
Qed.

Lemma number_format_digits (c : string) :
  PyStr.filter PyStr.re_digit (number_format c)
  = PyStr.filter PyStr.re_digit c.
Proof.
  unfold number_format.
  destruct (PyStr.mem "," c && PyStr.mem "." c).
  - unfold PyStr.remove. rewrite str_filter_filter. apply str_filter_ext.
    intros x. destruct (Ascii.eqb_spec x ","); subst; reflexivity.
  - destruct (PyStr.mem "," c); [| reflexivity].
    unfold PyStr.replace.
    induction c as [| x c IH]; simpl; [reflexivity |].
    destruct (Ascii.eqb_spec x ",") as [-> | N]; simpl; [exact IH |].
    rewrite IH. reflexivity.
Qed.

Lemma number_format_no_comma (c : string) :
  PyStr.mem "," (number_format c) = false.
Proof.
  unfold number_format.
  destruct (PyStr.mem "," c) eqn:C; simpl.
  - destruct (PyStr.mem "." c).
    + unfold PyStr.remove. rewrite str_mem_filter. simpl. apply andb_false_r.
    + apply str_mem_replace. discriminate.
  - assumption.
Qed.

Lemma price_char_cases (c : ascii) :
  price_char c = true -> c = ","%char \/ float_char c = true.
Proof.
  unfold price_char, float_char.
  destruct (Ascii.eqb_spec c ","); [left; assumption | right].
  rewrite orb_false_r in H. assumption.
Qed.

(** The argument of [float] is made of digits and ['.'] only. *)
Lemma float_argument_alphabet (price_text : string) :
  PyStr.all float_char (number_format (price_chars price_text)) = true.
Proof.
  assert (K : PyStr.all price_char (price_chars price_text) = true)
    by (apply str_all_filter; intros c H; exact H).
  unfold number_format.
  destruct (PyStr.mem "," _) eqn:C; simpl.
  - destruct (PyStr.mem "." _).
    + unfold PyStr.remove.
      rewrite <- (str_filter_all _ _ K), str_filter_filter.
      apply str_all_filter. intros c H. apply andb_prop in H as [H1 H2].
      destruct (price_char_cases c H1) as [-> | H]; [discriminate | exact H].
    + unfold PyStr.replace. rewrite str_all_map.
      revert K. apply str_all_weaken. intros c H.
      destruct (price_char_cases c H) as [-> | H']; [reflexivity |].
      destruct (Ascii.eqb_spec c ","); [reflexivity | exact H'].
  - revert K C. apply str_all_without. intros c H N.
    destruct (price_char_cases c H) as [-> | H']; [contradiction | exact H'].
Qed.

Lemma extract_price_outcome (price_text : string) :
  (exists x, _extract_price price_text = Returns (Some x) /\ unsigned x)
  \/ (_extract_price price_text = Returns None
      /\ of_str (number_format (price_chars price_text))
         = Raises ValueError).
Proof.
  unfold _extract_price.
  destruct (of_str_outcome (number_format (price_chars price_text)))
    as [(x & -> & U) | ->].
  - left. exists x. split; [reflexivity | exact U].
  - right. split; reflexivity.
Qed.

Lemma price_chars_remove (price_text : string) :
  price_chars (PyStr.remove "," price_text)
  = PyStr.remove "," (price_chars price_text).
Proof.
  unfold price_chars, PyStr.remove. rewrite !str_filter_filter.
  apply str_filter_ext. intros c. apply andb_comm.
Qed.

Lemma price_chars_replace (price_text : string) :
  price_chars (PyStr.replace "," "." price_text)
  = PyStr.replace "," "." (price_chars price_text).
Proof.
  unfold price_chars, PyStr.replace. rewrite str_filter_map. f_equal.
  apply str_filter_ext. intros c.
  destruct (Ascii.eqb_spec c ",") as [-> | N]; reflexivity.
Qed.

Lemma price_chars_idempotent (price_text : string) :
  price_chars (price_chars price_text) = price_chars price_text.
Proof.
  unfold price_chars. apply str_filter_all, str_all_filter.
  intros c H. exact H.
Qed.

Lemma number_format_plain (c : string) :
  PyStr.mem "," c = false -> number_format c = c.
Proof. intros H. unfold number_format. rewrite H. reflexivity. Qed.

Lemma cut_at_point_digits (i f : string) :
  PyStr.all PyStr.re_digit i = true ->
  cut_at_point (i ++ String "." f) = (i, Some f).
Proof.
  induction i as [| c i IH]; simpl; [reflexivity |].
  intros H. apply andb_prop in H as [Hc H]. rewrite (IH H).
  destruct (Ascii.eqb_spec c ".") as [-> | N]; [discriminate Hc | reflexivity].
Qed.

(** C5.  [_extract_price] settles the separators of the cleaned string as
    follows.  When it holds both [','] and ['.'], every [','] is removed
    and the ['.'] stay: the price is the one read from the text without
    its commas.  When it holds [','] only, every [','] becomes ['.']: the
    price is the one read from the text with a point for each comma.  No
    [','] reaches [float].  What is not a digit, a point or a comma plays
    no part, and a text of the digits 0 to 9 around one point is read as
    that decimal number, rounded to the nearest float.  "1234.56", "1,234.56" and
    "1234,56" all yield the float 1234.56, the binary64 number nearest to
    123456/100. *)
Theorem number_format_spec (price_text : string) :
  let cleaned := price_chars price_text in
  let f := S754_finite false 5429652300748554 (-42) in
  (PyStr.mem "," cleaned = true -> PyStr.mem "." cleaned = true ->
   number_format cleaned = PyStr.remove "," cleaned
   /\ PyStr.mem "." (number_format cleaned) = true)
  /\ (PyStr.mem "," cleaned = true -> PyStr.mem "." cleaned = false ->
      number_format cleaned = PyStr.replace "," "." cleaned)
  /\ PyStr.mem "," (number_format cleaned) = false
  /\ _extract_price "1234.56" = Returns (Some f)
  /\ _extract_price "1,234.56" = Returns (Some f)
  /\ _extract_price "1234,56" = Returns (Some f)
  /\ nearest_to f 123456 100 = true
  /\ (PyStr.mem "," cleaned = true -> PyStr.mem "." cleaned = true ->
      _extract_price price_text
      = _extract_price (PyStr.remove "," price_text))
  /\ (PyStr.mem "," cleaned = true -> PyStr.mem "." cleaned = false ->
      _extract_price price_text
      = _extract_price (PyStr.replace "," "." price_text))
  /\ _extract_price price_text = _extract_price cleaned
  /\ (forall whole fraction,
         PyStr.all (PyStr.between 48 57) whole = true ->
         PyStr.all (PyStr.between 48 57) fraction = true ->
         whole ++ fraction <> "" ->
         _extract_price (whole ++ "." ++ fraction)
         = Returns (Some (round_div
                            (digits_value 0 (whole ++ fraction))
                            (10 ^ Z.of_nat (String.length fraction)))))
  /\ (forall whole,
         PyStr.all (PyStr.between 48 57) whole = true ->
         whole <> "" ->
         _extract_price whole
         = Returns (Some (round_div (digits_value 0 whole) 1))).
Proof.
  intros cleaned f.
  assert (Digits : forall s, PyStr.all PyStr.re_digit s = true ->
                     price_chars s = s /\ PyStr.mem "," s = false).
  { intros s H. split.
    - apply str_filter_all. revert H. apply str_all_weaken.
      intros c Hc. unfold price_char. rewrite Hc. reflexivity.
    - induction s as [| c s IH]; [reflexivity |].
      simpl in H. apply andb_prop in H as [Hc H]. cbn [PyStr.mem].
      rewrite (IH H), orb_false_r.
      destruct (Ascii.eqb_spec "," c) as [<- | N];
        [discriminate Hc | reflexivity]. }
  split; [| split; [| split; [apply number_format_no_comma |]]].
  - intros C D. unfold number_format. rewrite C, D. simpl.
    split; [reflexivity |].
    unfold PyStr.remove. rewrite str_mem_filter, D. reflexivity.
  - intros C D. unfold number_format. rewrite C, D. reflexivity.
  - do 4 (split; [vm_compute; reflexivity |]).
    split; [| split; [| split; [| split]]].
    + intros C D. unfold _extract_price.
      rewrite price_chars_remove. fold cleaned.
      rewrite (number_format_plain (PyStr.remove "," cleaned)).
      * unfold number_format. rewrite C, D. reflexivity.
      * unfold PyStr.remove. rewrite str_mem_filter. apply andb_false_r.
    + intros C D. unfold _extract_price.
      rewrite price_chars_replace. fold cleaned.
      rewrite (number_format_plain (PyStr.replace "," "." cleaned)).
      * unfold number_format. rewrite C, D. reflexivity.
      * apply str_mem_replace. discriminate.
    + unfold _extract_price, cleaned. rewrite price_chars_idempotent.
      reflexivity.
    + intros whole fraction Hw Hf N.
      change (PyStr.between 48 57) with PyStr.re_digit in Hw, Hf.
      destruct (Digits _ Hw) as [Pw Mw]. destruct (Digits _ Hf) as [Pf Mf].
      assert (P : price_chars (whole ++ "." ++ fraction)
                  = whole ++ "." ++ fraction).
      { unfold price_chars in *. rewrite !str_filter_app, Pw, Pf.
        reflexivity. }
      assert (M : PyStr.mem "," (whole ++ "." ++ fraction) = false).
      { clear - Mw Mf. induction whole as [| c w IH];
          cbn [append PyStr.mem] in *.
        - rewrite Mf. reflexivity.
        - apply orb_false_elim in Mw as [M1 M2].
          rewrite M1, (IH M2). reflexivity. }
      unfold _extract_price. rewrite P, (number_format_plain _ M).
      unfold of_str. cbn [append].
      rewrite (cut_at_point_digits _ _ Hw), Hw, Hf. cbn [andb].
      destruct (Nat.ltb_spec 0 (String.length (whole ++ fraction))) as [L | L];
        [reflexivity |].
      destruct (whole ++ fraction); [contradiction | simpl in L; lia].
    + intros whole Hw N.
      change (PyStr.between 48 57) with PyStr.re_digit in Hw.
      destruct (Digits _ Hw) as [Pw Mw].
      unfold _extract_price. rewrite Pw, (number_format_plain _ Mw).
      unfold of_str.
      assert (C : cut_at_point whole = (whole, None)).
      { clear - Hw. induction whole as [| c w IH]; [reflexivity |].
        simpl in Hw. apply andb_prop in Hw as [Hc Hw]. simpl.
        rewrite (IH Hw).
        destruct (Ascii.eqb_spec c ".") as [-> | _];
          [discriminate Hc | reflexivity]. }
      assert (A : whole ++ "" = whole).
      { clear. induction whole as [| c w IH]; simpl; [| rewrite IH];
          reflexivity. }
      rewrite C, Hw, A. cbn [andb PyStr.all].
      destruct (Nat.ltb_spec 0 (String.length whole)) as [L | L];
        [reflexivity |].
      destruct whole; [contradiction | simpl in L; lia].
Qed.

Lemma number_format_witness :
  number_format (price_chars "EGP 1,234.56")
  = PyStr.remove "," (price_chars "EGP 1,234.56")
  /\ PyStr.mem "." (number_format (price_chars "EGP 1,234.56")) = true.
Proof.
  apply (proj1 (number_format_spec "EGP 1,234.56")); reflexivity.
Defined.

(** C6 (as amended).  A comma in a string without ['.'] is read as the
    decimal point: [_extract_price "1,234"] passes "1.234" to [float] and
    returns 1.234, the binary64 number nearest to 1234/1000. *)
Theorem lone_comma_is_decimal_point :
  number_format (price_chars "1,234") = "1.234"
  /\ _extract_price "1,234"
     = Returns (Some (S754_finite false 5557441940175192 (-52)))
  /\ nearest_to (S754_finite false 5557441940175192 (-52)) 1234 1000 = true.
Proof. repeat split; vm_compute; reflexivity. Qed.

(** C6, counterexample: [_extract_price "1,234"] is not 1234. *)
Lemma lone_comma_not_thousands :
  _extract_price "1,234" <> Returns (Some (of_int 1234)).
Proof. vm_compute. discriminate. Qed.

(** C9.  [_extract_price] returns on every string and never raises.  It
    returns [None] when the cleaned string is empty, when it holds no
    digit, and whenever [float] rejects what it is given. *)
Theorem extract_price_total (price_text : string) :
  (exists r, _extract_price price_text = Returns r)
  /\ (price_chars price_text = "" ->
      _extract_price price_text = Returns None)
  /\ (PyStr.filter PyStr.re_digit (price_chars price_text) = "" ->
      _extract_price price_text = Returns None)
  /\ (forall e,
         of_str (number_format (price_chars price_text)) = Raises e ->
         _extract_price price_text = Returns None).
Proof.
  assert (R : forall e,
             of_str (number_format (price_chars price_text)) = Raises e ->
             _extract_price price_text = Returns None).
  { intros e E. unfold _extract_price.
    destruct (of_str_outcome (number_format (price_chars price_text)))
      as [(x & Ex & _) | Ev]; [congruence |].
    rewrite Ev. reflexivity. }
  split; [| split; [| split; [| exact R]]].
  - destruct (extract_price_outcome price_text) as [(x & E & _) | [E _]];
      eexists; exact E.
  - intros E. unfold _extract_price. rewrite E. reflexivity.
  - intros D.
    destruct (of_str (number_format (price_chars price_text))) as [x | e]
      eqn:E; [| exact (R e eq_refl)].
    apply of_str_needs_digit in E.
    rewrite number_format_digits in E. contradiction.
Qed.

Lemma extract_price_witness : _extract_price "EGP --" = Returns None.
Proof.
  apply (proj1 (proj2 (extract_price_total "EGP --"))). reflexivity.
Defined.

(** ** The scrapers *)

Lemma scrape_item_positive (site : string) (complete : string -> string)
      (item : Item) (product : Product) :
  scrape_item site complete item = Some product -> positive_price product.
Proof.
  unfold scrape_item.
  destruct (name_elem item), (price_elem item) as [t |], (link item);
    try discriminate.
  destruct (extract_price_outcome t) as [(x & -> & U) | [-> _]];
    [| discriminate].
  destruct (truthy x) eqn:T; [| discriminate].
  intros [= <-]. exists x. split; [reflexivity |].
  apply unsigned_truthy_positive; assumption.
Qed.

Lemma in_keep_some {A : Type} (a : A) (l : list (option A)) :
  In a (keep_some l) <-> In (Some a) l.
Proof.
  induction l as [| [b |] l IH]; simpl; [tauto | |].
  - rewrite IH. split; intros [H | H]; auto; left; congruence.
  - rewrite IH. split; [auto | intros [H | H]; [discriminate | assumption]].
Qed.

Lemma scrape_positive (site : string) (complete : string -> string)
      (page : Page) :
  Forall positive_price (scrape site complete page).
Proof.
  apply Forall_forall. intros product H.
  destruct page as [items |]; simpl in H; [| contradiction].
  apply in_keep_some, in_map_iff in H as (item & E & _).
  exact (scrape_item_positive _ _ _ _ E).
Qed.

Lemma all_products_positive (amazon noon carrefour : Page) :
  Forall positive_price (all_products amazon noon carrefour).
Proof.
  unfold all_products, scrape_amazon, scrape_noon, scrape_carrefour.
  repeat (apply Forall_app; split); apply scrape_positive.
Qed.

(** ** Sorting by price *)

Lemma positive_has_price (p : Product) :
  positive_price p -> has_price p = true.
Proof. intros (x & E & _). unfold has_price. rewrite E. reflexivity. Qed.

Lemma price_lt_asym (a b : Product) :
  price_lt a b = true -> price_lt b a = false.
Proof.
  unfold price_lt, key_lt.
  destruct (price a), (price b); try discriminate. apply lt_asym.
Qed.

Lemma price_not_lt_trans (z y x : Product) :
  positive_price y ->
  price_lt y x = false -> price_lt z y = false -> price_lt z x = false.
Proof.
  intros (b & E & P). unfold price_lt, key_lt. rewrite E.
  destruct (price z), (price x); try reflexivity.
  apply not_lt_trans. apply (lt_not_nan _ _ P).
Qed.

Lemma insert_perm (x : Product) (l : list Product) :
  Permutation (insert x l) (x :: l).
Proof.
  induction l as [| y l IH]; simpl; [reflexivity |].
  destruct (price_lt y x); [| reflexivity].
  rewrite IH. apply perm_swap.
Qed.

Lemma stable_sort_perm (l : list Product) :
  Permutation (stable_sort l) l.
Proof.
  induction l as [| x l IH]; simpl; [reflexivity |].
  rewrite insert_perm, IH. reflexivity.
Qed.

Lemma insert_ascending (x : Product) (l : list Product) :
  Forall positive_price l -> ascending l -> ascending (insert x l).
Proof.
  unfold ascending. intros P S.
  induction S as [| y l S IH F]; simpl.
  - repeat constructor.
  - apply Forall_cons_iff in P as [Py P].
    destruct (price_lt y x) eqn:C.
    + constructor; [exact (IH P) |].
      apply (Permutation_Forall (Permutation_sym (insert_perm x l))).
      constructor; [exact (price_lt_asym _ _ C) | exact F].
    + constructor; [constructor; assumption |].
      constructor; [exact C |].
      revert F. apply Forall_impl. intros z Hz.
      exact (price_not_lt_trans z y x Py C Hz).
Qed.

Lemma stable_sort_ascending (l : list Product) :
  Forall positive_price l -> ascending (stable_sort l).
Proof.
  induction l as [| x l IH]; simpl; intros P; [constructor |].
  apply Forall_cons_iff in P as [_ P].
  apply insert_ascending; [| exact (IH P)].
  exact (Permutation_Forall (Permutation_sym (stable_sort_perm l)) P).
Qed.

Lemma insert_keeps_ties (v : float) (x : Product) (l : list Product) :
  filter (priced v) (insert x l) = filter (priced v) (x :: l).
Proof.
  induction l as [| y l IH]; [reflexivity |].
  simpl insert. destruct (price_lt y x) eqn:C; [| reflexivity].
  simpl filter in *. rewrite IH.
  destruct (priced v x) eqn:Px; [| reflexivity].
  replace (priced v y) with false; [reflexivity |].
  symmetry. revert C Px. unfold price_lt, key_lt, priced.
  destruct (price y), (price x); try discriminate. apply lt_eq_distinct.
Qed.

Lemma stable_sort_keeps_ties (v : float) (l : list Product) :
  filter (priced v) (stable_sort l) = filter (priced v) l.
Proof.
  induction l as [| x l IH]; [reflexivity |].
  simpl stable_sort. rewrite insert_keeps_ties. simpl. rewrite IH.
  reflexivity.
Qed.

Lemma sorted_by_price_returns (l : list Product) :
  Forall positive_price l -> sorted_by_price l = Returns (stable_sort l).
Proof.
  intros P. unfold sorted_by_price.
  destruct l as [| a [| b l]]; [reflexivity | reflexivity |].
  replace (forallb has_price (a :: b :: l)) with true; [reflexivity |].
  symmetry. apply forallb_forall. intros p H.
  apply positive_has_price. revert p H. apply Forall_forall. exact P.
Qed.

Lemma search_products_returns (amazon noon carrefour : Page) :
  search_products amazon noon carrefour
  = Returns (stable_sort (all_products amazon noon carrefour)).
Proof. apply sorted_by_price_returns, all_products_positive. Qed.

(** C3 (as amended).  [search_products] returns every offer the three
    scrapers produced, each as often as it was produced: the ranked list
    is a rearrangement of the concatenated listings and nothing is merged,
    whether two equivalent offers come from one source or from two. *)
Theorem search_products_merges_nothing (amazon noon carrefour : Page) :
  exists ranked,
    search_products amazon noon carrefour = Returns ranked
    /\ Permutation ranked (all_products amazon noon carrefour).
Proof.
  eexists. split; [apply search_products_returns | apply stable_sort_perm].
Qed.

(** C3, counterexample: two equivalent listings of one Amazon page are
    both ranked. *)
Lemma twin_offers_both_ranked :
  ~ (forall ranked,
        search_products twin_page None None = Returns ranked ->
        deduplicated ranked).
Proof.
  intros H.
  specialize (H _ (search_products_returns _ _ _)).
  match type of H with
  | deduplicated ?l =>
      let v := eval vm_compute in l in change l with v in H
  end.
  specialize (H 0%nat 1%nat _ _ (O_S 0) eq_refl eq_refl eq_refl).
  vm_compute in H. discriminate H.
Qed.

(** C4 (as amended).  [search_products] returns the concatenated
    listings in ascending order of price, and offers of equal price keep
    the order in which they arrived: Amazon before Noon before Carrefour,
    and within one source the order of the page.  The source name plays
    no part in the order. *)
Theorem search_products_stable (amazon noon carrefour : Page) :
  exists ranked,
    search_products amazon noon carrefour = Returns ranked
    /\ Permutation ranked (all_products amazon noon carrefour)
    /\ ascending ranked
    /\ forall v, filter (priced v) ranked
                 = filter (priced v) (all_products amazon noon carrefour).
Proof.
  eexists. split; [apply search_products_returns |].
  split; [apply stable_sort_perm |].
  split; [apply stable_sort_ascending, all_products_positive |].
  intros v. apply stable_sort_keeps_ties.
Qed.

(** C4, counterexample: at equal prices the Noon offer precedes the
    Carrefour offer, against the order of the source names. *)
Lemma noon_before_carrefour :
  ~ (forall ranked,
        search_products None noon_page carrefour_page
        = Returns ranked ->
        ties_by_source_name ranked).
Proof.
  intros H.
  specialize (H _ (search_products_returns _ _ _)).
  match type of H with
  | ties_by_source_name ?l =>
      let v := eval vm_compute in l in change l with v in H
  end.
  specialize (H 0%nat 1%nat _ _ (S754_finite false 8787296929185792 (-43))
                (le_n 1) eq_refl eq_refl eq_refl eq_refl).
  discriminate H.
Qed.

(** ** Relevance *)

Lemma truediv_positive (a b : nat) :
  (0 < b)%nat ->
  truediv a b = Returns (round_div (Z.of_nat a) (Z.of_nat b)).
Proof. destruct b; [lia | reflexivity]. Qed.

Lemma matches_le (product_name : string) (search_terms : list string) :
  (matches product_name search_terms <= List.length search_terms)%nat.
Proof. apply filter_length_le. Qed.

Lemma check_relevance_unfold (product_name : string)
      (search_terms : list string) :
  product_name <> "" -> search_terms <> [] ->
  _check_relevance product_name search_terms
  = if critical_gate product_name search_terms
    then Returns
           (PyFloat.ge
              (round_div
                 (Z.of_nat (matches (PyStr.lower product_name) search_terms))
                 (Z.of_nat (List.length search_terms)))
              (round_div 4 10))
    else Returns false.
Proof.
  intros N T. unfold _check_relevance, critical_gate.
  destruct (String.eqb_spec product_name ""); [contradiction |].
  destruct search_terms as [| term terms]; [contradiction |].
  cbn [is_empty orb].
  destruct (forallb _ (critical_terms _)) eqn:G.
  - rewrite andb_false_r.
    rewrite truediv_positive by (simpl; lia). reflexivity.
  - rewrite andb_true_r.
    destruct (critical_terms (term :: terms)); [discriminate G | reflexivity].
Qed.

(** C7.  [_check_relevance] returns false when the offer name or the list
    of query terms is empty.  When the query, joined and lowercased,
    contains "lenovo legion", it returns true only if "lenovo", "legion"
    and "laptop" all occur in the lowercased offer name.  When that gate
    is passed it returns true exactly when the terms that occur, lowercased,
    in the lowercased offer name are at least two fifths of the terms (for
    a list of fewer than 2^55 terms, below which the rounded quotient and
    the rounded 0.4 compare as the exact ones do).  It never raises. *)
Theorem check_relevance_spec (product_name : string)
        (search_terms : list string) :
  (product_name = "" \/ search_terms = [] ->
   _check_relevance product_name search_terms = Returns false)
  /\ (PyStr.contains "lenovo legion"
        (PyStr.lower (PyStr.join " " search_terms)) = true ->
      _check_relevance product_name search_terms = Returns true ->
      Forall (fun term =>
                PyStr.contains term (PyStr.lower product_name) = true)
             ["lenovo"; "legion"; "laptop"])
  /\ (product_name <> "" -> search_terms <> [] ->
      critical_gate product_name search_terms = true ->
      Z.of_nat (List.length search_terms) < 2 ^ 55 ->
      (_check_relevance product_name search_terms = Returns true
       <-> 2 * Z.of_nat (List.length search_terms)
           <= 5 * Z.of_nat (matches (PyStr.lower product_name)
                                    search_terms)))
  /\ (exists b, _check_relevance product_name search_terms = Returns b)
  /\ _check_relevance "Lenovo Legion 5 Pro 16GB"
                      ["lenovo"; "legion"; "laptop"] = Returns false
  /\ _check_relevance "Lenovo Legion 5 Pro Laptop 16GB"
                      ["lenovo"; "legion"; "laptop"] = Returns true.
Proof.
  assert (Empty : product_name = "" \/ search_terms = [] ->
                  _check_relevance product_name search_terms = Returns false).
  { unfold _check_relevance. intros [-> | ->]; [reflexivity |].
    rewrite orb_true_r. reflexivity. }
  split; [exact Empty |].
  split; [| split; [| split; [| split; vm_compute; reflexivity]]].
  - intros C R.
    destruct (String.eqb_spec product_name "") as [-> | N];
      [rewrite (Empty (or_introl eq_refl)) in R; discriminate R |].
    destruct search_terms as [| term terms];
      [rewrite (Empty (or_intror eq_refl)) in R; discriminate R |].
    rewrite check_relevance_unfold in R by (assumption || discriminate).
    unfold critical_gate, critical_terms in R. rewrite C in R.
    destruct (forallb _ _) eqn:G; [| discriminate R].
    apply Forall_forall. apply forallb_forall. exact G.
  - intros N T G B.
    rewrite check_relevance_unfold, G by assumption.
    split.
    + intros [= R]. apply ratio_ge_threshold in R; [exact R | |].
      * pose proof (matches_le (PyStr.lower product_name) search_terms). lia.
      * destruct search_terms; [contradiction | simpl List.length in *; lia].
    + intros R. f_equal. apply ratio_ge_threshold; [| | exact R].
      * pose proof (matches_le (PyStr.lower product_name) search_terms). lia.
      * destruct search_terms; [contradiction | simpl List.length in *; lia].
  - destruct (String.eqb_spec product_name "") as [-> | N];
      [exists false; apply Empty; left; reflexivity |].
    destruct search_terms as [| term terms];
      [exists false; apply Empty; right; reflexivity |].
    rewrite check_relevance_unfold by (assumption || discriminate).
    destruct (critical_gate _ _); eexists; reflexivity.
Qed.

Lemma check_relevance_witness :
  _check_relevance "Joyroom Stylus Pen" ["joyroom"; "pencil"; "case"; "ipad"; "pen"]
  = Returns true
  <-> 2 * 5 <= 5 * 2.
Proof.
  apply (proj1 (proj2 (proj2 (check_relevance_spec
           "Joyroom Stylus Pen" ["joyroom"; "pencil"; "case"; "ipad"; "pen"])))).
  - discriminate.
  - discriminate.
  - reflexivity.
  - reflexivity.
Defined.

(** ** Cleaned text *)

Lemma both_spec (q : bool -> bool) :
  PyStr.both q = true -> forall b, q b = true.
Proof.
  unfold PyStr.both. intros H b. apply andb_prop in H as [H1 H2].
  destruct b; assumption.
Qed.

Lemma every_ascii_spec (p : ascii -> bool) :
  PyStr.every_ascii p = true -> forall c, p c = true.
Proof.
  intros H [b0 b1 b2 b3 b4 b5 b6 b7]. unfold PyStr.every_ascii in H.
  apply both_spec with (b := b0) in H; cbv beta in H.
  apply both_spec with (b := b1) in H; cbv beta in H.
  apply both_spec with (b := b2) in H; cbv beta in H.
  apply both_spec with (b := b3) in H; cbv beta in H.
  apply both_spec with (b := b4) in H; cbv beta in H.
  apply both_spec with (b := b5) in H; cbv beta in H.
  apply both_spec with (b := b6) in H; cbv beta in H.
  apply both_spec with (b := b7) in H; cbv beta in H.
  exact H.
Qed.

Lemma lower_char_space (c : ascii) :
  PyStr.isspace (PyStr.lower_char c) = PyStr.isspace c.
Proof.
  apply Bool.eqb_prop. revert c.
  apply (every_ascii_spec
           (fun c => Bool.eqb (PyStr.isspace (PyStr.lower_char c))
                              (PyStr.isspace c))).
  vm_compute. reflexivity.
Qed.

Lemma kept_visible (c : ascii) : kept c && visible c = name_char c.
Proof.
  apply Bool.eqb_prop. revert c.
  apply (every_ascii_spec
           (fun c => Bool.eqb (kept c && visible c) (name_char c))).
  vm_compute. reflexivity.
Qed.

Lemma lower_char_clean (c : ascii) :
  kept c && visible c = true ->
  clean_char (PyStr.lower_char c) && visible (PyStr.lower_char c) = true.
Proof.
  intros H.
  pose proof (every_ascii_spec
                (fun c => implb (kept c && visible c)
                                (clean_char (PyStr.lower_char c)
                                 && visible (PyStr.lower_char c)))
                ltac:(vm_compute; reflexivity) c) as I.
  cbv beta in I. rewrite H in I. exact I.
Qed.

Lemma visible_not_blank (c : ascii) :
  visible c = true -> negb (Ascii.eqb c " ") = true.
Proof.
  intros H.
  pose proof (every_ascii_spec
                (fun c => implb (visible c) (negb (Ascii.eqb c " ")))
                ltac:(vm_compute; reflexivity) c) as I.
  cbv beta in I. rewrite H in I. exact I.
Qed.

Lemma of_list_app (l1 l2 : list ascii) :
  string_of_list_ascii (l1 ++ l2)
  = string_of_list_ascii l1 ++ string_of_list_ascii l2.
Proof. induction l1 as [| c l1 IH]; simpl; [| rewrite IH]; reflexivity. Qed.

Lemma all_of_list (p : ascii -> bool) (l : list ascii) :
  PyStr.all p (string_of_list_ascii l) = forallb p l.
Proof. induction l as [| c l IH]; simpl; [| rewrite IH]; reflexivity. Qed.

Lemma append_empty_r (s : string) : s ++ "" = s.
Proof. induction s as [| c s IH]; simpl; [| rewrite IH]; reflexivity. Qed.

Lemma str_app_assoc (a b c : string) : (a ++ b) ++ c = a ++ (b ++ c).
Proof. induction a as [| x a IH]; simpl; [| rewrite IH]; reflexivity. Qed.

Lemma join_cons (sep w : string) (ws : list string) :
  ws <> [] -> PyStr.join sep (w :: ws) = w ++ sep ++ PyStr.join sep ws.
Proof. destruct ws; [contradiction | reflexivity]. Qed.

Lemma join_empty_app (l1 l2 : list string) :
  PyStr.join "" (l1 ++ l2) = PyStr.join "" l1 ++ PyStr.join "" l2.
Proof.
  induction l1 as [| w l1 IH]; [reflexivity |].
  assert (C : forall l, PyStr.join "" (w :: l) = w ++ PyStr.join "" l).
  { intros [| x l]; simpl; [rewrite append_empty_r |]; reflexivity. }
  simpl List.app. rewrite !C, IH, str_app_assoc. reflexivity.
Qed.

(** The words of [split], put end to end, are the visible characters. *)
Lemma split_aux_content (s : string) (w : list ascii) :
  PyStr.join "" (PyStr.split_aux w s)
  = string_of_list_ascii (List.rev w) ++ PyStr.filter visible s.
Proof.
  revert w. induction s as [| c s IH]; intros w; simpl.
  - rewrite append_empty_r. destruct w; [reflexivity |].
    simpl. reflexivity.
  - unfold visible at 1. destruct (PyStr.isspace c); simpl.
    + rewrite join_empty_app, IH. simpl.
      destruct w; [reflexivity |]. reflexivity.
    + rewrite IH. simpl. rewrite of_list_app, str_app_assoc. reflexivity.
Qed.

Lemma forallb_reverse {A : Type} (p : A -> bool) (l : list A) :
  forallb p (List.rev l) = forallb p l.
Proof.
  induction l as [| x l IH]; [reflexivity |].
  simpl. rewrite forallb_app, IH. simpl.
  rewrite andb_true_r. apply andb_comm.
Qed.

(** Each of them is a word made of visible characters of the text. *)
Lemma split_aux_words (p : ascii -> bool) (s : string) (w : list ascii) :
  PyStr.all (fun c => negb (visible c) || p c) s = true ->
  forallb p w = true ->
  Forall (fun x => x <> "" /\ PyStr.all p x = true) (PyStr.split_aux w s).
Proof.
  assert (Flush : forall w, forallb p w = true ->
            Forall (fun x => x <> "" /\ PyStr.all p x = true)
                   match w with
                   | [] => []
                   | _ => [string_of_list_ascii (List.rev w)]
                   end).
  { intros [| x l] W; constructor; [| constructor].
    split; [| rewrite all_of_list, forallb_reverse; exact W].
    intros E. destruct (List.rev (x :: l)) eqn:R; [| discriminate E].
    apply (f_equal (@List.length ascii)) in R.
    rewrite length_rev in R. discriminate R. }
  revert w. induction s as [| c s IH]; intros w A W; simpl.
  - exact (Flush w W).
  - simpl in A. apply andb_prop in A as [Ac A]. unfold visible in Ac.
    destruct (PyStr.isspace c) eqn:Sp.
    + apply Forall_app. split; [exact (Flush w W) |].
      apply IH; [exact A | reflexivity].
    + apply IH; [exact A |]. simpl. simpl in Ac. rewrite Ac, W. reflexivity.
Qed.

Lemma all_join (p : ascii -> bool) (ws : list string) :
  p " "%char = true ->
  Forall (fun w => PyStr.all p w = true) ws ->
  PyStr.all p (PyStr.join " " ws) = true.
Proof.
  intros B F. induction F as [| w ws Hw F IH]; [reflexivity |].
  destruct ws as [| x ws]; [exact Hw |].
  rewrite join_cons by discriminate.
  rewrite !str_all_app, Hw, IH. simpl. rewrite B. reflexivity.
Qed.

Lemma join_without_spaces (ws : list string) :
  Forall word ws ->
  without_spaces (PyStr.join " " ws) = PyStr.join "" ws.
Proof.
  unfold without_spaces, PyStr.remove.
  intros F. induction F as [| w ws [_ Hw] F IH]; [reflexivity |].
  assert (E : PyStr.filter (fun x => negb (Ascii.eqb x " ")) w = w).
  { apply str_filter_all. revert Hw. apply str_all_weaken. exact visible_not_blank. }
  destruct ws as [| x ws]; [exact E |].
  rewrite !join_cons by discriminate.
  rewrite !str_filter_app, E, IH. reflexivity.
Qed.

Lemma clean_text_words (text : string) :
  Forall (fun x => x <> ""
                   /\ PyStr.all (fun c => clean_char c && visible c) x = true)
         (PyStr.split (PyStr.lower (PyStr.filter kept text))).
Proof.
  apply split_aux_words; [| reflexivity].
  unfold PyStr.lower. rewrite str_all_map.
  apply str_all_filter. intros c K.
  pose proof (lower_char_clean c) as L.
  assert (V : visible (PyStr.lower_char c) = visible c)
    by (unfold visible; rewrite lower_char_space; reflexivity).
  rewrite K, <- V in L.
  destruct (visible (PyStr.lower_char c)); [| reflexivity].
  cbn [negb orb]. exact (L eq_refl).
Qed.

Lemma map_of_list (f : ascii -> ascii) (l : list ascii) :
  PyStr.map f (string_of_list_ascii l) = string_of_list_ascii (List.map f l).
Proof. induction l as [| c l IH]; simpl; [| rewrite IH]; reflexivity. Qed.

Lemma filter_of_list (p : ascii -> bool) (l : list ascii) :
  PyStr.filter p (string_of_list_ascii l)
  = string_of_list_ascii (List.filter p l).
Proof.
  induction l as [| c l IH]; simpl; [reflexivity |].
  destruct (p c); simpl; rewrite IH; reflexivity.
Qed.

(** The word being read, once cleaned: nothing when no character of it is
    kept. *)
Lemma flush_cleaned (word : list ascii) :
  let kept_word := List.map PyStr.lower_char (List.filter name_char word) in
  List.filter (fun w => negb (w =? "")%string)
    (List.map (fun w => PyStr.lower (PyStr.filter name_char w))
       match word with
       | [] => []
       | _ => [string_of_list_ascii (List.rev word)]
       end)
  = match kept_word with
    | [] => []
    | _ => [string_of_list_ascii (List.rev kept_word)]
    end.
Proof.
  intros kept_word.
  assert (E : PyStr.lower (PyStr.filter name_char
                             (string_of_list_ascii (List.rev word)))
              = string_of_list_ascii (List.rev kept_word)).
  { unfold PyStr.lower, kept_word.
    rewrite filter_of_list, map_of_list, filter_rev, map_rev. reflexivity. }
  destruct word as [| c word]; [reflexivity |].
  cbn [List.map List.filter]. rewrite E.
  destruct kept_word as [| x l]; [reflexivity |].
  destruct (List.rev (x :: l)) as [| y r] eqn:R; [| reflexivity].
  apply (f_equal (@List.length ascii)) in R. rewrite length_rev in R.
  discriminate R.
Qed.

(** Splitting the cleaned text gives the words of the text, each cleaned,
    without those of which nothing is left. *)
Lemma split_aux_cleaned (s : string) (word : list ascii) :
  PyStr.split_aux (List.map PyStr.lower_char (List.filter name_char word))
                  (PyStr.lower (PyStr.filter kept s))
  = List.filter (fun w => negb (w =? "")%string)
      (List.map (fun w => PyStr.lower (PyStr.filter name_char w))
                (PyStr.split_aux word s)).
Proof.
  assert (L : forall x t, PyStr.lower (String x t)
                          = String (PyStr.lower_char x) (PyStr.lower t))
    by reflexivity.
  revert word. induction s as [| c s IH]; intros word.
  - pose proof (flush_cleaned word) as F. cbv zeta in F.
    cbn [PyStr.filter PyStr.lower PyStr.map PyStr.split_aux].
    symmetry. exact F.
  - pose proof (kept_visible c) as K. unfold visible in K.
    cbn [PyStr.filter PyStr.split_aux].
    destruct (PyStr.isspace c) eqn:Sp.
    + assert (Kc : kept c = true)
        by (unfold kept; rewrite Sp, orb_true_r; reflexivity).
      pose proof (flush_cleaned word) as F. cbv zeta in F.
      rewrite Kc, L. cbn [PyStr.split_aux].
      rewrite lower_char_space, Sp.
      rewrite List.map_app, List.filter_app, F.
      rewrite <- (IH []). reflexivity.
    + rewrite andb_true_r in K. rewrite <- (IH (c :: word)).
      cbn [List.filter]. rewrite <- K.
      destruct (kept c); [| reflexivity].
      rewrite L. cbn [PyStr.split_aux List.map].
      rewrite lower_char_space, Sp. reflexivity.
Qed.

(** C8 (as amended).  [_clean_text_for_comparison] lowercases its input,
    removes every character that is not alphanumeric, whitespace or a
    hyphen, drops the whitespace at both ends and puts one space between
    the words that remain: the result is the words of the text, each
    lowercased and reduced to its alphanumeric characters and hyphens,
    without the words of which nothing is left, joined by single spaces.
    Each of these words is non-empty and free of whitespace; without its
    spaces the result is the lowercase of the kept characters without the
    whitespace; when the lowercase of every kept character is
    itself kept, as it is below 256, the characters of the result are
    lowercase and alphanumeric, hyphens or spaces.  The hyphen of
    "Joyroom JR-BP560S!!" is kept, so that this name and
    "joyroom jr bp560s" still differ once cleaned and stripped of spaces;
    [_exact_text_match] accepts the pair by its third test, the shared
    token "joyroom". *)
Theorem clean_text_spec (text : string) :
  let cleaned := _clean_text_for_comparison text in
  (exists words, cleaned = PyStr.join " " words /\ Forall word words)
  /\ (PyStr.all kept (PyStr.lower (PyStr.filter kept text)) = true ->
      PyStr.all clean_char cleaned = true)
  /\ without_spaces cleaned
     = PyStr.filter visible (PyStr.lower (PyStr.filter kept text))
  /\ cleaned
     = PyStr.join " "
         (List.filter (fun w => negb (w =? "")%string)
            (List.map (fun w => PyStr.lower (PyStr.filter name_char w))
                      (PyStr.split text)))
  /\ _clean_text_for_comparison "Joyroom JR-BP560S!!" = "joyroom jr-bp560s"
  /\ _clean_text_for_comparison "joyroom jr bp560s" = "joyroom jr bp560s"
  /\ without_spaces "joyroom jr-bp560s" = "joyroomjr-bp560s"
  /\ without_spaces "joyroom jr bp560s" = "joyroomjrbp560s"
  /\ textually_equivalent "Joyroom JR-BP560S!!" "joyroom jr bp560s" = false
  /\ findall_model "joyroom jr-bp560s" = ["joyroom"; "jr-bp560s"]
  /\ findall_model "joyroom jr bp560s" = ["joyroom"; "jr"; "bp560s"]
  /\ _exact_text_match "Joyroom JR-BP560S!!" "joyroom jr bp560s" = true.
Proof.
  intros cleaned.
  pose proof (clean_text_words text) as W.
  assert (Ww : Forall word
                 (PyStr.split (PyStr.lower (PyStr.filter kept text)))).
  { revert W. apply Forall_impl. intros w [N A]. split; [exact N |].
    revert A. apply str_all_weaken. intros c H.
    apply andb_prop in H as [_ H]. exact H. }
  split; [eexists; split; [reflexivity | exact Ww] |].
  split; [| split; [| split; [| repeat split; vm_compute; reflexivity]]].
  - intros K. apply all_join; [reflexivity |].
    assert (Wk : Forall (fun x => x <> ""
                   /\ PyStr.all (fun c => kept c && visible c
                                  && Ascii.eqb (PyStr.lower_char c) c) x
                      = true)
                   (PyStr.split (PyStr.lower (PyStr.filter kept text)))).
    { apply split_aux_words; [| reflexivity].
      assert (L : PyStr.all
                    (fun c => Ascii.eqb (PyStr.lower_char c) c)
                    (PyStr.lower (PyStr.filter kept text)) = true).
      { unfold PyStr.lower. rewrite str_all_map.
        generalize (PyStr.filter kept text). intros s.
        induction s as [| c s IH]; simpl; [reflexivity |].
        rewrite IH, andb_true_r. revert c.
        apply every_ascii_spec. vm_compute. reflexivity. }
      revert K L. generalize (PyStr.lower (PyStr.filter kept text)).
      intros s. induction s as [| c s IH]; simpl; [reflexivity |].
      intros K L. apply andb_prop in K as [Kc K].
      apply andb_prop in L as [Lc L].
      rewrite Kc, Lc, (IH K L). cbn [andb]. rewrite andb_true_r.
      destruct (visible c); reflexivity. }
    revert Wk. apply Forall_impl. intros w [_ A].
    revert A. apply str_all_weaken. intros c H.
    apply andb_prop in H as [H L]. unfold clean_char.
    rewrite L, andb_true_r. rewrite kept_visible in H. rewrite H.
    reflexivity.
  - unfold cleaned, _clean_text_for_comparison. fold kept.
    rewrite (join_without_spaces _ Ww).
    unfold PyStr.split. rewrite split_aux_content. reflexivity.
  - unfold cleaned, _clean_text_for_comparison, PyStr.split. fold kept.
    rewrite <- (split_aux_cleaned text []). reflexivity.
Qed.

Lemma clean_text_witness :
  PyStr.all clean_char (_clean_text_for_comparison "Joyroom JR-BP560S!!")
  = true.
Proof.
  apply (proj1 (proj2 (clean_text_spec "Joyroom JR-BP560S!!"))).
  vm_compute. reflexivity.
Defined.

(** C8, counterexample: the two names of the specification still differ,
    by the hyphen, once cleaned and stripped of their spaces. *)
Lemma hyphen_remains :
  without_spaces (_clean_text_for_comparison "Joyroom JR-BP560S!!")
  <> without_spaces (_clean_text_for_comparison "joyroom jr bp560s").
Proof. vm_compute. discriminate. Qed.

(** ** The price store *)

Lemma conflicts_key (row r : Row) :
  conflicts row r = true <-> key r = key row.
Proof.
  unfold conflicts, key. rewrite andb_true_iff, !String.eqb_eq.
  split; [intros [-> ->]; reflexivity | intros [= -> ->]; auto].
Qed.

Lemma insert_or_replace_keys (t : Table) (row : Row) :
  NoDup (List.map key t) -> NoDup (List.map key (insert_or_replace t row)).
Proof.
  intros N. unfold insert_or_replace. rewrite List.map_app. simpl.
  apply (Permutation_NoDup (Permutation_cons_append _ _)).
  constructor.
  - intros H. apply in_map_iff in H as (r & K & H).
    apply filter_In in H as [_ H]. apply conflicts_key in K.
    rewrite K in H. discriminate H.
  - induction t as [| r t IH]; simpl; [constructor |].
    inversion N as [| ? ? Hr Nt]; subst.
    destruct (negb (conflicts row r)); [| exact (IH Nt)].
    simpl. constructor; [| exact (IH Nt)].
    intros H. apply Hr. apply in_map_iff in H as (r' & K & H).
    apply filter_In in H as [H _]. apply in_map_iff. eauto.
Qed.

Lemma save_product_keys (t : Table) (product : Product) :
  NoDup (List.map key t) -> NoDup (List.map key (save_product t product)).
Proof.
  intros N. unfold save_product.
  destruct (price product); [| exact N].
  destruct (name product =? "")%string; [exact N |].
  apply insert_or_replace_keys, N.
Qed.

Lemma save_best_deal_keys (t : Table) (product : Product) :
  NoDup (List.map key t) -> NoDup (List.map key (save_best_deal t product)).
Proof.
  intros N. unfold save_best_deal.
  destruct (price product); [| exact N].
  destruct (name product =? "")%string; [exact N |].
  destruct (is_better _ _ _); [| exact N].
  apply insert_or_replace_keys, N.
Qed.

Lemma run_keys (saves : list save) (t : Table) :
  NoDup (List.map key t) -> NoDup (List.map key (run t saves)).
Proof.
  revert t. induction saves as [| s saves IH]; intros t N; [exact N |].
  apply IH. destruct s; [apply save_product_keys | apply save_best_deal_keys];
    exact N.
Qed.

Lemma rows_named_insert_other (t : Table) (row : Row) (n : string) :
  row_name row <> n ->
  rows_named n (insert_or_replace t row) = rows_named n t.
Proof.
  intros D. unfold rows_named, insert_or_replace.
  rewrite filter_app. simpl.
  destruct (String.eqb_spec (row_name row) n) as [E | _]; [contradiction |].
  rewrite app_nil_r.
  induction t as [| r t IH]; simpl; [reflexivity |].
  destruct (String.eqb_spec (row_name r) n) as [E | N].
  - replace (conflicts row r) with false; simpl.
    + rewrite E, String.eqb_refl, IH. reflexivity.
    + unfold conflicts. destruct (String.eqb_spec (row_name r) (row_name row));
        [congruence | reflexivity].
  - destruct (negb (conflicts row r)); simpl; [| exact IH].
    destruct (String.eqb_spec (row_name r) n); [contradiction | exact IH].
Qed.

Lemma rows_named_insert_same (t : Table) (row : Row) :
  rows_named (row_name row) (insert_or_replace t row)
  = (List.filter (fun r => negb (conflicts row r)) (rows_named (row_name row) t)
     ++ [row])%list.
Proof.
  unfold rows_named, insert_or_replace.
  rewrite filter_app. simpl. rewrite String.eqb_refl. f_equal.
  induction t as [| r t IH]; simpl; [reflexivity |].
  destruct (negb (conflicts row r)) eqn:C; simpl;
    destruct (row_name r =? row_name row)%string; simpl;
    rewrite ?C, IH; reflexivity.
Qed.

Lemma least_none (l : list float) : least l = None <-> l = [].
Proof.
  destruct l as [| x l]; simpl; [tauto |].
  destruct (least l); split; discriminate.
Qed.

Lemma least_spec (l : list float) (m : float) :
  Forall (fun y => is_nan y = false) l ->
  least l = Some m ->
  In m l /\ Forall (fun y => lt y m = false) l.
Proof.
  revert m. induction l as [| x l IH]; intros m V; [discriminate |].
  apply Forall_cons_iff in V as [Vx V]. simpl.
  destruct (least l) as [y |] eqn:E.
  - destruct (IH y V eq_refl) as [Iy Fy].
    destruct (lt y x) eqn:C; intros [= <-].
    + split; [right; exact Iy |].
      constructor; [exact (lt_asym _ _ C) | exact Fy].
    + split; [left; reflexivity |].
      constructor; [apply lt_irrefl |].
      revert Fy. apply Forall_impl. intros z Hz.
      refine (not_lt_trans z y x _ C Hz).
      exact (proj1 (Forall_forall _ _) V y Iy).
  - apply least_none in E. subst l. intros [= <-].
    split; [left; reflexivity |]. constructor; [apply lt_irrefl | constructor].
Qed.

Lemma least_app_single (l : list float) (p : float) :
  Forall (fun y => lt p y = true) l -> least (l ++ [p]) = Some p.
Proof.
  induction l as [| y l IH]; intros F; [reflexivity |].
  apply Forall_cons_iff in F as [Fy F]. simpl.
  rewrite (IH F), Fy. reflexivity.
Qed.

Lemma valid_rows_named (t : Table) (n : string) :
  valid_table t ->
  Forall (fun y => is_nan y = false) (List.map row_price (rows_named n t)).
Proof.
  intros V. apply Forall_map. unfold rows_named.
  apply Forall_forall. intros r H. apply filter_In in H as [H _].
  revert r H. apply Forall_forall. exact V.
Qed.

Lemma insert_or_replace_valid (t : Table) (row : Row) :
  valid_table t -> is_nan (row_price row) = false ->
  valid_table (insert_or_replace t row).
Proof.
  intros V N. unfold insert_or_replace, valid_table.
  apply Forall_app. split; [| constructor; [exact N | constructor]].
  apply Forall_forall. intros r H. apply filter_In in H as [H _].
  revert r H. apply Forall_forall. exact V.
Qed.

Lemma save_best_deal_valid (t : Table) (product : Product) :
  valid_table t -> valid_product product ->
  valid_table (save_best_deal t product).
Proof.
  intros V P. unfold save_best_deal, valid_product in *.
  destruct (price product); [| exact V].
  destruct (name product =? "")%string; [exact V |].
  destruct (is_better _ _ _); [| exact V].
  apply insert_or_replace_valid; assumption.
Qed.

(** A cheaper price written for a name becomes its best price. *)
Lemma insert_cheaper (t : Table) (row : Row) :
  valid_table t ->
  is_better t (row_name row) (row_price row) = true ->
  select_best_price (insert_or_replace t row) (row_name row)
  = Some (row_price row).
Proof.
  intros V B. unfold select_best_price.
  rewrite rows_named_insert_same, List.map_app. simpl.
  apply least_app_single.
  apply Forall_map, Forall_forall. intros r H.
  apply filter_In in H as [H _].
  unfold is_better, select_best_price in B.
  destruct (least _) as [best |] eqn:E.
  - destruct (least_spec _ _ (valid_rows_named t _ V) E) as [_ F].
    apply (lt_not_lt_trans _ best); [| exact B |].
    + assert (I : In r t) by (apply filter_In in H as [H _]; exact H).
      exact (proj1 (Forall_forall _ _) V r I).
    + exact (proj1 (Forall_forall _ _) F _ (in_map row_price _ _ H)).
  - apply least_none, map_eq_nil in E. rewrite E in H. contradiction.
Qed.

Lemma save_best_deal_step (t : Table) (product : Product) (n : string)
      (old : float) :
  valid_table t ->
  select_best_price t n = Some old ->
  exists new,
    select_best_price (save_best_deal t product) n = Some new
    /\ lt old new = false.
Proof.
  intros V E.
  assert (Same : exists new, select_best_price t n = Some new
                             /\ lt old new = false)
    by (exists old; split; [exact E | apply lt_irrefl]).
  unfold save_best_deal.
  destruct (price product) as [p |]; [| exact Same].
  destruct (name product =? "")%string; [exact Same |].
  destruct (is_better t (name product) p) eqn:B; [| exact Same].
  destruct (String.eqb_spec (name product) n) as [<- | D].
  - exists p. split.
    + exact (insert_cheaper t (row_of product p) V B).
    + unfold is_better in B. rewrite E in B. exact (lt_asym _ _ B).
  - unfold select_best_price.
    rewrite rows_named_insert_other by exact D. exact Same.
Qed.

Lemma best_price_valid (t : Table) (n : string) (x : float) :
  valid_table t -> select_best_price t n = Some x -> is_nan x = false.
Proof.
  intros V E.
  destruct (least_spec _ _ (valid_rows_named t n V) E) as [I _].
  exact (proj1 (Forall_forall _ _) (valid_rows_named t n V) x I).
Qed.

Lemma save_best_deal_run (products : list Product) (t : Table) (n : string)
      (old : float) :
  valid_table t ->
  Forall valid_product products ->
  select_best_price t n = Some old ->
  exists new,
    select_best_price (run t (List.map SaveBestDeal products)) n = Some new
    /\ lt old new = false.
Proof.
  revert t old. induction products as [| product products IH];
    intros t old V P E.
  - exists old. split; [exact E | apply lt_irrefl].
  - apply Forall_cons_iff in P as [Pp P].
    destruct (save_best_deal_step t product n old V E) as (mid & Em & Lm).
    pose proof (save_best_deal_valid t product V Pp) as V'.
    destruct (IH _ mid V' P Em) as (new & En & Ln).
    exists new. split; [exact En |].
    exact (not_lt_trans old mid new (best_price_valid _ _ _ V' Em) Ln Lm).
Qed.

Lemma writes_spec (t : Table) (product : Product) :
  save_best_deal t product
  = if writes t product
    then match price product with
         | Some p => insert_or_replace t (row_of product p)
         | None => t
         end
    else t.
Proof.
  unfold save_best_deal, writes.
  destruct (price product); [| reflexivity].
  destruct (name product =? "")%string; [reflexivity |].
  simpl. destruct (is_better _ _ _); reflexivity.
Qed.

Lemma insert_or_replace_conflicting (t : Table) (row : Row) :
  List.filter (conflicts row) (insert_or_replace t row) = [row].
Proof.
  unfold insert_or_replace. rewrite filter_app. simpl.
  replace (conflicts row row) with true
    by (symmetry; apply conflicts_key; reflexivity).
  replace (List.filter _ (List.filter _ t)) with (@nil Row); [reflexivity |].
  induction t as [| r t IH]; simpl; [reflexivity |].
  destruct (conflicts row r) eqn:C; simpl; [exact IH |].
  rewrite C. exact IH.
Qed.

Lemma insert_or_replace_others (t : Table) (row : Row) :
  List.filter (fun r => negb (conflicts row r)) (insert_or_replace t row)
  = List.filter (fun r => negb (conflicts row r)) t.
Proof.
  unfold insert_or_replace. rewrite filter_app. simpl.
  replace (conflicts row row) with true
    by (symmetry; apply conflicts_key; reflexivity).
  simpl. rewrite app_nil_r.
  induction t as [| r t IH]; simpl; [reflexivity |].
  destruct (negb (conflicts row r)) eqn:C; simpl; rewrite ?C, IH; reflexivity.
Qed.

Lemma is_better_cases (t : Table) (n : string) (p : float) :
  is_better t n p = true
  <-> rows_named n t = []
      \/ exists best, select_best_price t n = Some best /\ lt p best = true.
Proof.
  unfold is_better, select_best_price.
  destruct (least _) as [best |] eqn:E.
  - split.
    + intros H. right. exists best. split; [reflexivity | exact H].
    + intros [H | (b & [= <-] & H)]; [| exact H].
      rewrite H in E. discriminate E.
  - split; [| reflexivity]. intros _. left.
    apply least_none, map_eq_nil in E. exact E.
Qed.

Lemma minimum_of_stored (t : Table) (n : string) :
  valid_table t ->
  minimum_of (List.map row_price (rows_named n t)) (select_best_price t n).
Proof.
  intros V. unfold minimum_of, select_best_price.
  destruct (least _) as [b |] eqn:E.
  - exact (least_spec _ _ (valid_rows_named t n V) E).
  - apply least_none in E. exact E.
Qed.

(** One [save_best_deal]: the lowest price stored for [n] stays the
    minimum of the prices seen so far, the one offered included. *)
Lemma save_best_deal_minimum (t : Table) (product : Product) (n : string)
      (seen : list float) :
  n <> "" -> valid_table t ->
  minimum_of seen (select_best_price t n) ->
  minimum_of (seen ++ prices_saved n [SaveBestDeal product])
             (select_best_price (save_best_deal t product) n).
Proof.
  intros Nn V M. unfold save_best_deal. cbn [prices_saved saved].
  destruct (price product) as [p |]; [| rewrite app_nil_r; exact M].
  destruct (String.eqb_spec (name product) "") as [E0 | N0].
  { destruct (String.eqb_spec (name product) n); [congruence |].
    rewrite app_nil_r. exact M. }
  destruct (String.eqb_spec (name product) n) as [<- | D].
  - destruct (is_better t (name product) p) eqn:B.
    + pose proof (insert_cheaper t (row_of product p) V B) as I.
      change (row_name (row_of product p)) with (name product) in I.
      change (row_price (row_of product p)) with p in I.
      rewrite I. clear I. unfold is_better in B. unfold minimum_of in *.
      split; [apply in_or_app; right; left; reflexivity |].
      apply Forall_app. split; [| repeat constructor; apply lt_irrefl].
      destruct (select_best_price t (name product)) as [b |];
        [| subst seen; constructor].
      destruct M as [_ F]. revert F. apply Forall_impl. intros y Hy.
      destruct (lt y p) eqn:C; [| reflexivity].
      rewrite (lt_trans _ _ _ C B) in Hy. discriminate Hy.
    + unfold is_better in B. unfold minimum_of in *.
      destruct (select_best_price t (name product)) as [b |];
        [| discriminate B].
      destruct M as [I F]. split; [apply in_or_app; left; exact I |].
      apply Forall_app. split; [exact F | repeat constructor; exact B].
  - rewrite app_nil_r.
    destruct (is_better t (name product) p); [| exact M].
    unfold select_best_price in *.
    rewrite rows_named_insert_other by exact D. exact M.
Qed.

Lemma prices_saved_app (n : string) (s1 s2 : list save) :
  prices_saved n (s1 ++ s2) = (prices_saved n s1 ++ prices_saved n s2)%list.
Proof.
  induction s1 as [| s s1 IH]; [reflexivity |].
  cbn [List.app prices_saved].
  destruct (price (saved s)); [| exact IH].
  destruct (name (saved s) =? n)%string; [| exact IH].
  rewrite IH. reflexivity.
Qed.

Lemma save_best_deal_minimum_run (products : list Product) (t : Table)
      (n : string) (seen : list float) :
  n <> "" -> valid_table t -> Forall valid_product products ->
  minimum_of seen (select_best_price t n) ->
  minimum_of (seen ++ prices_saved n (List.map SaveBestDeal products))
             (select_best_price (run t (List.map SaveBestDeal products)) n).
Proof.
  intros Nn. revert t seen.
  induction products as [| product products IH]; intros t seen V P M.
  - simpl. rewrite app_nil_r. exact M.
  - apply Forall_cons_iff in P as [Pp P].
    change (List.map SaveBestDeal (product :: products))
      with ([SaveBestDeal product] ++ List.map SaveBestDeal products)%list.
    rewrite prices_saved_app, app_assoc.
    apply (IH (save_best_deal t product)).
    + apply save_best_deal_valid; assumption.
    + exact P.
    + apply save_best_deal_minimum; assumption.
Qed.

(** C1 (as amended).  The store holds at most one record for every pair
    of a name and a website.  Across any sequence of [save_best_deal]
    calls the lowest price stored for a name never increases, and it is
    the minimum of the prices stored for the name before and of the
    prices saved for it since: from the empty store, the minimum price
    ever saved for the name.  [save_product] overwrites the record of its
    pair whatever the price: after it, the record of the pair is the one
    just saved. *)
Theorem store_keeps_lowest_price_per_name :
  (forall saves, NoDup (List.map key (run setup_database saves)))
  /\ (forall t products n old,
         valid_table t ->
         Forall valid_product products ->
         select_best_price t n = Some old ->
         exists new,
           select_best_price (run t (List.map SaveBestDeal products)) n
           = Some new
           /\ PyFloat.lt old new = false)
  /\ (forall t product p,
         price product = Some p ->
         name product <> "" ->
         List.filter (conflicts (row_of product p)) (save_product t product)
         = [row_of product p])
  /\ (forall t products n,
         n <> "" ->
         valid_table t ->
         Forall valid_product products ->
         minimum_of
           (List.map row_price (rows_named n t)
            ++ prices_saved n (List.map SaveBestDeal products))
           (select_best_price (run t (List.map SaveBestDeal products)) n))
  /\ (forall products n,
         n <> "" ->
         Forall valid_product products ->
         minimum_of
           (prices_saved n (List.map SaveBestDeal products))
           (select_best_price
              (run setup_database (List.map SaveBestDeal products)) n)).
Proof.
  split; [| split; [| split; [| split]]].
  - intros saves. apply run_keys. constructor.
  - intros t products n old. apply save_best_deal_run.
  - intros t product p E N. unfold save_product. rewrite E.
    destruct (String.eqb_spec (name product) ""); [contradiction |].
    apply insert_or_replace_conflicting.
  - intros t products n Nn V P.
    apply save_best_deal_minimum_run; try assumption.
    apply minimum_of_stored, V.
  - intros products n Nn P.
    apply (save_best_deal_minimum_run products setup_database n []);
      try assumption; [constructor | reflexivity].
Qed.

(** C1, counterexample: two records for one name after two websites
    were saved; a price that rose from 300 to 500 under
    [save_product]. *)
Lemma store_counterexample :
  ~ one_record_of_least_price two_sites "X"
  /\ ~ one_record_of_least_price price_raised "X".
Proof.
  split; intros H; vm_compute in H; [exact H | discriminate H].
Qed.

Lemma store_witness :
  exists new,
    select_best_price
      (run (save_best_deal setup_database (offer "X" 500 "Amazon Egypt" 1))
           (List.map SaveBestDeal four_prices)) "X"
    = Some new
    /\ PyFloat.lt (of_int 500) new = false.
Proof.
  apply (proj1 (proj2 store_keeps_lowest_price_per_name)).
  - repeat constructor.
  - repeat constructor.
  - reflexivity.
Defined.

(** C2 (as amended).  For a product with a name and a price,
    [save_best_deal] writes exactly when no row exists for the name or the
    lowest price stored for the name is strictly greater than the new
    price.  A write replaces the row of the same name and website, keeps
    every other row, also those of the same name from other websites,
    changes the store and makes the new price the lowest stored for the
    name; without a write the store is unchanged.  With an empty name or
    no price it never writes and the store is unchanged.  The function
    returns nothing.  Recording 500, 700, 300, 400 for one name on one
    website writes twice, for 500 and for 300, and leaves one row, of
    price 300. *)
Theorem save_best_deal_compare_and_update (t : Table) (product : Product) :
  valid_table t ->
  let n := name product in
  let t' := save_best_deal t product in
  (forall p,
      price product = Some p ->
      name product <> "" ->
      let row := row_of product p in
      (writes t product = true
       <-> rows_named n t = []
           \/ exists best, select_best_price t n = Some best
                           /\ PyFloat.lt p best = true)
      /\ (writes t product = true ->
          t' <> t
          /\ List.filter (conflicts row) t' = [row]
          /\ List.filter (fun r => negb (conflicts row r)) t'
             = List.filter (fun r => negb (conflicts row r)) t
          /\ select_best_price t' n = Some p)
      /\ (writes t product = false -> t' = t))
  /\ (price product = None \/ name product = "" ->
      writes t product = false /\ t' = t)
  /\ record_all setup_database four_prices
     = ([true; false; true; false],
        [row_of (offer "X" 300 "Amazon Egypt" 3) (of_int 300)]).
Proof.
  intros V n t'.
  split; [| split; [| vm_compute; reflexivity]].
  - intros p E N row.
    assert (W : writes t product = is_better t n p).
    { unfold writes. rewrite E.
      destruct (String.eqb_spec (name product) ""); [contradiction |].
      reflexivity. }
    split; [rewrite W; apply is_better_cases |].
    split.
    + intros Wt. unfold t'. rewrite writes_spec, Wt, E.
      assert (B : select_best_price (insert_or_replace t row) n = Some p)
        by (apply (insert_cheaper t row V);
            change (is_better t n p = true); rewrite <- W; exact Wt).
      split; [| split; [apply insert_or_replace_conflicting |
                        split; [apply insert_or_replace_others | exact B]]].
      intros Same. fold row in Same. rewrite Same in B.
      rewrite W in Wt. unfold is_better in Wt. rewrite B in Wt.
      rewrite lt_irrefl in Wt. discriminate Wt.
    + intros Wf. unfold t'. rewrite writes_spec, Wf. reflexivity.
  - intros G.
    assert (Wf : writes t product = false).
    { unfold writes. destruct G as [-> | E]; [reflexivity |].
      destruct (price product); [| reflexivity].
      rewrite E. reflexivity. }
    split; [exact Wf |]. unfold t'. rewrite writes_spec, Wf. reflexivity.
Qed.

(** C2, counterexample: a cheaper price from another website is added
    next to the stored record, which is not replaced. *)
Lemma record_kept_beside_cheaper :
  ~ record_if_better
      (save_best_deal setup_database (offer "X" 500 "Amazon Egypt" 1))
      (offer "X" 300 "Noon Egypt" 2) (of_int 300).
Proof.
  intros H. vm_compute in H. discriminate H.
Qed.

Lemma save_best_deal_witness :
  let t := save_best_deal setup_database (offer "X" 500 "Amazon Egypt" 1) in
  (writes t (offer "X" 300 "Amazon Egypt" 3) = true
   <-> rows_named "X" t = []
       \/ exists best,
           select_best_price t "X" = Some best
           /\ PyFloat.lt (of_int 300) best = true)
  /\ (writes t (offer "" 300 "Amazon Egypt" 3) = false
      /\ save_best_deal t (offer "" 300 "Amazon Egypt" 3) = t).
Proof.
  intros t. split.
  - apply (proj1 (save_best_deal_compare_and_update t
                    (offer "X" 300 "Amazon Egypt" 3)
                    ltac:(vm_compute; repeat constructor))
                 (of_int 300)).
    + reflexivity.
    + discriminate.
  - apply (proj1 (proj2 (save_best_deal_compare_and_update t
                           (offer "" 300 "Amazon Egypt" 3)
                           ltac:(vm_compute; repeat constructor)))).
    right. reflexivity.
Defined.

Lemma save_product_positive (t : Table) (product : Product) :
  positive_price product ->
  Forall positive_row t -> Forall positive_row (save_product t product).
Proof.
  intros (x & E & P) T. unfold save_product. rewrite E.
  destruct (name product =? "")%string; [exact T |].
  unfold insert_or_replace. apply Forall_app.
  split; [| constructor; [exact P | constructor]].
  apply Forall_forall. intros r H. apply filter_In in H as [H _].
  exact (proj1 (Forall_forall _ _) T r H).
Qed.

Lemma save_results_positive (products : list Product) (t : Table) :
  Forall positive_price products ->
  Forall positive_row t -> Forall positive_row (save_results t products).
Proof.
  revert t. induction products as [| product products IH];
    intros t P T; [exact T |].
  apply Forall_cons_iff in P as [Pp P]. simpl.
  apply IH; [exact P |]. apply save_product_positive; assumption.
Qed.

(** C10.  Every offer that reaches the ranking or the store has a price
    above zero.  [_extract_price] never returns a negative number, a
    negative zero or NaN; a scraper drops a listing whose price is
    missing, unreadable or equal to 0.0; hence every product of a scraper,
    every product ranked by [search_products] and every row written from
    them by [save_results] has a price greater than zero. *)
Theorem offers_priced_positive :
  (forall price_text x,
      _extract_price price_text = Returns (Some x) ->
      sign_bit x = false /\ is_nan x = false /\ PyFloat.lt x zero = false)
  /\ (forall site complete item,
         (forall t, price_elem item = Some t ->
                    _extract_price t = Returns None
                    \/ exists x, _extract_price t = Returns (Some x)
                                 /\ PyFloat.eq x zero = true) ->
         scrape_item site complete item = None)
  /\ (forall page,
         Forall positive_price (scrape_amazon page)
         /\ Forall positive_price (scrape_noon page)
         /\ Forall positive_price (scrape_carrefour page))
  /\ (forall amazon noon carrefour ranked,
         search_products amazon noon carrefour = Returns ranked ->
         Forall positive_price ranked)
  /\ (forall amazon noon carrefour ranked t,
         search_products amazon noon carrefour = Returns ranked ->
         Forall positive_row t ->
         Forall positive_row (save_results t ranked)).
Proof.
  assert (Ranked : forall amazon noon carrefour ranked,
             search_products amazon noon carrefour = Returns ranked ->
             Forall positive_price ranked).
  { intros amazon noon carrefour ranked E.
    rewrite search_products_returns in E. injection E as <-.
    apply (Permutation_Forall (Permutation_sym (stable_sort_perm _))).
    apply all_products_positive. }
  split; [| split; [| split; [| split; [exact Ranked |]]]].
  - intros price_text x E.
    destruct (extract_price_outcome price_text) as [(y & Ey & U) | [En _]];
      [| congruence].
    assert (y = x) by congruence. subst y.
    split; [apply U | split; [apply U | apply unsigned_not_negative, U]].
  - intros site complete item H. unfold scrape_item.
    destruct (name_elem item); [| reflexivity].
    destruct (price_elem item) as [t |]; [| reflexivity].
    destruct (link item); [| reflexivity].
    destruct (H t eq_refl) as [-> | (x & -> & Z)]; [reflexivity |].
    destruct x as [sx | sx | | sx m e]; try destruct sx; try discriminate Z;
      reflexivity.
  - intros page. repeat split; apply scrape_positive.
  - intros amazon noon carrefour ranked t E T.
    apply save_results_positive; [| exact T].
    exact (Ranked _ _ _ _ E).
Qed.

Lemma offers_witness :
  Forall positive_price (stable_sort (all_products twin_page None None)).
Proof.
  apply (proj1 (proj2 (proj2 (proj2 offers_priced_positive)))
           twin_page None None).
  reflexivity.
Defined.

(** * Further properties *)

(** ** When a price is read *)

Lemma count_app (c : ascii) (s1 s2 : string) :
  Text.count c (s1 ++ s2) = (Text.count c s1 + Text.count c s2)%nat.
Proof.
  induction s1 as [| x s1 IH]; simpl; [reflexivity |].
  rewrite IH. lia.
Qed.

Lemma count_zero_mem (c : ascii) (s : string) :
  Text.count c s = O <-> PyStr.mem c s = false.
Proof.
  induction s as [| x s IH]; simpl; [tauto |].
  rewrite (Ascii.eqb_sym c x).
  destruct (Ascii.eqb x c); simpl; [split; discriminate | exact IH].
Qed.

Lemma digits_no_point (s : string) :
  PyStr.all float_char s = true ->
  (PyStr.all PyStr.re_digit s = true <-> Text.count "." s = O).
Proof.
  induction s as [| x s IH]; simpl; [tauto |].
  intros H. apply andb_prop in H as [Hx H]. specialize (IH H).
  unfold float_char in Hx.
  destruct (Ascii.eqb_spec x ".") as [-> | N]; simpl.
  - split; discriminate.
  - rewrite orb_false_r in Hx. rewrite Hx. exact IH.
Qed.

Lemma cut_at_point_parts (s : string) :
  PyStr.all float_char s = true ->
  PyStr.all PyStr.re_digit (fst (cut_at_point s)) = true
  /\ PyStr.all float_char
       match snd (cut_at_point s) with Some f => f | None => "" end = true.
Proof.
  induction s as [| x s IH]; simpl; [auto |].
  intros H. apply andb_prop in H as [Hx H].
  destruct (Ascii.eqb_spec x ".") as [-> | N]; simpl; [auto |].
  destruct (IH H) as [Hi Hf]. destruct (cut_at_point s) as [i f]. simpl in *.
  unfold float_char in Hx.
  destruct (Ascii.eqb_spec x "."); [contradiction |].
  rewrite orb_false_r in Hx. rewrite Hx, Hi. auto.
Qed.

Lemma all_digits_filter (s : string) :
  PyStr.all PyStr.re_digit s = true ->
  (PyStr.filter PyStr.re_digit s <> "" <-> (0 < String.length s)%nat).
Proof.
  intros A. rewrite (str_filter_all _ _ A).
  destruct s; simpl; split; intros H; try lia; try discriminate.
  contradiction.
Qed.

Lemma length_append (s1 s2 : string) :
  String.length (s1 ++ s2) = (String.length s1 + String.length s2)%nat.
Proof. induction s1 as [| x s1 IH]; simpl; [| rewrite IH]; reflexivity. Qed.

(** [float] accepts a string of digits and points exactly when it holds a
    digit and at most one point. *)
Lemma of_str_returns_iff (d : string) :
  PyStr.all float_char d = true ->
  (exists x, of_str d = Returns x)
  <-> PyStr.filter PyStr.re_digit d <> "" /\ (Text.count "." d <= 1)%nat.
Proof.
  intros A. pose proof (cut_at_point_spec d) as E.
  destruct (cut_at_point_parts d A) as [Hi Hf].
  unfold of_str. destruct (cut_at_point d) as [i fo]. simpl in *.
  rewrite Hi. cbn [andb].
  assert (Ci : Text.count "." i = O)
    by (apply digits_no_point;
        [revert Hi; apply str_all_weaken; unfold float_char;
         intros c ->; reflexivity | exact Hi]).
  set (f := match fo with Some f => f | None => "" end) in *.
  assert (Cd : Text.count "." d
               = match fo with Some _ => S (Text.count "." f) | None => O end).
  { rewrite E, count_app, Ci. destruct fo; reflexivity. }
  assert (Dd : PyStr.filter PyStr.re_digit d
               = i ++ PyStr.filter PyStr.re_digit f).
  { rewrite E, str_filter_app, (str_filter_all _ _ Hi).
    destruct fo; unfold f; simpl; rewrite ?append_empty_r; reflexivity. }
  rewrite Cd, Dd.
  destruct (PyStr.all PyStr.re_digit f) eqn:Af; cbn [andb].
  - rewrite (str_filter_all _ _ Af).
    assert (Cf : Text.count "." f = O) by (apply digits_no_point; assumption).
    rewrite Cf.
    destruct (Nat.ltb_spec 0 (String.length (i ++ f))) as [L | L].
    + split; [intros _ | intros _; eexists; reflexivity].
      split; [| destruct fo; lia].
      destruct (i ++ f); [simpl in L; lia | discriminate].
    + split; [intros [x H]; discriminate H |].
      intros [H _]. destruct (i ++ f); [contradiction | simpl in L; lia].
  - split; [intros [x H]; discriminate H |].
    intros [_ H]. exfalso.
    assert (Cf : Text.count "." f <> O).
    { intros Z. apply (digits_no_point f Hf) in Z. congruence. }
    destruct fo; [lia |]. unfold f in Af. discriminate Af.
Qed.

Lemma count_remove_other (c x : ascii) (s : string) :
  c <> x -> Text.count c (PyStr.remove x s) = Text.count c s.
Proof.
  intros N. unfold PyStr.remove.
  induction s as [| y s IH]; simpl; [reflexivity |].
  destruct (Ascii.eqb_spec y x) as [-> | Ny]; simpl.
  - destruct (Ascii.eqb_spec x c); [congruence | exact IH].
  - rewrite IH. reflexivity.
Qed.

Lemma count_replace (x d : ascii) (s : string) :
  x <> d ->
  Text.count d (PyStr.replace x d s) = (Text.count d s + Text.count x s)%nat.
Proof.
  intros N. unfold PyStr.replace.
  induction s as [| y s IH]; simpl; [reflexivity |].
  rewrite IH.
  destruct (Ascii.eqb_spec y x) as [-> | Ny].
  - rewrite Ascii.eqb_refl.
    destruct (Ascii.eqb_spec x d); [contradiction | lia].
  - destruct (Ascii.eqb_spec y d); lia.
Qed.

(** X1.  [_extract_price] returns a number exactly when its cleaned text
    holds a digit and, once the separators are settled, at most one
    point.  The points are those of the text when it has any, and
    otherwise its commas: a text with two commas and no point, such as
    "1,234,567", is read as "1.234.567" and gives [None]. *)
Theorem extract_price_succeeds_iff (price_text : string) :
  let cleaned := price_chars price_text in
  let points :=
    if PyStr.mem "." cleaned then Text.count "." cleaned
    else Text.count "," cleaned in
  ((exists x, _extract_price price_text = Returns (Some x))
   <-> PyStr.filter PyStr.re_digit cleaned <> "" /\ (points <= 1)%nat)
  /\ ((exists x, _extract_price price_text = Returns (Some x))
      \/ _extract_price price_text = Returns None).
Proof.
  intros cleaned points.
  assert (P : Text.count "." (number_format cleaned) = points).
  { unfold points, number_format.
    destruct (PyStr.mem "," cleaned) eqn:C;
      destruct (PyStr.mem "." cleaned) eqn:D; cbn [andb].
    - apply count_remove_other. discriminate.
    - rewrite count_replace by discriminate.
      apply count_zero_mem in D. rewrite D. reflexivity.
    - reflexivity.
    - apply count_zero_mem in C, D. congruence. }
  pose proof (of_str_returns_iff _ (float_argument_alphabet price_text)) as I.
  fold cleaned in I. rewrite number_format_digits, P in I.
  split.
  - rewrite <- I. unfold _extract_price. fold cleaned.
    destruct (of_str (number_format cleaned)) as [x | e].
    + split; intros _; eexists; reflexivity.
    + split; [| intros [x H]; discriminate H].
      intros [x H]. destruct e; discriminate H.
  - destruct (extract_price_outcome price_text) as [(x & E & _) | [E _]];
      [left; exists x; exact E | right; exact E].
Qed.

(** ** The price the user paid *)

Lemma of_str_alphabet (s : string) (x : float) :
  of_str s = Returns x -> PyStr.all float_char s = true.
Proof.
  unfold of_str. pose proof (cut_at_point_spec s) as E.
  destruct (cut_at_point s) as [i fo]. simpl in E.
  destruct (_ && _) eqn:C; [| discriminate].
  apply andb_prop in C as [C _]. apply andb_prop in C as [Di Df].
  intros _. rewrite E, str_all_app.
  assert (W : forall c, PyStr.re_digit c = true -> float_char c = true)
    by (intros c H; unfold float_char; rewrite H; reflexivity).
  rewrite (str_all_weaken _ _ _ W Di).
  destruct fo as [f |]; [| reflexivity].
  simpl. exact (str_all_weaken _ _ _ W Df).
Qed.

Lemma str_all_of_filter (p q : ascii -> bool) (s : string) :
  PyStr.all p (PyStr.filter q s) = PyStr.all (fun c => implb (q c) (p c)) s.
Proof.
  induction s as [| c s IH]; simpl; [reflexivity |].
  destruct (q c); simpl; rewrite IH; reflexivity.
Qed.

Lemma str_all_ext (p q : ascii -> bool) (s : string) :
  (forall c, p c = q c) -> PyStr.all p s = PyStr.all q s.
Proof.
  intros E. induction s as [| c s IH]; simpl; [reflexivity |].
  rewrite E, IH. reflexivity.
Qed.

Lemma count_filter (c : ascii) (q : ascii -> bool) (s : string) :
  q c = true -> Text.count c (PyStr.filter q s) = Text.count c s.
Proof.
  intros Q. induction s as [| x s IH]; simpl; [reflexivity |].
  destruct (q x) eqn:E; simpl; [rewrite IH; reflexivity |].
  destruct (Ascii.eqb_spec x c) as [-> | N]; [congruence | exact IH].
Qed.

(** The text handed to [float] by [_extract_user_price]. *)
Lemma user_price_cleaned (price_input : string) :
  let cleaned :=
    PyStr.remove "," (PyStr.filter Tool.user_price_char price_input) in
  PyStr.all float_char cleaned
  = PyStr.all (fun c => implb (Text.isdigit c) (PyStr.re_digit c)) price_input
  /\ PyStr.filter PyStr.re_digit cleaned
     = PyStr.filter PyStr.re_digit price_input
  /\ Text.count "." cleaned = Text.count "." price_input.
Proof.
  intros cleaned. unfold cleaned, PyStr.remove.
  rewrite str_filter_filter. repeat split.
  - rewrite str_all_of_filter. apply str_all_ext. intros c.
    apply Bool.eqb_prop. revert c.
    apply (every_ascii_spec
             (fun c => Bool.eqb
                (implb (Tool.user_price_char c && negb (Ascii.eqb c ","))
                       (float_char c))
                (implb (Text.isdigit c) (PyStr.re_digit c)))).
    vm_compute. reflexivity.
  - rewrite str_filter_filter. apply str_filter_ext. intros c.
    apply Bool.eqb_prop. revert c.
    apply (every_ascii_spec
             (fun c => Bool.eqb
                (Tool.user_price_char c && negb (Ascii.eqb c ",")
                 && PyStr.re_digit c)
                (PyStr.re_digit c))).
    vm_compute. reflexivity.
  - apply count_filter. reflexivity.
Qed.

(** X2.  [_extract_user_price] never raises, and it returns a number
    exactly when every digit of the input is a decimal digit, there is at
    least one, and the input has at most one point.  Commas are dropped
    wherever they stand; a superscript digit, which [isdigit] lets
    through, makes [float] fail. *)
Theorem extract_user_price_succeeds_iff (price_input : string) :
  ((exists x, Tool._extract_user_price price_input = Returns (Some x))
   <-> PyStr.all (fun c => implb (Text.isdigit c) (PyStr.re_digit c))
                 price_input = true
       /\ PyStr.filter PyStr.re_digit price_input <> ""
       /\ (Text.count "." price_input <= 1)%nat)
  /\ ((exists x, Tool._extract_user_price price_input = Returns (Some x)
                 /\ unsigned x)
      \/ Tool._extract_user_price price_input = Returns None).
Proof.
  destruct (user_price_cleaned price_input) as (A & D & C).
  unfold Tool._extract_user_price.
  destruct (String.eqb_spec price_input "") as [-> | N].
  { split; [| right; reflexivity].
    split; [intros [x H]; discriminate H |].
    intros (_ & H & _). contradiction H. }
  cbv zeta in A, D, C |- *.
  remember (PyStr.remove "," (PyStr.filter Tool.user_price_char price_input))
    as cleaned eqn:E. clear E.
  destruct (of_str_outcome cleaned) as [(x & R & U) | R].
  - pose proof (of_str_alphabet _ _ R) as F.
    pose proof (proj1 (of_str_returns_iff _ F) (ex_intro _ x R)) as [H1 H2].
    rewrite R. split; [| left; exists x; split; [reflexivity | exact U]].
    split; [intros _ | intros _; exists x; reflexivity].
    rewrite <- A, <- D, <- C. auto.
  - rewrite R. split; [| right; reflexivity].
    split; [intros [x H]; discriminate H |].
    intros (H0 & H1 & H2). exfalso.
    rewrite <- A in H0. rewrite <- D in H1. rewrite <- C in H2.
    destruct (proj2 (of_str_returns_iff _ H0) (conj H1 H2)) as [x H].
    congruence.
Qed.

Lemma str_filter_agree (p q : ascii -> bool) (s : string) :
  PyStr.all (fun c => Bool.eqb (p c) (q c)) s = true ->
  PyStr.filter p s = PyStr.filter q s.
Proof.
  induction s as [| c s IH]; simpl; [reflexivity |].
  intros H. apply andb_prop in H as [H1 H2].
  apply Bool.eqb_prop in H1. rewrite H1, (IH H2). reflexivity.
Qed.

Lemma remove_absent (x : ascii) (s : string) :
  PyStr.mem x s = false -> PyStr.remove x s = s.
Proof.
  unfold PyStr.remove. induction s as [| c s IH]; simpl; [reflexivity |].
  intros M. apply orb_false_elim in M as [M1 M2].
  rewrite Ascii.eqb_sym, M1. simpl. rewrite (IH M2). reflexivity.
Qed.

(** X3.  On an input whose digits are all decimal, [_extract_user_price]
    returns what the [_extract_price] of the scrapers returns on the input
    without its commas; the two return the same on every such input that
    has a point or has no comma. *)
Theorem user_price_agrees (price_input : string) :
  PyStr.all (fun c => implb (Text.isdigit c) (PyStr.re_digit c))
            price_input = true ->
  Tool._extract_user_price price_input
  = _extract_price (PyStr.remove "," price_input)
  /\ (PyStr.mem "," price_input = false \/ PyStr.mem "." price_input = true ->
      Tool._extract_user_price price_input = _extract_price price_input).
Proof.
  intros A.
  assert (F : PyStr.filter Tool.user_price_char price_input
              = price_chars price_input).
  { apply str_filter_agree. revert A. apply str_all_weaken. intros c.
    pose proof (every_ascii_spec
                  (fun c => implb (implb (Text.isdigit c) (PyStr.re_digit c))
                              (Bool.eqb (Tool.user_price_char c)
                                        (price_char c)))
                  ltac:(vm_compute; reflexivity) c) as I.
    cbv beta in I. intros H. rewrite H in I. exact I. }
  assert (U : Tool._extract_user_price price_input
              = match of_str (PyStr.remove "," (price_chars price_input)) with
                | Returns x => Returns (Some x)
                | Raises _ => Returns None
                end).
  { unfold Tool._extract_user_price. rewrite F.
    destruct (String.eqb_spec price_input "") as [-> | N]; [reflexivity |].
    destruct (of_str_outcome (PyStr.remove "," (price_chars price_input)))
      as [(x & R & _) | R]; rewrite R; reflexivity. }
  assert (P : forall s,
             _extract_price s
             = match of_str (number_format (price_chars s)) with
               | Returns x => Returns (Some x)
               | Raises _ => Returns None
               end).
  { intros s. unfold _extract_price.
    destruct (of_str_outcome (number_format (price_chars s)))
      as [(x & R & _) | R]; rewrite R; reflexivity. }
  assert (M : forall c, price_char c = true ->
                PyStr.mem c (price_chars price_input)
                = PyStr.mem c price_input).
  { intros c H. unfold price_chars. rewrite str_mem_filter, H.
    apply andb_true_r. }
  split.
  - rewrite U, P, price_chars_remove, number_format_plain; [reflexivity |].
    unfold PyStr.remove. rewrite str_mem_filter. apply andb_false_r.
  - intros S.
    assert (E : PyStr.remove "," (price_chars price_input)
                = number_format (price_chars price_input)).
    { unfold number_format. rewrite !M by reflexivity.
      destruct S as [S | S]; rewrite S.
      - simpl. apply remove_absent. rewrite M by reflexivity. exact S.
      - rewrite andb_true_r.
        destruct (PyStr.mem "," price_input) eqn:C; [reflexivity |].
        apply remove_absent. rewrite M by reflexivity. exact C. }
    rewrite U, P, E. reflexivity.
Qed.

Lemma user_price_agrees_witness :
  Tool._extract_user_price "1,234.50 EGP"
  = _extract_price (PyStr.remove "," "1,234.50 EGP")
  /\ Tool._extract_user_price "1,234.50 EGP" = _extract_price "1,234.50 EGP".
Proof.
  destruct (user_price_agrees "1,234.50 EGP") as [H1 H2].
  - vm_compute. reflexivity.
  - split; [exact H1 |]. apply H2. right. vm_compute. reflexivity.
Defined.

(** ** Normal forms of a name *)

Lemma str_all_true (p : ascii -> bool) (s : string) :
  (forall c, p c = true) -> PyStr.all p s = true.
Proof.
  intros H. induction s as [| c s IH]; simpl; [reflexivity |].
  rewrite H, IH. reflexivity.
Qed.

Lemma str_map_fixed (f : ascii -> ascii) (s : string) :
  PyStr.all (fun c => Ascii.eqb (f c) c) s = true -> PyStr.map f s = s.
Proof.
  induction s as [| c s IH]; simpl; [reflexivity |].
  intros H. apply andb_prop in H as [H1 H2].
  apply Ascii.eqb_eq in H1. rewrite H1, (IH H2). reflexivity.
Qed.

Lemma split_aux_word (w : string) (acc : list ascii) (s : string) :
  PyStr.all visible w = true ->
  PyStr.split_aux acc (w ++ s)
  = PyStr.split_aux (List.rev (list_ascii_of_string w) ++ acc)%list s.
Proof.
  revert acc. induction w as [| c w IH]; intros acc V; [reflexivity |].
  simpl in V. apply andb_prop in V as [Vc V].
  unfold visible in Vc. apply negb_true_iff in Vc.
  cbn [append PyStr.split_aux list_ascii_of_string List.rev].
  rewrite Vc, (IH _ V), <- app_assoc. reflexivity.
Qed.

Lemma flush_word (w : string) :
  w <> "" ->
  match List.rev (list_ascii_of_string w) with
  | [] => []
  | _ => [string_of_list_ascii
            (List.rev (List.rev (list_ascii_of_string w)))]
  end = [w].
Proof.
  intros N. rewrite rev_involutive, string_of_list_ascii_of_string.
  destruct (List.rev (list_ascii_of_string w)) eqn:R; [| reflexivity].
  apply (f_equal (@List.length ascii)) in R. rewrite length_rev in R.
  destruct w; [contradiction | discriminate R].
Qed.

(** [split] undoes [join] on words. *)
Lemma split_join (ws : list string) :
  Forall word ws -> PyStr.split (PyStr.join " " ws) = ws.
Proof.
  unfold PyStr.split.
  intros F. induction F as [| w ws [N V] F IH]; [reflexivity |].
  destruct ws as [| x ws].
  - cbn [PyStr.join]. rewrite <- (append_empty_r w) at 1.
    rewrite (split_aux_word _ _ _ V), app_nil_r.
    cbn [PyStr.split_aux]. apply flush_word, N.
  - rewrite join_cons by discriminate.
    rewrite (split_aux_word _ _ _ V), app_nil_r.
    cbn [append PyStr.split_aux].
    change (PyStr.isspace " ") with true. cbv iota.
    rewrite (flush_word _ N), IH. reflexivity.
Qed.

(** The words of a text whose characters are blank or satisfy [p]. *)
Lemma words_of (p : ascii -> bool) (s : string) :
  PyStr.all (fun c => negb (visible c) || p c) s = true ->
  Forall word (PyStr.split s)
  /\ PyStr.all (fun c => Ascii.eqb c " " || p c)
               (PyStr.join " " (PyStr.split s)) = true.
Proof.
  intros A.
  assert (W : Forall (fun x => x <> ""
                               /\ PyStr.all (fun c => visible c && p c) x
                                  = true) (PyStr.split s)).
  { apply split_aux_words; [| reflexivity].
    revert A. apply str_all_weaken. intros c H.
    destruct (visible c); [exact H | reflexivity]. }
  split.
  - revert W. apply Forall_impl. intros w [N H]. split; [exact N |].
    revert H. apply str_all_weaken. intros c H.
    apply andb_prop in H as [H _]. exact H.
  - apply all_join; [reflexivity |].
    revert W. apply Forall_impl. intros w [_ H].
    revert H. apply str_all_weaken. intros c H.
    apply andb_prop in H as [_ H]. rewrite H. apply orb_true_r.
Qed.

Lemma lower_fixed (s : string) :
  PyStr.all (fun c => Ascii.eqb (PyStr.lower_char c) c) s = true ->
  PyStr.lower s = s.
Proof. apply str_map_fixed. Qed.

Lemma normalize_text_idempotent (text : string) :
  _normalize_text (_normalize_text text) = _normalize_text text.
Proof.
  unfold _normalize_text.
  destruct (words_of (fun c => Ascii.eqb (PyStr.lower_char c) c)
                     (PyStr.lower text)) as [W A].
  { unfold PyStr.lower. rewrite str_all_map. apply str_all_true.
    apply every_ascii_spec. vm_compute. reflexivity. }
  rewrite lower_fixed, (split_join _ W); [reflexivity |].
  revert A. apply str_all_weaken.
  intros c H. apply orb_prop in H as [H | H]; [| exact H].
  apply Ascii.eqb_eq in H. subst c. reflexivity.
Qed.

Lemma clean_text_idempotent (text : string) :
  PyStr.all kept (PyStr.lower (PyStr.filter kept text)) = true ->
  _clean_text_for_comparison (_clean_text_for_comparison text)
  = _clean_text_for_comparison text.
Proof.
  intros K. unfold _clean_text_for_comparison.
  destruct (words_of (fun c => kept c && Ascii.eqb (PyStr.lower_char c) c)
                     (PyStr.lower (PyStr.filter kept text))) as [W A].
  { assert (L : PyStr.all (fun c => Ascii.eqb (PyStr.lower_char c) c)
                          (PyStr.lower (PyStr.filter kept text)) = true).
    { unfold PyStr.lower. rewrite str_all_map. apply str_all_true.
      apply every_ascii_spec. vm_compute. reflexivity. }
    revert K L. generalize (PyStr.lower (PyStr.filter kept text)).
    intros s. induction s as [| c s IH]; simpl; [reflexivity |].
    intros K L. apply andb_prop in K as [Kc K].
    apply andb_prop in L as [Lc L].
    rewrite Kc, Lc, (IH K L), orb_true_r. reflexivity. }
  rewrite (str_filter_all kept), lower_fixed, (split_join _ W);
    [reflexivity | |]; revert A; apply str_all_weaken; intros c H;
    (apply orb_prop in H as [H | H];
     [apply Ascii.eqb_eq in H; subst c; reflexivity
     | apply andb_prop in H as [H1 H2]; assumption]).
Qed.

Lemma simplified_text_idempotent (text : string) :
  _simplified_text (_simplified_text text) = _simplified_text text.
Proof.
  unfold _simplified_text. cbv zeta.
  set (blank := fun c : ascii => if simple_char c then c else " "%char).
  destruct (words_of
              (fun c => simple_char c && Ascii.eqb (PyStr.lower_char c) c)
              (PyStr.map blank (PyStr.lower text))) as [W A].
  { unfold PyStr.lower. rewrite !str_all_map. apply str_all_true.
    apply every_ascii_spec. vm_compute. reflexivity. }
  rewrite lower_fixed, (str_map_fixed blank), (split_join _ W);
    [reflexivity | |]; revert A; apply str_all_weaken; intros c H;
    (apply orb_prop in H as [H | H];
     [apply Ascii.eqb_eq in H; subst c; reflexivity
     | apply andb_prop in H as [H1 H2]]).
  - unfold blank. rewrite H1. apply Ascii.eqb_refl.
  - exact H2.
Qed.

(** X4.  [_normalize_text] and [_simplified_text] are idempotent: they
    leave their own results unchanged.  So does
    [_clean_text_for_comparison] on a text of which the kept characters,
    once lowercased, are all characters it keeps; this holds of every text
    below 256, and fails where lowercasing yields a combining mark. *)
Theorem normal_forms_idempotent (text : string) :
  _normalize_text (_normalize_text text) = _normalize_text text
  /\ _simplified_text (_simplified_text text) = _simplified_text text
  /\ (PyStr.all kept (PyStr.lower (PyStr.filter kept text)) = true ->
      _clean_text_for_comparison (_clean_text_for_comparison text)
      = _clean_text_for_comparison text).
Proof.
  split; [apply normalize_text_idempotent |].
  split; [apply simplified_text_idempotent | apply clean_text_idempotent].
Qed.

Lemma normal_forms_witness :
  _clean_text_for_comparison
    (_clean_text_for_comparison "  Joyroom   JR-BP560S!! ")
  = _clean_text_for_comparison "  Joyroom   JR-BP560S!! ".
Proof.
  apply (proj2 (proj2 (normal_forms_idempotent "  Joyroom   JR-BP560S!! "))).
  vm_compute. reflexivity.
Defined.

Lemma share_element_sym (l1 l2 : list string) :
  share_element l1 l2 = share_element l2 l1.
Proof.
  unfold share_element. apply eq_true_iff_eq.
  rewrite !existsb_exists. split.
  - intros (x & I & H). apply existsb_exists in H as (y & J & E).
    apply String.eqb_eq in E. subst y.
    exists x. split; [exact J |]. apply existsb_exists.
    exists x. split; [exact I | apply String.eqb_refl].
  - intros (x & I & H). apply existsb_exists in H as (y & J & E).
    apply String.eqb_eq in E. subst y.
    exists x. split; [exact J |]. apply existsb_exists.
    exists x. split; [exact I | apply String.eqb_refl].
Qed.

(** X5.  [_exact_text_match] holds of a name and itself and does not
    depend on the order of its two arguments.  When the kept characters
    of a name, once lowercased, are all characters that are kept, the name
    can be replaced by its cleaned form: case, punctuation and the amount
    of white space play no part. *)
Theorem exact_text_match_relation (text1 text2 : string) :
  _exact_text_match text1 text1 = true
  /\ _exact_text_match text1 text2 = _exact_text_match text2 text1
  /\ (PyStr.all kept (PyStr.lower (PyStr.filter kept text1)) = true ->
      _exact_text_match (_clean_text_for_comparison text1) text2
      = _exact_text_match text1 text2).
Proof.
  unfold _exact_text_match. cbv zeta. repeat split.
  - rewrite String.eqb_refl. reflexivity.
  - rewrite (String.eqb_sym (_clean_text_for_comparison text1)).
    rewrite (String.eqb_sym (PyStr.remove " " (_clean_text_for_comparison text1))).
    rewrite share_element_sym. reflexivity.
  - intros K. rewrite (clean_text_idempotent _ K). reflexivity.
Qed.

Lemma exact_text_match_witness :
  _exact_text_match (_clean_text_for_comparison "Joyroom  JR-BP560S!!")
                    "joyroom jr-bp560s (black)"
  = _exact_text_match "Joyroom  JR-BP560S!!" "joyroom jr-bp560s (black)".
Proof.
  apply (proj2 (proj2 (exact_text_match_relation
                         "Joyroom  JR-BP560S!!"
                         "joyroom jr-bp560s (black)"))).
  vm_compute. reflexivity.
Defined.

(** ** Names that share a token *)

Lemma findall_model_resumes (pre : string) :
  forall (st : scan) (s : string),
    exists found,
      findall_model_from st (pre ++ String " " s)
      = (found ++ findall_model_from Idle s)%list.
Proof.
  induction pre as [| c pre IH]; intros st s.
  - cbn [append findall_model_from].
    change (model_char " ") with false. cbv iota.
    change (Ascii.eqb " " "-") with false. cbv iota.
    destruct st as [| r1 | r1 | r1 r2].
    + exists []. reflexivity.
    + exists (emit_first r1). reflexivity.
    + exists (emit_first r1). reflexivity.
    + exists [r1 ++ "-" ++ r2]. reflexivity.
  - cbn [append findall_model_from].
    destruct (model_char c).
    + destruct st; apply IH.
    + destruct st as [| r1 | r1 | r1 r2].
      * apply IH.
      * destruct (Ascii.eqb c "-"); [apply IH |].
        destruct (IH Idle s) as [found E]. rewrite E.
        exists (emit_first r1 ++ found)%list. apply app_assoc.
      * destruct (IH Idle s) as [found E]. rewrite E.
        exists (emit_first r1 ++ found)%list. apply app_assoc.
      * destruct (IH Idle s) as [found E]. rewrite E.
        exists ((r1 ++ "-" ++ r2) :: found). reflexivity.
Qed.

Lemma findall_model_run (w : string) :
  forall (r1 s : string),
    PyStr.all model_char w = true ->
    findall_model_from (First r1) (w ++ s)
    = findall_model_from (First (r1 ++ w)) s.
Proof.
  induction w as [| c w IH]; intros r1 s A.
  - rewrite append_empty_r. reflexivity.
  - simpl in A. apply andb_prop in A as [Ac A].
    cbn [append findall_model_from]. rewrite Ac.
    rewrite (IH _ _ A). unfold snoc. rewrite str_app_assoc. reflexivity.
Qed.

Lemma findall_model_token (w s : string) :
  PyStr.all model_char w = true -> (2 <= String.length w)%nat ->
  s = "" \/ (exists s', s = String " " s') ->
  exists found, findall_model_from Idle (w ++ s) = w :: found.
Proof.
  intros A L S. destruct w as [| c w]; [simpl in L; lia |].
  simpl in A. apply andb_prop in A as [Ac A].
  cbn [append findall_model_from]. rewrite Ac.
  rewrite (findall_model_run _ _ _ A).
  change (String c "" ++ w) with (String c w).
  assert (E : emit_first (String c w) = [String c w]).
  { unfold emit_first. destruct (Nat.leb_spec 2 (String.length (String c w)));
      [reflexivity | lia]. }
  destruct S as [-> | [s' ->]].
  - exists []. exact E.
  - cbn [findall_model_from].
    change (model_char " ") with false. cbv iota.
    change (Ascii.eqb " " "-") with false. cbv iota.
    rewrite E. eexists. reflexivity.
Qed.

(** A word of two or more characters of [[a-z0-9]] is found as a model
    number in a text of words joined by spaces. *)
Lemma token_found (w : string) (ws : list string) :
  PyStr.all model_char w = true -> (2 <= String.length w)%nat ->
  In w ws -> In w (findall_model (PyStr.join " " ws)).
Proof.
  intros A L. unfold findall_model.
  induction ws as [| x ws IH]; [contradiction |].
  intros I. destruct ws as [| y ws].
  - destruct I as [-> | []]. cbn [PyStr.join].
    destruct (findall_model_token w "" A L (or_introl eq_refl)) as [f E].
    rewrite append_empty_r in E. rewrite E. left. reflexivity.
  - rewrite join_cons by discriminate.
    cbn [append]. destruct I as [-> | I].
    + destruct (findall_model_token w
                  (String " " (PyStr.join " " (y :: ws))) A L) as [f E];
        [right; eexists; reflexivity |].
      rewrite E. left. reflexivity.
    + destruct (findall_model_resumes x Idle (PyStr.join " " (y :: ws)))
        as [f E].
      rewrite E. apply in_or_app. right. exact (IH I).
Qed.

Lemma clean_text_split (text : string) :
  PyStr.join " " (PyStr.split (_clean_text_for_comparison text))
  = _clean_text_for_comparison text.
Proof.
  unfold _clean_text_for_comparison. rewrite split_join; [reflexivity |].
  generalize (clean_text_words text). apply Forall_impl.
  intros w [N A]. split; [exact N |].
  revert A. apply str_all_weaken. intros c H.
  apply andb_prop in H as [_ H]. exact H.
Qed.

(** X6.  Two names match as soon as their cleaned forms have one word in
    common that is made of two or more characters of [[a-z0-9]]: the third
    test of [_exact_text_match] takes every such word for a model
    number. *)
Theorem shared_token_matches (text1 text2 token : string) :
  PyStr.all model_char token = true ->
  (2 <= String.length token)%nat ->
  In token (PyStr.split (_clean_text_for_comparison text1)) ->
  In token (PyStr.split (_clean_text_for_comparison text2)) ->
  _exact_text_match text1 text2 = true.
Proof.
  intros A L I1 I2. unfold _exact_text_match. cbv zeta.
  destruct (_ =? _)%string; [reflexivity |].
  destruct (_ =? _)%string; [reflexivity |].
  apply (token_found _ _ A L) in I1, I2.
  rewrite clean_text_split in I1, I2.
  unfold share_element. apply existsb_exists.
  exists token. split; [exact I1 |].
  apply existsb_exists. exists token. split; [exact I2 |].
  apply String.eqb_refl.
Qed.

Lemma shared_token_witness :
  _exact_text_match "Apple iPhone 13 Case (Black)" "Samsung Galaxy S21 case"
  = true.
Proof.
  apply (shared_token_matches _ _ "case").
  - reflexivity.
  - simpl. lia.
  - vm_compute. auto.
  - vm_compute. auto.
Defined.

(** ** Scores *)

(** A quotient of two integers that is at most one rounds to a float that
    is at most 1.0. *)
Lemma round_div_le_one (m n : Z) :
  0 <= m <= n -> 0 < n ->
  le (round_div m n) (of_int 1) = true.
Proof.
  intros [Hm Hmn] Hn.
  change (of_int 1)
    with (S754_finite false (Z.to_pos 4503599627370496) (-52)).
  unfold round_div.
  destruct (Z.leb_spec m 0) as [_ | Hpos]; [reflexivity |].
  destruct (ilog2_ratio_below_one m n (conj Hpos Hmn)) as (HL & _ & _).
  remember (Z.max (ilog2_ratio m n - (prec - 1)) emin) as e eqn:Ee.
  assert (He : e <= -52) by (subst e; unfold emin, emax, prec; lia).
  clear Ee HL.
  unfold scaled. destruct (Z.ltb_spec e 0) as [_ | ?]; [| lia].
  remember (2 ^ (- e)) as P eqn:EP.
  assert (HP : 4503599627370496 <= P).
  { subst P. change 4503599627370496 with (2 ^ 52).
    apply Z.pow_le_mono_r; lia. }
  assert (HP53 : 9007199254740992 <= P -> e <= -53).
  { intros H. subst P. change 9007199254740992 with (2 ^ 53) in H.
    apply Z.pow_le_mono_r_iff in H; lia. }
  assert (HP52 : e = -52 -> P = 4503599627370496)
    by (intros ->; subst P; reflexivity).
  clear EP.
  assert (Ha : m * P <= n * P) by (apply Z.mul_le_mono_nonneg_r; lia).
  pose proof (Z.div_mod (m * P) n ltac:(lia)) as Hdm.
  pose proof (Z.mod_pos_bound (m * P) n Hn) as Hr.
  remember (m * P / n) as q0 eqn:Eq0. remember (m * P mod n) as r eqn:Er.
  remember (m * P) as a eqn:Ea. remember (n * P) as nP eqn:EnP.
  assert (Hq0 : 0 <= q0) by nia.
  assert (Hq : nearest_even q0 r n <= P).
  { destruct (nearest_even_cases q0 r n) as [[-> _] | [-> C]]; nia. }
  assert (Hq' : 0 <= nearest_even q0 r n)
    by (destruct (nearest_even_cases q0 r n) as [[-> _] | [-> _]]; lia).
  remember (nearest_even q0 r n) as q eqn:Eq.
  clear Eq Eq0 Er Hdm Hr Ea EnP Ha.
  unfold prec, emax.
  change (2 ^ 53) with 9007199254740992.
  change (2 ^ (53 - 1)) with 4503599627370496.
  change (le ?x ?y) with (ge y x).
  destruct (Z.eqb_spec q 9007199254740992) as [-> | Nq].
  - cbn [Z.eqb]. destruct (Z.ltb_spec 1024 (e + 1 + 53)); [lia |].
    apply ge_finite; [lia |]. specialize (HP53 Hq).
    cbn [Z.to_pos]. lia.
  - destruct (Z.eqb_spec q 0) as [_ | Nz]; [reflexivity |].
    destruct (Z.ltb_spec 1024 (e + 53)); [lia |].
    apply ge_finite; [lia |]. rewrite Z2Pos.id by lia.
    destruct (Z.eq_dec e (-52)) as [E | N]; [| left; lia].
    right. specialize (HP52 E). lia.
Qed.

Lemma round_div_same (n : Z) : 0 < n -> round_div n n = of_int 1.
Proof.
  intros Hn.
  change (of_int 1) with (S754_finite false 4503599627370496 (-52)).
  unfold round_div.
  destruct (Z.leb_spec n 0) as [? | _]; [lia |].
  assert (L : ilog2_ratio n n = 0).
  { unfold ilog2_ratio. rewrite Z.sub_diag. unfold scaled.
    change (0 <? 0) with false. cbv iota beta.
    change (2 ^ 0) with 1. rewrite Z.mul_1_r, Z.leb_refl. reflexivity. }
  rewrite L.
  change (Z.max (0 - (prec - 1)) emin) with (-52).
  unfold scaled. change (-52 <? 0) with true. cbv iota beta.
  change (- -52) with 52.
  rewrite (Z.mul_comm n), Z.div_mul, Z.mod_mul by lia.
  unfold nearest_even.
  destruct (Z.ltb_spec (2 * 0) n) as [_ | ?]; [| lia].
  reflexivity.
Qed.

Lemma filter_none (p : ascii -> bool) (s : string) :
  PyStr.filter p s = "" <-> PyStr.all (fun c => negb (p c)) s = true.
Proof.
  induction s as [| c s IH]; simpl; [tauto |].
  destruct (p c); simpl; [split; discriminate | exact IH].
Qed.

(** None of the six patterns matches where there is no decimal digit. *)
Lemma patterns_need_digit (s : string) :
  PyStr.all (fun c => negb (PyStr.re_digit c)) s = true ->
  forallb (fun pattern => negb (Text.match_here pattern s)) patterns = true.
Proof.
  intros A.
  assert (P : forall r s, PyStr.all (fun c => negb (PyStr.re_digit c)) s = true ->
                Text.match_here (Text.Plus PyStr.re_digit :: r) s = false).
  { intros r [| x t] H; [reflexivity |].
    simpl in H. apply andb_prop in H as [H _]. apply negb_true_iff in H.
    cbn [Text.match_here]. rewrite H. reflexivity. }
  assert (O : forall r s, PyStr.all (fun c => negb (PyStr.re_digit c)) s = true ->
                Text.match_here (Text.One PyStr.re_digit :: r) s = false).
  { intros r [| x t] H; [reflexivity |].
    simpl in H. apply andb_prop in H as [H _]. apply negb_true_iff in H.
    cbn [Text.match_here]. rewrite H. reflexivity. }
  assert (S : forall s, PyStr.all (fun c => negb (PyStr.re_digit c)) s = true ->
                Text.match_here [Text.Star PyStr.isspace;
                                 Text.Plus PyStr.re_digit] s = false).
  { intros t. induction t as [| x t IH]; intros H.
    - reflexivity.
    - pose proof (P [] _ H) as E.
      simpl in H. apply andb_prop in H as [_ H].
      specialize (IH H).
      change (Text.match_here [Text.Star PyStr.isspace;
                               Text.Plus PyStr.re_digit] (String x t))
        with (Text.match_here [Text.Plus PyStr.re_digit] (String x t)
              || PyStr.isspace x
                 && Text.match_here [Text.Star PyStr.isspace;
                                     Text.Plus PyStr.re_digit] t).
      rewrite E, IH, andb_false_r. reflexivity. }
  assert (T : forall n, PyStr.all (fun c => negb (PyStr.re_digit c))
                          (Text.drop n s) = true).
  { intros n. revert s A. induction n as [| n IH]; intros s A; [exact A |].
    destruct s as [| x t]; [reflexivity |].
    simpl in A. apply andb_prop in A as [_ A]. exact (IH _ A). }
  assert (L : forall c r x t,
                Text.match_here (Text.lit c :: r) (String x t)
                = Ascii.eqb c x && Text.match_here r t)
    by reflexivity.
  unfold patterns. cbn [forallb].
  rewrite !(P _ _ A). cbn [negb andb].
  assert (E3 : Text.match_here
                 [Text.lit "r"; Text.lit "t"; Text.lit "x";
                  Text.Star PyStr.isspace; Text.Plus PyStr.re_digit] s
               = false).
  { pose proof (T 3%nat) as H.
    destruct s as [| c1 [| c2 [| c3 t]]];
      rewrite ?L; rewrite ?andb_false_r; try reflexivity.
    simpl in H. rewrite (S _ H). rewrite !andb_false_r. reflexivity. }
  assert (E4 : Text.match_here
                 [Text.lit "i"; Text.One PyStr.re_digit; Text.lit "-";
                  Text.Plus PyStr.re_digit] s = false).
  { pose proof (T 1%nat) as H.
    destruct s as [| c1 t]; rewrite ?L; [reflexivity |].
    simpl in H. rewrite (O _ _ H). apply andb_false_r. }
  assert (E6 : Text.match_here
                 [Text.lit "d"; Text.lit "d"; Text.lit "r";
                  Text.One PyStr.re_digit] s = false).
  { pose proof (T 3%nat) as H.
    destruct s as [| c1 [| c2 [| c3 t]]];
      rewrite ?L; rewrite ?andb_false_r; try reflexivity.
    simpl in H. rewrite (O _ _ H). rewrite !andb_false_r. reflexivity. }
  rewrite E3, E4, E6. reflexivity.
Qed.

Lemma search_needs_digit (s : string) :
  PyStr.all (fun c => negb (PyStr.re_digit c)) s = true ->
  specs_of_word s = [].
Proof.
  intros A.
  assert (F : forallb (fun pattern => negb (Text.search pattern s)) patterns
              = true).
  { induction s as [| x t IH].
    - exact (patterns_need_digit "" A).
    - pose proof (patterns_need_digit _ A) as H.
      simpl in A. apply andb_prop in A as [_ A]. specialize (IH A).
      rewrite forallb_forall in *. intros r I.
      specialize (H r I). specialize (IH r I).
      apply negb_true_iff in H, IH. apply negb_true_iff.
      cbn [Text.search]. rewrite H, IH. reflexivity. }
  unfold specs_of_word. rewrite forallb_forall in F.
  induction patterns as [| r l IH]; [reflexivity |].
  cbn [flat_map].
  pose proof (F r (or_introl eq_refl)) as H. apply negb_true_iff in H.
  rewrite H. apply IH. intros r' I. apply F. right. exact I.
Qed.

Lemma no_digit_no_specs (text : string) :
  PyStr.all (fun c => negb (PyStr.re_digit c)) text = true ->
  _extract_specs text = [].
Proof.
  intros A. unfold _extract_specs.
  assert (W : Forall (fun w => w <> ""
                /\ PyStr.all (fun c => negb (PyStr.re_digit c)) w = true)
                (PyStr.split (PyStr.lower text))).
  { apply split_aux_words; [| reflexivity].
    unfold PyStr.lower. rewrite str_all_map.
    revert A. apply str_all_weaken. intros c H.
    pose proof (every_ascii_spec
                  (fun c => implb (negb (PyStr.re_digit c))
                              (negb (PyStr.re_digit (PyStr.lower_char c))))
                  ltac:(vm_compute; reflexivity) c) as I.
    cbv beta in I. rewrite H in I. simpl in I. rewrite I.
    apply orb_true_r. }
  induction W as [| w ws [_ Hw] W IH]; [reflexivity |].
  cbn [flat_map]. rewrite (search_needs_digit _ Hw), IH. reflexivity.
Qed.

Lemma no_digit_normalized (text : string) :
  PyStr.all (fun c => negb (PyStr.re_digit c)) text = true ->
  PyStr.all (fun c => negb (PyStr.re_digit c)) (_normalize_text text) = true.
Proof.
  intros A. unfold _normalize_text.
  apply all_join; [reflexivity |].
  assert (W : Forall (fun w => w <> ""
                /\ PyStr.all (fun c => negb (PyStr.re_digit c)) w = true)
                (PyStr.split (PyStr.lower text))).
  { apply split_aux_words; [| reflexivity].
    unfold PyStr.lower. rewrite str_all_map.
    revert A. apply str_all_weaken. intros c H.
    pose proof (every_ascii_spec
                  (fun c => implb (negb (PyStr.re_digit c))
                              (negb (PyStr.re_digit (PyStr.lower_char c))))
                  ltac:(vm_compute; reflexivity) c) as I.
    cbv beta in I. rewrite H in I. simpl in I. rewrite I.
    apply orb_true_r. }
  revert W. apply Forall_impl. intros w [_ H]. exact H.
Qed.

(** X7.  [_exact_match_score] never raises, and its score lies between
    0.0 and 1.0: the divisor is never zero, and no more specifications are
    counted as found than the query has. *)
Theorem exact_match_score_range (product_name search_query : string) :
  exists score,
    _exact_match_score product_name search_query = Returns score
    /\ le zero score = true /\ le score (of_int 1) = true.
Proof.
  unfold _exact_match_score.
  destruct (_ || _); [exists zero; repeat split; reflexivity |].
  cbv zeta.
  set (query_specs := _extract_specs (_normalize_text search_query)).
  set (product_specs := _extract_specs (_normalize_text product_name)).
  assert (M : (spec_matches query_specs product_specs
               <= List.length query_specs)%nat) by apply filter_length_le.
  assert (B : forall a b : nat, (a <= b)%nat -> (0 < b)%nat ->
                exists score, truediv a b = Returns score
                  /\ le zero score = true /\ le score (of_int 1) = true).
  { intros a b L P. rewrite truediv_positive by exact P.
    eexists. split; [reflexivity |]. split.
    - pose proof (round_div_unsigned (Z.of_nat a) (Z.of_nat b)) as [S N].
      destruct (round_div _ _) as [s | s | | s m e]; simpl in *; subst;
        try reflexivity; discriminate.
    - apply round_div_le_one; lia. }
  destruct query_specs as [| spec specs] eqn:E.
  - apply B; simpl in *; lia.
  - apply B; [exact M | simpl; lia].
Qed.

(** X8.  A query without a decimal digit scores 0.0 against every
    product, the product of the same name included: each of the six
    patterns of [_extract_specs] asks for a digit, so the query has no
    specification to be found. *)
Theorem exact_match_score_needs_digit (product_name search_query : string) :
  PyStr.filter PyStr.re_digit search_query = "" ->
  _exact_match_score product_name search_query = Returns zero.
Proof.
  intros D. apply filter_none in D.
  unfold _exact_match_score.
  destruct (_ || _); [reflexivity |]. cbv zeta.
  rewrite (no_digit_no_specs _ (no_digit_normalized _ D)).
  reflexivity.
Qed.

Lemma exact_match_score_needs_digit_witness :
  _exact_match_score "Joyroom Stylus Pen" "Joyroom Stylus Pen" = Returns zero.
Proof.
  apply (exact_match_score_needs_digit "Joyroom Stylus Pen").
  reflexivity.
Defined.

(** X9.  When the query has a specification and each of its
    specifications is one of the product's, the score is 1.0. *)
Theorem exact_match_score_full (product_name search_query : string) :
  product_name <> "" -> search_query <> "" ->
  _extract_specs (_normalize_text search_query) <> [] ->
  incl (_extract_specs (_normalize_text search_query))
       (_extract_specs (_normalize_text product_name)) ->
  _exact_match_score product_name search_query = Returns (of_int 1).
Proof.
  intros Np Nq S I. unfold _exact_match_score.
  destruct (String.eqb_spec product_name ""); [contradiction |].
  destruct (String.eqb_spec search_query ""); [contradiction |].
  cbv zeta. cbn [orb].
  set (query_specs := _extract_specs (_normalize_text search_query)) in *.
  set (product_specs := _extract_specs (_normalize_text product_name)) in *.
  assert (M : spec_matches query_specs product_specs
              = List.length query_specs).
  { unfold spec_matches. f_equal.
    apply forallb_filter_id. apply forallb_forall. intros spec H.
    unfold member. apply existsb_exists. exists spec.
    split; [exact (I _ H) | apply String.eqb_refl]. }
  rewrite M. destruct query_specs as [| spec specs]; [contradiction |].
  cbn [is_empty]. rewrite truediv_positive by (simpl; lia).
  rewrite round_div_same by (simpl; lia). reflexivity.
Qed.

Lemma exact_match_score_full_witness :
  _exact_match_score "Lenovo Legion 5 16GB DDR5 RTX4060" "legion 16gb rtx4060"
  = Returns (of_int 1).
Proof.
  apply (exact_match_score_full "Lenovo Legion 5 16GB DDR5 RTX4060"
                                "legion 16gb rtx4060").
  - discriminate.
  - discriminate.
  - vm_compute. discriminate.
  - vm_compute. intros spec [<- | [<- | []]]; simpl; auto.
Defined.

(** ** The search variations *)

Lemma split_aux_pending (c : ascii) (w : list ascii) (s : string) :
  PyStr.split_aux (c :: w) s <> [].
Proof.
  revert c w. induction s as [| x s IH]; intros c w; simpl.
  - discriminate.
  - destruct (PyStr.isspace x); [discriminate | apply IH].
Qed.

Lemma split_none (s : string) :
  PyStr.split s = [] <-> PyStr.all PyStr.isspace s = true.
Proof.
  unfold PyStr.split. induction s as [| c s IH]; simpl; [tauto |].
  destruct (PyStr.isspace c); simpl; [exact IH |].
  split; [intros H; destruct (split_aux_pending _ _ _ H) | discriminate].
Qed.

Lemma lstrip_blank (s : string) :
  PyStr.all PyStr.isspace s = true -> PyStr.lstrip s = "".
Proof.
  induction s as [| c s IH]; simpl; [reflexivity |].
  intros H. apply andb_prop in H as [-> H]. exact (IH H).
Qed.

Lemma all_lstrip (s : string) :
  PyStr.all PyStr.isspace (PyStr.lstrip s) = PyStr.all PyStr.isspace s.
Proof.
  induction s as [| c s IH]; simpl; [reflexivity |].
  destruct (PyStr.isspace c) eqn:E; simpl; [exact IH |].
  rewrite E. reflexivity.
Qed.

Lemma all_rev (p : ascii -> bool) (s : string) :
  PyStr.all p (PyStr.rev s) = PyStr.all p s.
Proof.
  unfold PyStr.rev. rewrite all_of_list, forallb_reverse.
  rewrite <- all_of_list, string_of_list_ascii_of_string. reflexivity.
Qed.

Lemma all_strip (s : string) :
  PyStr.all PyStr.isspace (PyStr.strip s) = PyStr.all PyStr.isspace s.
Proof.
  unfold PyStr.strip. rewrite all_rev, all_lstrip, all_rev.
  apply all_lstrip.
Qed.

(** X10.  [_prepare_search_query] fails on every query that has a
    character other than white space: [self.common_brands] is read for
    the first word and the class never defines it, so [AttributeError] is
    raised.  On a blank query it returns the one variation [""]. *)
Theorem prepare_search_query_fails (query : string) :
  _prepare_search_query query
  = if PyStr.all PyStr.isspace query
    then Returns [""]
    else Raises AttributeError.
Proof.
  unfold _prepare_search_query. cbv zeta.
  destruct (PyStr.all PyStr.isspace query) eqn:B.
  - assert (E : PyStr.strip query = "").
    { unfold PyStr.strip. rewrite (lstrip_blank _ B). reflexivity. }
    rewrite E. reflexivity.
  - destruct (PyStr.split (PyStr.lower (PyStr.strip query))) eqn:S;
      [| reflexivity].
    apply split_none in S. unfold PyStr.lower in S.
    rewrite str_all_map in S.
    rewrite (str_all_ext _ PyStr.isspace) in S by apply lower_char_space.
    rewrite all_strip in S. congruence.
Qed.

(** ** Availability *)

Lemma prefix_contains (a b s : string) :
  String.prefix (a ++ b) s = true -> PyStr.contains b s = true.
Proof.
  revert s. induction a as [| c a IH]; intros s H.
  - destruct s; simpl in *; rewrite H; reflexivity.
  - destruct s as [| x s]; [discriminate H |].
    cbn [append String.prefix] in H.
    destruct (ascii_dec c x); [| discriminate H].
    cbn [PyStr.contains]. rewrite (IH _ H). apply orb_true_r.
Qed.

Lemma contains_suffix (a b s : string) :
  PyStr.contains (a ++ b) s = true -> PyStr.contains b s = true.
Proof.
  induction s as [| x s IH]; intros H.
  - cbn [PyStr.contains] in H. rewrite orb_false_r in H.
    exact (prefix_contains _ _ _ H).
  - cbn [PyStr.contains] in H. apply orb_prop in H as [H | H].
    + exact (prefix_contains _ _ _ H).
    + cbn [PyStr.contains]. rewrite (IH H). apply orb_true_r.
Qed.

(** X11.  On Amazon a product whose availability text says
    "unavailable", in any case, is reported as available: the text is
    searched for "available", which "unavailable" contains. *)
Theorem unavailable_reads_available (item_soup : Stock) (stock_text : string) :
  availability item_soup = Some stock_text ->
  PyStr.contains "unavailable" (PyStr.lower stock_text) = true ->
  _check_availability item_soup "Amazon Egypt" = true.
Proof.
  intros E H. unfold _check_availability. rewrite E.
  change (("Amazon Egypt" =? "Amazon Egypt")%string) with true. cbv iota zeta.
  rewrite (contains_suffix "un" "available" _ H). apply orb_true_r.
Qed.

Lemma unavailable_witness :
  _check_availability
    {| availability := Some "Currently unavailable.";
       out_of_stock := false; mas := false |} "Amazon Egypt" = true.
Proof.
  apply (unavailable_reads_available _ "Currently unavailable.").
  - reflexivity.
  - vm_compute. reflexivity.
Defined.

(** ** Amazon product identifiers *)

Lemma prefix_split (p s : string) :
  String.prefix p s = true <-> s = p ++ Text.drop (String.length p) s.
Proof.
  revert s. induction p as [| c p IH]; intros s;
    [destruct s; simpl; split; reflexivity |].
  destruct s as [| x s]; cbn [String.prefix append String.length Text.drop].
  - split; discriminate.
  - destruct (ascii_dec c x) as [-> | N].
    + rewrite IH. split; [intros <-; reflexivity | intros [= H]; exact H].
    + split; [discriminate | intros [= H _]; congruence].
Qed.

Lemma prefix_empty (s : string) : String.prefix "" s = true.
Proof. destruct s; reflexivity. Qed.

Lemma prefix_app_same (p a b : string) :
  String.prefix (p ++ a) (p ++ b) = String.prefix a b.
Proof.
  induction p as [| c p IH]; [reflexivity |].
  cbn [append String.prefix].
  destruct (ascii_dec c c); [exact IH | contradiction].
Qed.

Lemma take_prefix (n : nat) (s : string) :
  String.prefix (PyStr.take n s) s = true.
Proof.
  unfold PyStr.take. revert s. induction n as [| n IH]; intros s.
  - destruct s; reflexivity.
  - destruct s as [| c s]; [reflexivity |].
    cbn [String.substring String.prefix].
    destruct (ascii_dec c c); [apply IH | contradiction].
Qed.

Lemma take_app_length (a b : string) :
  PyStr.take (String.length a) (a ++ b) = a.
Proof.
  unfold PyStr.take. induction a as [| c a IH]; simpl.
  - destruct b; reflexivity.
  - rewrite IH. reflexivity.
Qed.

Lemma drop_app_length (a b : string) :
  Text.drop (String.length a) (a ++ b) = b.
Proof. induction a as [| c a IH]; simpl; [reflexivity | exact IH]. Qed.

Lemma id_here_sound (literal url id : string) :
  id_here literal url = Some id ->
  String.length id = 10%nat /\ PyStr.all id_char id = true
  /\ String.prefix (literal ++ id) url = true.
Proof.
  unfold id_here. destruct (String.prefix literal url) eqn:P; [| discriminate].
  cbv zeta. destruct (_ && _) eqn:C; [| discriminate].
  intros [= <-]. apply andb_prop in C as [L A].
  apply Nat.eqb_eq in L. split; [exact L |]. split; [exact A |].
  apply prefix_split in P. rewrite P at 2.
  rewrite prefix_app_same. apply take_prefix.
Qed.

Lemma id_here_complete (literal url id : string) :
  String.length id = 10%nat -> PyStr.all id_char id = true ->
  String.prefix (literal ++ id) url = true ->
  id_here literal url = Some id.
Proof.
  intros L A P. apply prefix_split in P.
  rewrite str_app_assoc in P.
  remember (Text.drop (String.length (literal ++ id)) url) as rest eqn:E.
  clear E. subst url. unfold id_here.
  replace (String.prefix literal (literal ++ id ++ rest)) with true.
  - cbv zeta. rewrite drop_app_length, <- L, take_app_length.
    rewrite A, Nat.eqb_refl. reflexivity.
  - symmetry. rewrite <- (append_empty_r literal) at 1.
    rewrite prefix_app_same. apply prefix_empty.
Qed.

Lemma search_id_sound (literal url id : string) :
  search_id literal url = Some id ->
  String.length id = 10%nat /\ PyStr.all id_char id = true
  /\ PyStr.contains (literal ++ id) url = true.
Proof.
  induction url as [| c url IH]; cbn [search_id].
  - destruct (id_here literal "") eqn:H; [| discriminate].
    intros [= <-]. apply id_here_sound in H as (L & A & P).
    repeat split; try assumption. cbn [PyStr.contains]. rewrite P.
    reflexivity.
  - destruct (id_here literal (String c url)) eqn:H.
    + intros [= <-]. apply id_here_sound in H as (L & A & P).
      repeat split; try assumption. cbn [PyStr.contains]. rewrite P.
      reflexivity.
    + intros S. destruct (IH S) as (L & A & C).
      repeat split; try assumption. cbn [PyStr.contains]. rewrite C.
      apply orb_true_r.
Qed.

Lemma search_id_complete (literal url id : string) :
  String.length id = 10%nat -> PyStr.all id_char id = true ->
  PyStr.contains (literal ++ id) url = true ->
  exists found, search_id literal url = Some found.
Proof.
  intros L A. induction url as [| c url IH]; cbn [PyStr.contains search_id].
  - rewrite orb_false_r. intros P.
    rewrite (id_here_complete _ _ _ L A P). eexists. reflexivity.
  - intros C. destruct (id_here literal (String c url)) eqn:H;
      [eexists; reflexivity |].
    apply orb_prop in C as [P | C]; [| exact (IH C)].
    rewrite (id_here_complete _ _ _ L A P) in H. discriminate H.
Qed.

(** X12.  An identifier returned by [_extract_amazon_product_id] has ten
    characters of [[A-Z0-9]] and stands in the address right after "/dp/"
    or right after "product/". *)
Theorem amazon_product_id_sound (url id : string) :
  _extract_amazon_product_id url = Some id ->
  String.length id = 10%nat /\ PyStr.all id_char id = true
  /\ (PyStr.contains ("/dp/" ++ id) url = true
      \/ PyStr.contains ("product/" ++ id) url = true).
Proof.
  unfold _extract_amazon_product_id.
  destruct (search_id "/dp/" url) eqn:D.
  - intros [= <-]. destruct (search_id_sound _ _ _ D) as (L & A & C). auto.
  - intros P. destruct (search_id_sound _ _ _ P) as (L & A & C). auto.
Qed.

Lemma amazon_product_id_sound_witness :
  String.length "B0CHX1W1XY" = 10%nat
  /\ PyStr.all id_char "B0CHX1W1XY" = true
  /\ (PyStr.contains ("/dp/" ++ "B0CHX1W1XY")
        "https://www.amazon.eg/-/en/gp/product/B0CHX1W1XY?th=1" = true
      \/ PyStr.contains ("product/" ++ "B0CHX1W1XY")
           "https://www.amazon.eg/-/en/gp/product/B0CHX1W1XY?th=1" = true).
Proof.
  apply (amazon_product_id_sound
           "https://www.amazon.eg/-/en/gp/product/B0CHX1W1XY?th=1").
  vm_compute. reflexivity.
Defined.

(** X13.  [_extract_amazon_product_id] finds an identifier in every
    address where ten characters of [[A-Z0-9]] follow "/dp/" or
    "product/"; it returns [None] only when there is no such place. *)
Theorem amazon_product_id_complete (url id : string) :
  String.length id = 10%nat -> PyStr.all id_char id = true ->
  PyStr.contains ("/dp/" ++ id) url = true
  \/ PyStr.contains ("product/" ++ id) url = true ->
  exists found, _extract_amazon_product_id url = Some found.
Proof.
  intros L A C. unfold _extract_amazon_product_id.
  destruct (search_id "/dp/" url) eqn:D; [eexists; reflexivity |].
  destruct C as [C | C].
  - destruct (search_id_complete _ _ _ L A C) as [f E]. congruence.
  - exact (search_id_complete _ _ _ L A C).
Qed.

Lemma amazon_product_id_complete_witness :
  exists found,
    _extract_amazon_product_id
      "https://www.amazon.eg/Joyroom-Pencil/dp/B0CHX1W1XY/ref=sr_1_1"
    = Some found.
Proof.
  apply (amazon_product_id_complete _ "B0CHX1W1XY").
  - reflexivity.
  - reflexivity.
  - left. vm_compute. reflexivity.
Defined.

Lemma search_id_first (pre id rest : string) :
  String.length id = 10%nat -> PyStr.all id_char id = true ->
  PyStr.contains "/dp/" pre = false ->
  search_id "/dp/" (pre ++ "/dp/" ++ id ++ rest) = Some id.
Proof.
  intros L A.
  assert (H0 : id_here "/dp/" ("/dp/" ++ id ++ rest) = Some id).
  { apply id_here_complete; [exact L | exact A |].
    rewrite <- str_app_assoc.
    rewrite <- (append_empty_r ("/dp/" ++ id)) at 1.
    rewrite prefix_app_same. apply prefix_empty. }
  induction pre as [| c pre IH]; intros C.
  - cbn [append] in H0 |- *. cbn [search_id]. rewrite H0. reflexivity.
  - cbn [PyStr.contains] in C. apply orb_false_elim in C as [C1 C2].
    change (String c pre ++ "/dp/" ++ id ++ rest)
      with (String c (pre ++ "/dp/" ++ id ++ rest)).
    cbn [search_id].
    destruct (id_here "/dp/" (String c (pre ++ "/dp/" ++ id ++ rest)))
      as [found |] eqn:H; [exfalso | exact (IH C2)].
    apply id_here_sound in H as (L' & A' & P).
    apply prefix_split in P. rewrite str_app_assoc in P.
    remember (Text.drop (String.length ("/dp/" ++ found)) _) as r eqn:E.
    clear E.
    destruct found as [| f found]; [discriminate L' |].
    simpl in A'. apply andb_prop in A' as [Af _].
    destruct pre as [| c1 [| c2 [| c3 pre]]]; cbn [append] in P.
    + injection P as _ P. discriminate P.
    + injection P as _ _ P. discriminate P.
    + inversion P; subst. discriminate Af.
    + injection P as -> -> -> -> _.
      change (String.prefix "/dp/" (String "/" (String "d" (String "p"
                (String "/" pre))))) with (String.prefix "" pre) in C1.
      rewrite prefix_empty in C1. discriminate C1.
Qed.

(** X14.  When ten characters of [[A-Z0-9]] follow the first "/dp/" of an
    address, [_extract_amazon_product_id] returns these ten, whatever
    comes after them. *)
Theorem amazon_product_id_first (pre id rest : string) :
  String.length id = 10%nat -> PyStr.all id_char id = true ->
  PyStr.contains "/dp/" pre = false ->
  _extract_amazon_product_id (pre ++ "/dp/" ++ id ++ rest) = Some id.
Proof.
  intros L A C. unfold _extract_amazon_product_id.
  rewrite (search_id_first _ _ _ L A C). reflexivity.
Qed.

Lemma amazon_product_id_first_witness :
  _extract_amazon_product_id
    ("https://www.amazon.eg/Joyroom-Pencil" ++ "/dp/" ++ "B0CHX1W1XY"
     ++ "/ref=sr_1_1?product/B0AAAAAAAA")
  = Some "B0CHX1W1XY".
Proof.
  apply (amazon_product_id_first "https://www.amazon.eg/Joyroom-Pencil"
           "B0CHX1W1XY" "/ref=sr_1_1?product/B0AAAAAAAA").
  - reflexivity.
  - reflexivity.
  - vm_compute. reflexivity.
Defined.

(** ** The links that are opened *)

Lemma strongly_sorted_app {A : Type} (R : A -> A -> Prop) (l1 l2 : list A) :
  StronglySorted R (l1 ++ l2) ->
  StronglySorted R l1 /\ Forall (fun a => Forall (R a) l2) l1.
Proof.
  induction l1 as [| x l1 IH]; simpl; intros S.
  - split; constructor.
  - inversion S as [| y l S' F]; subst.
    destruct (IH S') as [S1 F1]. apply Forall_app in F as [Fa Fb].
    split; constructor; assumption.
Qed.

(** X15.  With [best_only], [open_product_links] opens the addresses of
    five offers, or of all when there are fewer, cheapest first, and no
    offer left out is cheaper than one that is opened.  The offers are
    those of [search_products], priced above zero. *)
Theorem open_best_links (products : list Product) :
  Forall positive_price products ->
  exists opened rest,
    Tool.open_product_links products true = Returns (List.map url opened)
    /\ Permutation (opened ++ rest) products
    /\ List.length opened = Nat.min 5 (List.length products)
    /\ ascending opened
    /\ Forall (fun a => Forall (fun b => price_lt b a = false) rest) opened.
Proof.
  intros P.
  exists (firstn 5 (stable_sort products)), (skipn 5 (stable_sort products)).
  pose proof (stable_sort_ascending _ P) as S. unfold ascending in S.
  rewrite <- (firstn_skipn 5 (stable_sort products)) in S.
  apply strongly_sorted_app in S as [S1 S2].
  split; [| split; [| split; [| split]]].
  - unfold Tool.open_product_links.
    rewrite (sorted_by_price_returns _ P).
    destruct products; reflexivity.
  - rewrite firstn_skipn. apply stable_sort_perm.
  - rewrite length_firstn.
    rewrite (Permutation_length (stable_sort_perm products)). reflexivity.
  - exact S1.
  - exact S2.
Qed.

Lemma open_best_links_witness :
  exists opened rest,
    Tool.open_product_links four_prices true = Returns (List.map url opened)
    /\ Permutation (opened ++ rest) four_prices
    /\ List.length opened = Nat.min 5 (List.length four_prices)
    /\ ascending opened
    /\ Forall (fun a => Forall (fun b => price_lt b a = false) rest) opened.
Proof.
  apply (open_best_links four_prices).
  repeat constructor; eexists; (split; [reflexivity | vm_compute; reflexivity]).
Defined.

(** ** What the scrapers return *)

Lemma scrape_wellformed (site : string) (complete : string -> string)
      (page : Page) :
  (forall href, PyStr.startswith "http" (complete href) = true) ->
  Forall (fun p => website p = site
                   /\ PyStr.startswith "http" (url p) = true)
         (scrape site complete page)
  /\ (List.length (scrape site complete page) <= 30)%nat.
Proof.
  intros C. split.
  - apply Forall_forall. intros p H.
    destruct page as [items |]; simpl in H; [| contradiction].
    apply in_keep_some, in_map_iff in H as (item & E & _).
    unfold scrape_item in E.
    destruct (name_elem item), (price_elem item), (link item);
      try discriminate E.
    destruct (_extract_price _) as [[x |] | e]; try discriminate E.
    destruct (truthy x); [| discriminate E].
    injection E as <-. simpl. split; [reflexivity | apply C].
  - destruct page as [items |]; cbn [scrape]; [| simpl; lia].
    assert (K : forall (l : list (option Product)),
                  (List.length (keep_some l) <= List.length l)%nat).
    { induction l as [| [a |] l IH]; simpl; lia. }
    etransitivity; [apply K |].
    rewrite length_map, length_firstn. lia.
Qed.

Lemma absolute_http (prefix href : string) :
  PyStr.startswith "http" prefix = true ->
  PyStr.startswith "http" (absolute prefix href) = true.
Proof.
  intros H. unfold absolute.
  destruct (PyStr.startswith "http" href) eqn:E; [exact E |].
  unfold PyStr.startswith in *. apply prefix_split in H.
  rewrite H, str_app_assoc.
  rewrite <- (append_empty_r "http") at 1.
  rewrite prefix_app_same. apply prefix_empty.
Qed.

(** X16.  Every offer gathered for a query bears the name of one of the
    three storefronts and an address that starts with "http", and there
    are at most thirty offers of each storefront, ninety in all. *)
Theorem offers_wellformed (amazon noon carrefour : Page) :
  Forall (fun p => In (website p)
                      ["Amazon Egypt"; "Noon Egypt"; "Carrefour Egypt"]
                   /\ PyStr.startswith "http" (url p) = true)
         (all_products amazon noon carrefour)
  /\ (List.length (scrape_amazon amazon) <= 30)%nat
  /\ (List.length (scrape_noon noon) <= 30)%nat
  /\ (List.length (scrape_carrefour carrefour) <= 30)%nat
  /\ (List.length (all_products amazon noon carrefour) <= 90)%nat.
Proof.
  unfold all_products, scrape_amazon, scrape_noon, scrape_carrefour.
  destruct (scrape_wellformed "Amazon Egypt"
              (absolute "https://www.amazon.eg") amazon) as [A1 A2];
    [intros href; apply absolute_http; reflexivity |].
  destruct (scrape_wellformed "Noon Egypt"
              (fun href => "https://www.noon.com" ++ href) noon) as [N1 N2];
    [intros href; reflexivity |].
  destruct (scrape_wellformed "Carrefour Egypt"
              (absolute "https://www.carrefouregypt.com") carrefour)
    as [C1 C2]; [intros href; apply absolute_http; reflexivity |].
  split; [| rewrite !length_app; lia].
  repeat (apply Forall_app; split);
    [revert A1 | revert N1 | revert C1]; apply Forall_impl;
    intros p [-> H]; (split; [simpl; auto | exact H]).
Qed.

(** ** What [save_results] stores *)

Lemma save_product_other (t : Table) (product : Product) (row : Row) :
  (name product, website product) <> key row ->
  List.filter (conflicts row) (save_product t product)
  = List.filter (conflicts row) t.
Proof.
  intros N. unfold save_product.
  destruct (price product) as [p |]; [| reflexivity].
  destruct (name product =? "")%string; [reflexivity |].
  unfold insert_or_replace. rewrite filter_app. simpl.
  replace (conflicts row (row_of product p)) with false.
  - rewrite app_nil_r.
    induction t as [| r t IH]; simpl; [reflexivity |].
    destruct (conflicts (row_of product p) r) eqn:C; simpl.
    + replace (conflicts row r) with false; [exact IH |].
      symmetry. apply not_true_is_false. intros H.
      apply conflicts_key in C, H. apply N. rewrite <- H, C. reflexivity.
    + rewrite IH. reflexivity.
  - symmetry. apply not_true_is_false. intros H.
    apply conflicts_key in H. apply N. rewrite <- H. reflexivity.
Qed.

Lemma save_results_others (t : Table) (products : list Product) (row : Row) :
  Forall (fun later => (name later, website later) <> key row) products ->
  List.filter (conflicts row) (save_results t products)
  = List.filter (conflicts row) t.
Proof.
  unfold save_results. intros F. revert t.
  induction F as [| later after Hl F IH]; intros t; [reflexivity |].
  cbn [fold_left]. rewrite IH. apply save_product_other, Hl.
Qed.

Lemma save_results_app (t : Table) (before after : list Product) :
  save_results t (before ++ after)
  = save_results (save_results t before) after.
Proof. apply fold_left_app. Qed.

Lemma save_product_row (t : Table) (product : Product) (p : float) :
  price product = Some p -> name product <> "" ->
  List.filter (conflicts (row_of product p)) (save_product t product)
  = [row_of product p].
Proof.
  intros E N. unfold save_product. rewrite E.
  destruct (String.eqb_spec (name product) ""); [contradiction |].
  apply insert_or_replace_conflicting.
Qed.

(** X17.  [save_results] keeps, for a name and a website, the offer saved
    last: after the call the store holds exactly one row for the name and
    website of an offer that has a name and a price and that no later
    offer of the list repeats, and it is the row of that offer, whatever
    was stored or saved before. *)
Theorem save_results_last_wins (t : Table) (before after : list Product)
        (product : Product) (p : float) :
  price product = Some p -> name product <> "" ->
  Forall (fun later => (name later, website later)
                       <> (name product, website product)) after ->
  List.filter (conflicts (row_of product p))
              (save_results t (before ++ product :: after))
  = [row_of product p].
Proof.
  intros E N F.
  rewrite save_results_app.
  change (product :: after) with ([product] ++ after)%list.
  rewrite save_results_app, (save_results_others _ after) by exact F.
  apply save_product_row; assumption.
Qed.

Lemma save_results_last_wins_witness :
  List.filter (conflicts (row_of (offer "X" 500 "Amazon Egypt" 2)
                                 (of_int 500)))
              (save_results setup_database
                 ([offer "X" 300 "Amazon Egypt" 1]
                  ++ offer "X" 500 "Amazon Egypt" 2
                  :: [offer "X" 400 "Noon Egypt" 3]))
  = [row_of (offer "X" 500 "Amazon Egypt" 2) (of_int 500)].
Proof.
  apply (save_results_last_wins setup_database
           [offer "X" 300 "Amazon Egypt" 1]
           [offer "X" 400 "Noon Egypt" 3]
           (offer "X" 500 "Amazon Egypt" 2) (of_int 500)).
  - reflexivity.
  - discriminate.
  - repeat constructor. discriminate.
Defined.

(** ** Addresses shortened for display *)

Lemma length_take (n : nat) (s : string) :
  String.length (PyStr.take n s) = Nat.min n (String.length s).
Proof.
  unfold PyStr.take. revert s. induction n as [| n IH]; intros s.
  - destruct s; reflexivity.
  - destruct s as [| c s]; [reflexivity |].
    cbn [String.substring String.length]. rewrite IH. reflexivity.
Qed.

Lemma length_drop (n : nat) (s : string) :
  String.length (Text.drop n s) = (String.length s - n)%nat.
Proof.
  revert s. induction n as [| n IH]; intros s; [simpl; lia |].
  destruct s as [| c s]; [reflexivity |]. simpl. apply IH.
Qed.

Lemma take_drop (n : nat) (s : string) :
  PyStr.take n s ++ Text.drop n s = s.
Proof.
  unfold PyStr.take. revert s. induction n as [| n IH]; intros s.
  - destruct s; reflexivity.
  - destruct s as [| c s]; [reflexivity |].
    cbn [String.substring Text.drop append]. rewrite IH. reflexivity.
Qed.

Lemma index_of_bound (c : ascii) (s : string) (k : nat) :
  Text.index_of c s = Some k -> (k < String.length s)%nat.
Proof.
  revert k. induction s as [| x s IH]; intros k; simpl; [discriminate |].
  destruct (Ascii.eqb x c); [intros [= <-]; lia |].
  destruct (Text.index_of c s) as [j |]; [| discriminate].
  intros [= <-]. specialize (IH j eq_refl). lia.
Qed.

Lemma index_of_cut (c : ascii) (s rest : string) (k : nat) :
  Text.index_of c s = Some k ->
  Text.index_of c (PyStr.take k s ++ String c rest) = Some k.
Proof.
  unfold PyStr.take. revert k.
  induction s as [| x s IH]; intros k; simpl; [discriminate |].
  destruct (Ascii.eqb x c) eqn:E.
  - intros [= <-]. simpl. rewrite Ascii.eqb_refl. reflexivity.
  - destruct (Text.index_of c s) as [j |]; [| discriminate].
    intros [= <-]. simpl. rewrite E, (IH j eq_refl). reflexivity.
Qed.

Lemma find_from_bound (c : ascii) (start : nat) (s : string) (d : nat) :
  Text.find_from c start s = Some d ->
  (start <= d < String.length s)%nat.
Proof.
  unfold Text.find_from.
  destruct (Text.index_of c (Text.drop start s)) as [k |] eqn:E;
    [| discriminate].
  intros [= <-]. apply index_of_bound in E. rewrite length_drop in E. lia.
Qed.

Lemma take_split (a k : nat) (s : string) :
  (a <= String.length s)%nat ->
  PyStr.take (a + k) s = PyStr.take a s ++ PyStr.take k (Text.drop a s).
Proof.
  unfold PyStr.take. revert s. induction a as [| a IH]; intros s L.
  - destruct s; reflexivity.
  - destruct s as [| c s]; [simpl in L; lia |].
    simpl in L. cbn [Nat.add String.substring Text.drop append].
    rewrite IH by lia. reflexivity.
Qed.

(** The first [/] after the host is found again in the shortened text. *)
Lemma find_from_cut (c : ascii) (start : nat) (s rest : string) (d : nat) :
  Text.find_from c start s = Some d ->
  Text.find_from c start (PyStr.take d s ++ String c rest) = Some d.
Proof.
  intros F. pose proof (find_from_bound _ _ _ _ F) as B.
  unfold Text.find_from in *.
  destruct (Text.index_of c (Text.drop start s)) as [k |] eqn:E;
    [| discriminate].
  injection F as <-.
  assert (L : String.length (PyStr.take start s) = start)
    by (rewrite length_take; lia).
  assert (D : forall x, Text.drop start (PyStr.take start s ++ x) = x)
    by (intros x; rewrite <- L at 1; apply drop_app_length).
  rewrite take_split, str_app_assoc, D by lia.
  rewrite (index_of_cut _ _ _ _ E). reflexivity.
Qed.

(** X18.  The [_shorten_url] of the module is idempotent, and its result
    has at most 60 characters when the address has no [/] from its ninth
    character on or has the first of them among its first 57
    characters.  Otherwise the result is the part before that [/]
    followed by "/...", which is longer than 60 characters. *)
Theorem shorten_url_idempotent (url : string) :
  Script._shorten_url (Script._shorten_url url) = Script._shorten_url url
  /\ ((forall d, Text.find_from "/" 8 url = Some d -> (d <= 56)%nat) ->
      (String.length (Script._shorten_url url) <= 60)%nat)
  /\ (forall d, Text.find_from "/" 8 url = Some d ->
      (60 < String.length url)%nat ->
      String.length (Script._shorten_url url) = (d + 4)%nat).
Proof.
  destruct (Nat.leb_spec (String.length url) 60) as [L | L].
  { assert (E : Script._shorten_url url = url).
    { unfold Script._shorten_url.
      destruct (Nat.leb_spec (String.length url) 60); [reflexivity | lia]. }
    rewrite !E. split; [reflexivity |]. split; [intros _; exact L |].
    intros d _ H. lia. }
  destruct (Text.find_from "/" 8 url) as [d |] eqn:F.
  - pose proof (find_from_bound _ _ _ _ F) as B.
    assert (E : Script._shorten_url url = PyStr.take d url ++ "/...").
    { unfold Script._shorten_url. rewrite F.
      destruct (Nat.leb_spec (String.length url) 60); [lia | reflexivity]. }
    assert (Ld : String.length (PyStr.take d url ++ "/...") = (d + 4)%nat).
    { rewrite length_append, length_take. simpl. lia. }
    rewrite !E. split; [| split].
    + unfold Script._shorten_url. rewrite Ld.
      destruct (Nat.leb_spec (d + 4) 60); [reflexivity |].
      rewrite (find_from_cut _ _ _ "..." _ F).
      assert (T : String.length (PyStr.take d url) = d)
        by (rewrite length_take; lia).
      rewrite <- T at 1. rewrite take_app_length. reflexivity.
    + intros H. specialize (H d eq_refl). rewrite Ld. lia.
    + intros d' [= <-] _. exact Ld.
  - assert (E : Script._shorten_url url = PyStr.take 57 url ++ "...").
    { unfold Script._shorten_url. rewrite F.
      destruct (Nat.leb_spec (String.length url) 60); [lia | reflexivity]. }
    assert (Ld : String.length (PyStr.take 57 url ++ "...") = 60%nat).
    { rewrite length_append, length_take.
      change (String.length "...") with 3%nat. lia. }
    rewrite !E. split; [| split].
    + unfold Script._shorten_url. rewrite Ld. reflexivity.
    + intros _. rewrite Ld. lia.
    + intros d H. discriminate H.
Qed.

Lemma shorten_url_witness :
  (String.length
     (Script._shorten_url
        "https://www.amazon.eg/Joyroom-Pencil-Palm-Rejection-Magnetic/dp/B0CHX1W1XY")
   <= 60)%nat.
Proof.
  apply (proj1 (proj2 (shorten_url_idempotent
    "https://www.amazon.eg/Joyroom-Pencil-Palm-Rejection-Magnetic/dp/B0CHX1W1XY"))).
  intros d H. vm_compute in H. injection H as <-. lia.
Defined.

(** X19.  The method [_shorten_url] on an address longer than a limit
    [max_length] that is not negative: without a [/] from the ninth
    character on, the result has [max_length + 3] characters, three more
    than the limit; with one, the result keeps the part before the first
    of them and at most 30 characters from there on, whatever the limit
    is. *)
Theorem shorten_url_method_length (url : string) (max_length : Z) :
  0 <= max_length -> max_length < Z.of_nat (String.length url) ->
  match Text.find_from "/" 8 url with
  | None =>
      Z.of_nat (String.length (Tool._shorten_url url max_length))
      = max_length + 3
  | Some domain_end =>
      String.length (Tool._shorten_url url max_length)
      = (domain_end + Nat.min 30 (String.length url - domain_end))%nat
      /\ String.prefix (PyStr.take domain_end url)
                       (Tool._shorten_url url max_length) = true
  end.
Proof.
  intros P L. unfold Tool._shorten_url.
  destruct (Z.leb_spec (Z.of_nat (String.length url)) max_length); [lia |].
  destruct (Text.find_from "/" 8 url) as [d |] eqn:F.
  - pose proof (find_from_bound _ _ _ _ F) as B. cbv zeta. split.
    + rewrite length_append, length_take.
      destruct (Nat.ltb_spec 30 (String.length (Text.drop d url))) as [G | G];
        rewrite length_drop in G.
      * rewrite length_append, length_take, length_drop.
        change (String.length "...") with 3%nat. lia.
      * rewrite length_drop. lia.
    + rewrite <- (append_empty_r (PyStr.take d url)) at 1.
      rewrite prefix_app_same. apply prefix_empty.
  - unfold Text.slice_to.
    destruct (Z.ltb_spec max_length 0); [lia |].
    rewrite length_append, length_take.
    change (String.length "...") with 3%nat. lia.
Qed.

Lemma shorten_url_method_witness :
  Z.of_nat (String.length (Tool._shorten_url "https://www.noon.com" 10))
  = 10 + 3.
Proof.
  apply (shorten_url_method_length "https://www.noon.com" 10).
  - lia.
  - simpl. lia.
Defined.

(** ** Specifications *)

(** X20.  Every specification that [_extract_specs] returns is a word of
    the lowercased text, and it holds a decimal digit. *)
Theorem extract_specs_words (text spec : string) :
  In spec (_extract_specs text) ->
  In spec (PyStr.split (PyStr.lower text))
  /\ PyStr.filter PyStr.re_digit spec <> "".
Proof.
  unfold _extract_specs. intros H.
  apply in_flat_map in H as (word & W & H).
  assert (E : spec = word).
  { unfold specs_of_word in H. apply in_flat_map in H as (pattern & _ & H).
    destruct (Text.search pattern word); [| contradiction].
    destruct H as [<- | []]. reflexivity. }
  subst word. split; [exact W |].
  intros D. apply filter_none in D.
  rewrite (search_needs_digit _ D) in H. contradiction.
Qed.

Lemma extract_specs_words_witness :
  In "16gb" (PyStr.split (PyStr.lower "Lenovo Legion 16GB RAM"))
  /\ PyStr.filter PyStr.re_digit "16gb" <> "".
Proof.
  apply (extract_specs_words "Lenovo Legion 16GB RAM" "16gb").
  vm_compute. auto.
Defined.

(** ** From the ranking to the store *)

Lemma last_occurrence {A : Type} (q : A -> bool) (l : list A) :
  existsb q l = true ->
  exists before x after,
    l = (before ++ x :: after)%list /\ q x = true
    /\ Forall (fun y => q y = false) after.
Proof.
  induction l as [| y l IH]; [discriminate |].
  intros E. destruct (existsb q l) eqn:El.
  - destruct (IH eq_refl) as (before & x & after & -> & Qx & F).
    exists (y :: before), x, after. auto.
  - cbn [existsb] in E. rewrite El, orb_false_r in E.
    exists [], y, l. split; [reflexivity |]. split; [exact E |].
    apply Forall_forall. intros z Iz.
    destruct (q z) eqn:Qz; [| reflexivity].
    assert (H : existsb q l = true)
      by (apply existsb_exists; exists z; auto).
    congruence.
Qed.

(** X21.  When the ranked offers of a query are saved, the store ends
    with exactly one row for the name and website of every offer that has
    a name, and the price of that row is not below the price of the
    offer: of the offers that share a name and a website the ranking puts
    the dearest last, and [save_results] keeps the last. *)
Theorem ranked_offers_keep_dearest (t : Table) (amazon noon carrefour : Page)
        (ranked : list Product) (a : Product) (x : float) :
  search_products amazon noon carrefour = Returns ranked ->
  In a ranked -> name a <> "" -> price a = Some x ->
  exists r,
    List.filter (conflicts (row_of a x)) (save_results t ranked) = [r]
    /\ lt (row_price r) x = false.
Proof.
  intros S I N E.
  rewrite search_products_returns in S. injection S as <-.
  pose proof (all_products_positive amazon noon carrefour) as P.
  remember (all_products amazon noon carrefour) as products eqn:Ep.
  clear Ep.
  pose proof (stable_sort_ascending _ P) as Asc.
  apply (Permutation_Forall (Permutation_sym (stable_sort_perm products)))
    in P.
  remember (stable_sort products) as ranked eqn:Er. clear Er products.
  set (q := fun b : Product =>
              ((name b =? name a) && (website b =? website a))%string).
  assert (Qa : q a = true)
    by (unfold q; rewrite !String.eqb_refl; reflexivity).
  destruct (last_occurrence q ranked) as (before & z & after & -> & Qz & F).
  { apply existsb_exists. exists a. auto. }
  unfold q in Qz. apply andb_prop in Qz as [Zn Zw].
  apply String.eqb_eq in Zn, Zw.
  assert (Pz : positive_price z).
  { apply Forall_app in P as [_ P]. apply Forall_cons_iff in P as [P _].
    exact P. }
  destruct Pz as (y & Ey & Py).
  exists (row_of z y). split.
  - rewrite (filter_ext (conflicts (row_of a x)) (conflicts (row_of z y)))
      by (intros r; unfold conflicts; simpl; rewrite Zn, Zw; reflexivity).
    rewrite save_results_app.
    change (z :: after) with ([z] ++ after)%list.
    rewrite save_results_app, (save_results_others _ after).
    + apply save_product_row; [exact Ey | congruence].
    + revert F. apply Forall_impl. intros b Qb [= Hn Hw].
      unfold q in Qb. rewrite Hn, Hw, Zn, Zw, !String.eqb_refl in Qb.
      discriminate Qb.
  - simpl. apply in_app_or in I as [I | [<- | I]].
    + unfold ascending in Asc.
      apply strongly_sorted_app in Asc as [_ Asc].
      pose proof (proj1 (Forall_forall _ _) Asc a I) as H.
      apply Forall_cons_iff in H as [H _].
      unfold price_lt, key_lt in H. rewrite Ey, E in H. exact H.
    + assert (y = x) by congruence. subst y. apply lt_irrefl.
    + pose proof (proj1 (Forall_forall _ _) F a I). congruence.
Qed.

Lemma ranked_offers_keep_dearest_witness :
  exists r,
    List.filter
      (conflicts (row_of (offer "X" 999 "Amazon Egypt" 1) (of_int 999)))
      (save_results setup_database
         (stable_sort
            (all_products
               (Some [item "X" "1,200.00" "https://example.com/X" 1;
                      item "X" "999.00" "https://example.com/X" 1])
               None None)))
    = [r]
    /\ lt (row_price r) (of_int 999) = false.
Proof.
  apply (ranked_offers_keep_dearest setup_database
           (Some [item "X" "1,200.00" "https://example.com/X" 1;
                  item "X" "999.00" "https://example.com/X" 1])
           None None).
  - vm_compute. reflexivity.
  - vm_compute. left. reflexivity.
  - discriminate.
  - reflexivity.
Defined.
